(** * The NOUN portal database layer ([src/db.js]) and its specification

    [db.js] keeps a small relational database in the browser's
    [localStorage]: one JSON array of flat records per key.  Every
    operation reads whole collections with [get], changes the parsed copy
    and writes it back with [set].  This development embeds that module
    and states the properties its specification claims about it.

    Conventions of the embedding.
    - [localStorage] is the record [Store]: one list of typed records per
      key, in insertion order.  An absent key reads as the empty list, as
      [get] returns [[]] for it.
    - [uid()], [now()] and [Date.now()] read the environment.  Their
      successive results are given by the streams of [Env]; a [World]
      pairs the storage with the environment and the number of reads made
      so far.
    - Mutators run in the monad [M]: a computation takes a world and gives
      back an [outcome] (a returned value or a thrown [Error]) and the
      world it leaves behind.  A throw does not roll anything back.
    - Identifiers, names and dates are strings; the module only stores
      and compares them.  The units argument of [addCourse], which
      [parseInt] reads character by character, is given as its sequence
      of UTF-16 code units.
    - A score is a finite number, given by its exact rational value: the
      code only compares it with integer thresholds and sends it through
      JSON, and both are exact on finite doubles.  Feedback ratings and
      file sizes are integers which the module only stores.
    - The numbers the module computes with (course units, the sums and
      the quotient of [calcGPA]) are binary64 doubles, in the IEEE 754
      model of the standard library ([SpecFloat], precision 53, [emax]
      1024): [+], [*] and [/] round to nearest, ties to even.  A stored
      number is what JSON keeps of it: [null] for an infinity. *)

From Stdlib Require Import ZArith QArith Lqa Floats.SpecFloat Ascii String Lia.
From stdpp Require Import base option list strings gmap.

Open Scope string_scope.
Open Scope list_scope.
Open Scope nat_scope.

(** ** JavaScript built-ins used by the module *)

Module Js.

(** [a || b] on strings that may be [undefined]: the empty string and
    [undefined] are falsy. *)
Definition or_else (a : option string) (b : string) : string :=
  match a with
  | Some s => if decide (s = "") then b else s
  | None => b
  end.

(** [s.split(' ')[0]]: the part of [s] before its first space. *)
Fixpoint before_space (s : string) : string :=
  match s with
  | EmptyString => EmptyString
  | String c r => if Ascii.eqb c " "%char then EmptyString else String c (before_space r)
  end.

(** *** Numbers

    A Number is a binary64 double. *)

Definition number : Type := spec_float.

Definition prec : Z := 53.
Definition emax : Z := 1024.

(** The Number for a mathematical integer: the integer itself up to
    [2^53], the nearest double beyond (ties to even), an infinity past the
    largest double. *)
Definition of_Z (z : Z) : number := binary_normalize prec emax z 0 false.

Definition add (x y : number) : number := SFadd prec emax x y.
Definition mul (x y : number) : number := SFmul prec emax x y.
Definition div (x y : number) : number := SFdiv prec emax x y.

(** [ToBoolean]: zeros and [NaN] are falsy. *)
Definition truthy (x : number) : bool :=
  match x with
  | S754_zero _ | S754_nan => false
  | _ => true
  end.

(** [x || y] on Numbers. *)
Definition or_number (x y : number) : number := if truthy x then x else y.

(** What [JSON.parse(JSON.stringify(x))] gives for a Number: [None] is
    [null], written for an infinity and for [NaN]; [-0] is written [0]. *)
Definition json_number (x : number) : option number :=
  match x with
  | S754_zero _ => Some (S754_zero false)
  | S754_finite _ _ _ => Some x
  | _ => None
  end.

(** [ToNumber] of a Number or [null]. *)
Definition to_number (v : option number) : number := default (S754_zero false) v.

(** The property names every plain object inherits from
    [Object.prototype].  Each is a function, except [__proto__] which is
    the prototype object itself: all are truthy, and [NaN] as Numbers. *)
Definition Object_prototype : list string :=
  ["constructor"; "__defineGetter__"; "__defineSetter__"; "hasOwnProperty";
   "__lookupGetter__"; "__lookupSetter__"; "isPrototypeOf";
   "propertyIsEnumerable"; "toString"; "valueOf"; "__proto__";
   "toLocaleString"].

(** *** [parseInt(x)] with no radix

    The argument is first turned into a string; the embedding starts from
    the code units of that string.  Leading white space
    ([StrWhiteSpaceChar]: the white space and line terminators of the
    language) is skipped, an optional sign is read, a [0x]/[0X] prefix
    selects radix 16 and the longest prefix of digits of the radix is the
    numeral.  Without a digit the result is [NaN]; a numeral that denotes
    0 gives [-0] after a minus sign and [+0] otherwise; any other gives
    the Number for the signed integer.  (For decimal numerals of more
    than 20 digits the language lets an implementation round the integer
    before that; the embedding does not.) *)
Definition text : Type := list N.

(** The code units of a string of ASCII characters. *)
Definition code_units (s : string) : text :=
  (fun c => N_of_ascii c) <$> list_ascii_of_string s.

Definition is_white (c : N) : bool :=
  ((c =? 9) || (c =? 10) || (c =? 11) || (c =? 12) || (c =? 13) || (c =? 32)
   || (c =? 160) || (c =? 5760) || ((8192 <=? c) && (c <=? 8202))
   || (c =? 8232) || (c =? 8233) || (c =? 8239) || (c =? 8287)
   || (c =? 12288) || (c =? 65279))%N.

Fixpoint trim_start (s : text) : text :=
  match s with
  | c :: r => if is_white c then trim_start r else s
  | [] => []
  end.

Definition digit_value (radix : Z) (c : N) : option Z :=
  let n := Z.of_N c in
  let v :=
    if (48 <=? n)%Z && (n <=? 57)%Z then Some (n - 48)%Z
    else if (97 <=? n)%Z && (n <=? 122)%Z then Some (n - 87)%Z
    else if (65 <=? n)%Z && (n <=? 90)%Z then Some (n - 55)%Z
    else None in
  match v with
  | Some d => if (d <? radix)%Z then Some d else None
  | None => None
  end.

(** Reads the longest prefix of digits; [acc] is [None] until a digit has
    been read. *)
Fixpoint read_digits (radix : Z) (acc : option Z) (s : text) : option Z :=
  match s with
  | [] => acc
  | c :: r =>
      match digit_value radix c with
      | Some d => read_digits radix (Some (default 0%Z acc * radix + d)%Z) r
      | None => acc
      end
  end.

(** A leading [-] (45) or [+] (43). *)
Definition strip_sign (s : text) : bool * text :=
  match s with
  | c :: r => if (c =? 45)%N then (true, r)
              else if (c =? 43)%N then (false, r) else (false, s)
  | [] => (false, s)
  end.

(** A leading [0x] or [0X] (48, then 120 or 88). *)
Definition strip_hex_prefix (s : text) : Z * text :=
  match s with
  | a :: b :: r =>
      if ((a =? 48) && ((b =? 120) || (b =? 88)))%N then (16%Z, r) else (10%Z, s)
  | _ => (10%Z, s)
  end.

(** The sign and the mathematical integer of the numeral, if any. *)
Definition read_integer (x : text) : option (bool * Z) :=
  let '(neg, s1) := strip_sign (trim_start x) in
  let '(radix, s2) := strip_hex_prefix s1 in
  match read_digits radix None s2 with
  | Some n => Some (neg, n)
  | None => None
  end.

Definition parseInt (x : text) : number :=
  match read_integer x with
  | Some (neg, n) =>
      if decide (n = 0%Z) then S754_zero neg
      else of_Z (if neg then (- n)%Z else n)
  | None => S754_nan
  end.

(** *** [toFixed(2)] *)

Definition digit_char (d : Z) : ascii := ascii_of_nat (48 + Z.to_nat d).

(** Decimal numeral of a natural number, most significant digit first.
    [fuel] bounds the number of digits. *)
Fixpoint decimal_aux (fuel : nat) (n : Z) (acc : string) : string :=
  match fuel with
  | O => acc
  | S f =>
      let acc' := String (digit_char (n mod 10)) acc in
      if (n <? 10)%Z then acc' else decimal_aux f (n / 10)%Z acc'
  end.

Definition decimal (n : Z) : string :=
  decimal_aux (S (Z.to_nat (Z.log2 n))) n EmptyString.

(** The integer [n] for which [n / 100 - x] is closest to zero, the larger
    one on a tie, for [x = m * 2^e >= 0]. *)
Definition scaled_round (m : positive) (e : Z) : Z :=
  let k := Z.max (- e) 0 in
  ((200 * Z.pos m * 2 ^ Z.max e 0 + 2 ^ k) / (2 * 2 ^ k))%Z.

(** [m * 2^e >= 10^21] *)
Definition at_least_1e21 (m : positive) (e : Z) : bool :=
  (10 ^ 21 * 2 ^ Z.max (- e) 0 <=? Z.pos m * 2 ^ Z.max e 0)%Z.

(** The digits of [n], padded on the left to three, with the point before
    the last two. *)
Definition fixed2 (n : Z) : string :=
  decimal (n / 100) +:+ "." +:+
  String (digit_char (n / 10 mod 10)) (String (digit_char (n mod 10)) EmptyString).

(** [x.toFixed(2)].  A value that is not finite is rendered by
    [Number::toString]; so is a finite value of magnitude at least
    [10^21], in exponential notation whose digits this development does
    not embed: [None] stands for that one case. *)
Definition toFixed2 (x : spec_float) : option string :=
  match x with
  | S754_nan => Some "NaN"
  | S754_infinity s => Some (if s then "-Infinity" else "Infinity")
  | S754_zero _ => Some "0.00"
  | S754_finite s m e =>
      if at_least_1e21 m e then None
      else Some ((if s then "-" else "") +:+ fixed2 (scaled_round m e))
  end.

End Js.

(** ** The schema: one record type per collection *)

Module User.
Record t := mk
  { id : string; username : string; password : string; role : string;
    name : string; email : string; phone : string; createdAt : string }.
End User.

Module Student.
Record t := mk
  { id : string; userId : string; matric : string; department : string;
    level : string; studyCenter : string }.
End Student.

Module Lecturer.
Record t := mk
  { id : string; userId : string; staffId : string; department : string }.
End Lecturer.

Module Course.
Record t := mk
  { id : string; code : string; title : string;
    units : option Js.number;   (* a Number, or [None] for [null] *)
    lecturerId : string }.
End Course.

Module Enrollment.
Record t := mk
  { id : string; studentId : string; courseId : string; semester : string;
    date : string }.
End Enrollment.

Module Result.
Record t := mk
  { id : string; studentId : string; courseId : string; score : Q;
    grade : string; semester : string; updatedAt : string;
    updatedBy : string }.
End Result.

Module Material.
Record t := mk
  { id : string; courseId : string; title : string; type : string;
    filename : string; data : string; size : Z; uploadedBy : string;
    uploaderName : string; uploadedAt : string }.
End Material.

Module AuditEntry.
Record t := mk
  { id : string; ts : string; actorId : string; actorName : string;
    studentId : string; courseId : string; oldGrade : string;
    newGrade : string; reason : string }.
End AuditEntry.

Module Feedback.
Record t := mk
  { id : string; userId : string; userName : string; role : string;
    easeOfUse : Z; speed : Z; satisfaction : Z; comments : string;
    submittedAt : string }.
End Feedback.

(** ** Storage, environment and the monad of the mutators *)

(** The parsed contents of [localStorage]: [noun_users], [noun_students],
    ..., and the boot marker [noun_booted]. *)
Record Store := mkStore
  { users : list User.t;
    students : list Student.t;
    lecturers : list Lecturer.t;
    courses : list Course.t;
    enrollments : list Enrollment.t;
    results : list Result.t;
    materials : list Material.t;
    audit_trail : list AuditEntry.t;
    feedback : list Feedback.t;
    booted : bool }.

(** What the [n]-th read of the environment returns, for each of the
    three things the module reads from it. *)
Record Env := mkEnv
  { uid_at : nat -> string;       (* uid() *)
    now_at : nat -> string;       (* now(): "YYYY-MM-DD HH:MM:SS" *)
    date_now_at : nat -> string   (* the decimal numeral of Date.now() *) }.

Record World := mkWorld
  { storage : Store; env : Env; reads : nat }.

Inductive outcome (A : Type) : Type :=
  | Returned (a : A)
  | Thrown (message : string).
Arguments Returned {A} a.
Arguments Thrown {A} message.

Definition M (A : Type) : Type := World -> outcome A * World.

#[global] Instance M_ret : MRet M := fun A a w => (Returned a, w).

#[global] Instance M_bind : MBind M := fun A B f m w =>
  match m w with
  | (Returned a, w') => f a w'
  | (Thrown msg, w') => (Thrown msg, w')
  end.

(** [throw new Error(msg)] *)
Definition throw {A} (msg : string) : M A := fun w => (Thrown msg, w).

(** A read of the storage. *)
Definition get {A} (k : Store -> A) : M A := fun w => (Returned (k (storage w)), w).

(** A write of the storage. *)
Definition put (f : Store -> Store) : M unit :=
  fun w => (Returned tt, mkWorld (f (storage w)) (env w) (reads w)).

Definition read_env (src : Env -> nat -> string) : M string :=
  fun w => (Returned (src (env w) (reads w)),
            mkWorld (storage w) (env w) (S (reads w))).

Definition uid : M string := read_env uid_at.
Definition now : M string := read_env now_at.
Definition Date_now : M string := read_env date_now_at.

(** [set(k, v)], one function per key. *)
Definition set_users (v : list User.t) : M unit :=
  put (fun s => mkStore v (students s) (lecturers s) (courses s) (enrollments s)
                  (results s) (materials s) (audit_trail s) (feedback s) (booted s)).
Definition set_students (v : list Student.t) : M unit :=
  put (fun s => mkStore (users s) v (lecturers s) (courses s) (enrollments s)
                  (results s) (materials s) (audit_trail s) (feedback s) (booted s)).
Definition set_lecturers (v : list Lecturer.t) : M unit :=
  put (fun s => mkStore (users s) (students s) v (courses s) (enrollments s)
                  (results s) (materials s) (audit_trail s) (feedback s) (booted s)).
Definition set_courses (v : list Course.t) : M unit :=
  put (fun s => mkStore (users s) (students s) (lecturers s) v (enrollments s)
                  (results s) (materials s) (audit_trail s) (feedback s) (booted s)).
Definition set_enrollments (v : list Enrollment.t) : M unit :=
  put (fun s => mkStore (users s) (students s) (lecturers s) (courses s) v
                  (results s) (materials s) (audit_trail s) (feedback s) (booted s)).
Definition set_results (v : list Result.t) : M unit :=
  put (fun s => mkStore (users s) (students s) (lecturers s) (courses s) (enrollments s)
                  v (materials s) (audit_trail s) (feedback s) (booted s)).
Definition set_materials (v : list Material.t) : M unit :=
  put (fun s => mkStore (users s) (students s) (lecturers s) (courses s) (enrollments s)
                  (results s) v (audit_trail s) (feedback s) (booted s)).
Definition set_audit_trail (v : list AuditEntry.t) : M unit :=
  put (fun s => mkStore (users s) (students s) (lecturers s) (courses s) (enrollments s)
                  (results s) (materials s) v (feedback s) (booted s)).
Definition set_feedback (v : list Feedback.t) : M unit :=
  put (fun s => mkStore (users s) (students s) (lecturers s) (courses s) (enrollments s)
                  (results s) (materials s) (audit_trail s) v (booted s)).
Definition set_booted : M unit :=
  put (fun s => mkStore (users s) (students s) (lecturers s) (courses s) (enrollments s)
                  (results s) (materials s) (audit_trail s) (feedback s) true).

(** [l.find(p)]: the first element that satisfies [p]. *)
Definition find {A} (P : A -> Prop) `{!forall x, Decision (P x)} (l : list A) : option A :=
  snd <$> list_find P l.

(** [l.findIndex(p)], [None] for [-1]. *)
Definition findIndex {A} (P : A -> Prop) `{!forall x, Decision (P x)} (l : list A) : option nat :=
  fst <$> list_find P l.

(** ** The module [DB] *)

(** *** Grade helper *)

Definition scoreToGrade (s : Q) : string :=
  if Qle_bool 70 s then "A"
  else if Qle_bool 60 s then "B"
  else if Qle_bool 50 s then "C"
  else if Qle_bool 40 s then "D"
  else "F".

(** *** Seeding on first run *)

Definition admin_user (created : string) : User.t :=
  User.mk "admin_001" "admin" "admin123" "admin" "Portal Administrator"
    "admin@noun.edu.ng" "" created.

Definition boot : M unit :=
  b ← get booted;
  if b : bool then mret tt
  else
    t ← now;
    set_users [admin_user t];;
    set_students [];; set_lecturers [];; set_courses [];;
    set_enrollments [];; set_results [];; set_materials [];;
    set_audit_trail [];; set_feedback [];;
    set_booted.

(** *** Users, students, lecturers *)

Definition getUserById (id : string) (s : Store) : option User.t :=
  find (fun u => User.id u = id) (users s).

Definition getStudentById (id : string) (s : Store) : option Student.t :=
  find (fun st => Student.id st = id) (students s).

(** The argument object of [addStudent]; [None] is a property left
    [undefined]. *)
Record StudentFields := mkStudentFields
  { sf_name : string; sf_username : string; sf_password : string;
    sf_email : option string; sf_phone : option string; sf_matric : string;
    sf_department : string; sf_level : string;
    sf_studyCenter : option string }.

Definition addStudent (f : StudentFields) : M string :=
  users_ ← get users;
  match find (fun u => User.username u = sf_username f) users_ with
  | Some _ => throw "Username already exists."
  | None =>
      students0 ← get students;
      match find (fun s => Student.matric s = sf_matric f) students0 with
      | Some _ => throw "Matric number already exists."
      | None =>
          userId ← uid;
          created ← now;
          set_users (users_ ++
            [User.mk userId (sf_username f) (sf_password f) "student" (sf_name f)
               (Js.or_else (sf_email f) (sf_username f +:+ "@noun.edu.ng"))
               (Js.or_else (sf_phone f) "") created]);;
          students_ ← get students;
          studentId ← uid;
          set_students (students_ ++
            [Student.mk studentId userId (sf_matric f) (sf_department f)
               (sf_level f) (Js.or_else (sf_studyCenter f) "Main Campus")]);;
          mret studentId
      end
  end.

Record LecturerFields := mkLecturerFields
  { lf_name : string; lf_username : string; lf_password : string;
    lf_email : option string; lf_phone : option string;
    lf_staffId : option string; lf_department : string }.

Definition addLecturer (f : LecturerFields) : M string :=
  users_ ← get users;
  match find (fun u => User.username u = lf_username f) users_ with
  | Some _ => throw "Username already exists."
  | None =>
      userId ← uid;
      created ← now;
      set_users (users_ ++
        [User.mk userId (lf_username f) (lf_password f) "lecturer" (lf_name f)
           (Js.or_else (lf_email f) (lf_username f +:+ "@noun.edu.ng"))
           (Js.or_else (lf_phone f) "") created]);;
      lecturers_ ← get lecturers;
      lecturerId ← uid;
      staff ← match lf_staffId f with
              | Some s => if decide (s = "")
                          then (d ← Date_now; mret ("STAFF-" +:+ d))
                          else mret s
              | None => d ← Date_now; mret ("STAFF-" +:+ d)
              end;
      set_lecturers (lecturers_ ++
        [Lecturer.mk lecturerId userId staff (lf_department f)]);;
      mret lecturerId
  end.

(** *** Courses *)

Definition getCourseById (id : string) (s : Store) : option Course.t :=
  find (fun c => Course.id c = id) (courses s).

(** [parseInt(units)||3]: [NaN] and the zeros are falsy. *)
Definition units_or_3 (units : Js.text) : Js.number :=
  Js.or_number (Js.parseInt units) (Js.of_Z 3).

Record CourseFields := mkCourseFields
  { cf_code : string; cf_title : string;
    cf_units : Js.text;   (* the string [parseInt] makes of the argument *)
    cf_lecturerId : option string }.

Definition addCourse (f : CourseFields) : M string :=
  courses0 ← get courses;
  match find (fun c => Course.code c = cf_code f) courses0 with
  | Some _ => throw "Course code already exists."
  | None =>
      courses_ ← get courses;
      id ← uid;
      set_courses (courses_ ++
        [Course.mk id (cf_code f) (cf_title f)
           (Js.json_number (units_or_3 (cf_units f)))
           (Js.or_else (cf_lecturerId f) "")]);;
      mret id
  end.

(** *** Enrollments *)

Definition enrolled (studentId courseId : string) (e : Enrollment.t) : Prop :=
  Enrollment.studentId e = studentId ∧ Enrollment.courseId e = courseId.

#[global] Instance enrolled_dec studentId courseId e :
  Decision (enrolled studentId courseId e).
Proof. unfold enrolled. apply _. Defined.

(** [semester] is [None] when the caller leaves it out; the default
    parameter value then applies. *)
Definition enroll (studentId courseId : string) (semester : option string) : M unit :=
  let semester := default "2024/2025" semester in
  enr ← get enrollments;
  match find (enrolled studentId courseId) enr with
  | Some _ => mret tt
  | None =>
      id ← uid;
      t ← now;
      set_enrollments (enr ++
        [Enrollment.mk id studentId courseId semester (Js.before_space t)])
  end.

(** *** Audit trail *)

Definition addAuditEntry (actorId actorName studentId courseId
                          oldGrade newGrade reason : string) : M unit :=
  trail ← get audit_trail;
  id ← uid;
  ts ← now;
  set_audit_trail (trail ++
    [AuditEntry.mk id ts actorId actorName studentId courseId
       oldGrade newGrade reason]).

(** *** Results *)

Definition result_of (studentId courseId : string) (r : Result.t) : Prop :=
  Result.studentId r = studentId ∧ Result.courseId r = courseId.

#[global] Instance result_of_dec studentId courseId r :
  Decision (result_of studentId courseId r).
Proof. unfold result_of. apply _. Defined.

Definition getResultsForStudent (studentId : string) (s : Store) : list Result.t :=
  filter (fun r => Result.studentId r = studentId) (results s).

Definition getResultForStudentCourse (studentId courseId : string) (s : Store)
  : option Result.t :=
  find (result_of studentId courseId) (results s).

(** The four assignments to [existing]. *)
Definition regrade (existing : Result.t) (score : Q) (newGrade now_ by_ : string)
  : Result.t :=
  Result.mk (Result.id existing) (Result.studentId existing)
    (Result.courseId existing) score newGrade (Result.semester existing)
    now_ by_.

Definition upsertResult (studentId courseId : string) (score : Q)
    (actorUser : User.t) : M unit :=
  results_ ← get results;
  let existing := list_find (result_of studentId courseId) results_ in
  let newGrade := scoreToGrade score in
  now_ ← now;
  match existing with
  | Some (i, existing) =>
      let oldGrade := Result.grade existing in
      set_results
        (<[i := regrade existing score newGrade now_ (User.name actorUser)]> results_);;
      addAuditEntry (User.id actorUser) (User.name actorUser) studentId courseId
        oldGrade newGrade "Grade updated"
  | None =>
      id ← uid;
      set_results (results_ ++
        [Result.mk id studentId courseId score newGrade "2024/2025" now_
           (User.name actorUser)]);;
      enroll studentId courseId None;;
      addAuditEntry (User.id actorUser) (User.name actorUser) studentId courseId
        "—" newGrade "Result entered"
  end.

(** The own properties of the object [gp] of [calcGPA]. *)
Definition gp : gmap string Z :=
  list_to_map [("A", 5%Z); ("B", 4%Z); ("C", 3%Z); ("D", 2%Z); ("F", 0%Z)].

(** [gp[grade]]: the value of an own property, something inherited from
    [Object.prototype], or [undefined]. *)
Inductive property : Type :=
  | Own (points : Z)
  | Inherited
  | Undefined.

Definition gp_get (grade : string) : property :=
  match gp !! grade with
  | Some points => Own points
  | None => if decide (grade ∈ Js.Object_prototype) then Inherited else Undefined
  end.

(** [(gp[grade]||0)] as the left operand of [*].  An inherited property
    is a function or an object: it is truthy, so it is the operand, and
    as a Number it is [NaN]. *)
Definition gp_or_0 (grade : string) : Js.number :=
  match gp_get grade with
  | Own points => Js.or_number (Js.of_Z points) (Js.of_Z 0)
  | Inherited => S754_nan
  | Undefined => Js.of_Z 0
  end.

(** One turn of the [forEach] of [calcGPA] on the accumulators
    [(pts, units)]; [u] is a Number or [null]. *)
Definition gpa_step (s : Store) (acc : Js.number * Js.number) (r : Result.t)
  : Js.number * Js.number :=
  let c := getCourseById (Result.courseId r) s in
  let u := match c with Some c => Course.units c | None => Some (Js.of_Z 3) end in
  (Js.add (fst acc) (Js.mul (gp_or_0 (Result.grade r)) (Js.to_number u)),
   Js.add (snd acc) (Js.to_number u)).

Definition calcGPA (studentId : string) (s : Store) : option string :=
  let res := getResultsForStudent studentId s in
  if decide (length res = 0%nat) then Some "0.00"
  else
    let '(pts, units) := foldl (gpa_step s) (Js.of_Z 0, Js.of_Z 0) res in
    if Js.truthy units then Js.toFixed2 (Js.div pts units) else Some "0.00".

(** *** Feedback *)

Record FeedbackFields := mkFeedbackFields
  { ff_userId : string; ff_userName : string; ff_role : string;
    ff_easeOfUse : Z; ff_speed : Z; ff_satisfaction : Z;
    ff_comments : string }.

Definition feedback_entry (id : string) (f : FeedbackFields) (submitted : string)
  : Feedback.t :=
  Feedback.mk id (ff_userId f) (ff_userName f) (ff_role f) (ff_easeOfUse f)
    (ff_speed f) (ff_satisfaction f) (ff_comments f) submitted.

Definition submitFeedback (f : FeedbackFields) : M unit :=
  fb ← get feedback;
  let existing := findIndex (fun x => Feedback.userId x = ff_userId f) fb in
  id ← uid;
  t ← now;
  let entry := feedback_entry id f t in
  match existing with
  | Some i => set_feedback (<[i := entry]> fb)
  | None => set_feedback (fb ++ [entry])
  end.

(** *** Helpers for the user interface

    A merged profile is an object built by spreading two records: its
    properties are a finite map from names to values. *)

Definition student_object (s : Student.t) : gmap string string :=
  list_to_map
    [("id", Student.id s); ("userId", Student.userId s);
     ("matric", Student.matric s); ("department", Student.department s);
     ("level", Student.level s); ("studyCenter", Student.studyCenter s)].

Definition lecturer_object (l : Lecturer.t) : gmap string string :=
  list_to_map
    [("id", Lecturer.id l); ("userId", Lecturer.userId l);
     ("staffId", Lecturer.staffId l); ("department", Lecturer.department l)].

Definition user_object (u : User.t) : gmap string string :=
  list_to_map
    [("id", User.id u); ("username", User.username u);
     ("password", User.password u); ("role", User.role u);
     ("name", User.name u); ("email", User.email u);
     ("phone", User.phone u); ("createdAt", User.createdAt u)].

(** [{...target, ...source}]: the properties of [source] are copied over
    those of [target]. *)
Definition spread (target source : gmap string string) : gmap string string :=
  source ∪ target.

(** [{ ...s, ...u, studentId }]; spreading [undefined] copies nothing. *)
Definition studentFullProfile (studentId : string) (st : Store)
  : option (gmap string string) :=
  match find (fun s => Student.id s = studentId) (students st) with
  | None => None
  | Some s =>
      let u := getUserById (Student.userId s) st in
      Some (<["studentId" := studentId]>
              (spread (spread ∅ (student_object s)) (from_option user_object ∅ u)))
  end.

Definition lecturerFullProfile (lecturerId : string) (st : Store)
  : option (gmap string string) :=
  match find (fun l => Lecturer.id l = lecturerId) (lecturers st) with
  | None => None
  | Some l =>
      let u := getUserById (Lecturer.userId l) st in
      Some (<["lecturerId" := lecturerId]>
              (spread (spread ∅ (lecturer_object l)) (from_option user_object ∅ u)))
  end.

(** [{ ...u, ...s, studentId: s.id }] with [u = getUserById(s.userId) || {}]. *)
Definition allStudentsWithProfiles (st : Store) : list (gmap string string) :=
  (fun s =>
     let u := from_option user_object ∅ (getUserById (Student.userId s) st) in
     <["studentId" := Student.id s]> (spread (spread ∅ u) (student_object s)))
  <$> students st.

Definition allLecturersWithProfiles (st : Store) : list (gmap string string) :=
  (fun l =>
     let u := from_option user_object ∅ (getUserById (Lecturer.userId l) st) in
     <["lecturerId" := Lecturer.id l]> (spread (spread ∅ u) (lecturer_object l)))
  <$> lecturers st.

(** ** A concrete run, used to exercise the statements below *)

Definition empty_storage : Store := mkStore [] [] [] [] [] [] [] [] [] false.

(** An environment whose [n]-th read yields identifier number [n] and a
    clock that advances by one second per read. *)
Definition sample_env : Env :=
  mkEnv (fun n => "id_1735725600000_" +:+ Js.decimal (Z.of_nat n))
        (fun n => "2025-01-01 10:00:" +:+
                  String (Js.digit_char (Z.of_nat n / 10 mod 6))
                    (String (Js.digit_char (Z.of_nat n mod 10)) EmptyString))
        (fun n => "1735725600000").

(** The world a first page load leaves: empty storage, then [boot]. *)
Definition exec {A} (m : M A) (w : World) : World := snd (m w).
Definition fresh : World := exec boot (mkWorld empty_storage sample_env 0).

Definition ada : StudentFields :=
  mkStudentFields "Ada Obi" "ada" "pw" None None "NOU001" "CS" "300" None.

Definition prof : LecturerFields :=
  mkLecturerFields "Prof Eze" "eze" "pw" None None None "CS".

Definition admin : User.t := admin_user "2025-01-01 10:00:00".

(** ** Vocabulary of the specification *)

(** The failure kind [DuplicateKey] of the specification: the three
    errors the module throws on a unique field already in use. *)
Definition DuplicateKey (msg : string) : Prop :=
  msg = "Username already exists." ∨
  msg = "Matric number already exists." ∨
  msg = "Course code already exists.".

Definition username_taken (username : string) (s : Store) : Prop :=
  ∃ u, u ∈ users s ∧ User.username u = username.

Definition matric_taken (matric : string) (s : Store) : Prop :=
  ∃ x, x ∈ students s ∧ Student.matric x = matric.

Definition code_taken (code : string) (s : Store) : Prop :=
  ∃ c, c ∈ courses s ∧ Course.code c = code.

(** The collections an operation on users and students must not touch. *)
Definition same_but_users_students (s s' : Store) : Prop :=
  lecturers s' = lecturers s ∧ courses s' = courses s ∧
  enrollments s' = enrollments s ∧ results s' = results s ∧
  materials s' = materials s ∧ audit_trail s' = audit_trail s ∧
  feedback s' = feedback s ∧ booted s' = booted s.

(** Number of enrollments of a student in a course. *)
Definition enrollment_count (studentId courseId : string) (s : Store) : nat :=
  length (filter (enrolled studentId courseId) (enrollments s)).

(** Number of results of a student in a course. *)
Definition result_count (studentId courseId : string) (s : Store) : nat :=
  length (filter (result_of studentId courseId) (results s)).

(** The feedback records of a user. *)
Definition feedback_of (userId : string) (s : Store) : list Feedback.t :=
  filter (fun x => Feedback.userId x = userId) (feedback s).

(** [enroll(studentId, courseId, semester)] called once per element of
    [semesters], in order. *)
Fixpoint enroll_times (studentId courseId : string)
    (semesters : list (option string)) : M unit :=
  match semesters with
  | [] => mret tt
  | sem :: rest => enroll studentId courseId sem;; enroll_times studentId courseId rest
  end.

(** [submitFeedback] called once per element of [calls], in order. *)
Fixpoint submit_all (calls : list FeedbackFields) : M unit :=
  match calls with
  | [] => mret tt
  | f :: rest => submitFeedback f;; submit_all rest
  end.

(** The grade the specification derives from a score. *)
Definition derived_grade (score : Q) (letter : string) : Prop :=
  (letter = "A" ∧ 70 <= score)%Q ∨
  (letter = "B" ∧ 60 <= score ∧ score < 70)%Q ∨
  (letter = "C" ∧ 50 <= score ∧ score < 60)%Q ∨
  (letter = "D" ∧ 40 <= score ∧ score < 50)%Q ∨
  (letter = "F" ∧ score < 40)%Q.


(** The points of a grade as an integer: the entry of the table [gp],
    and 0 for a string the table has no entry for. *)
Definition grade_points (grade : string) : Z := default 0%Z (gp !! grade).

(** The Number [x] is the integer [n], exactly. *)
Definition is_integer (x : Js.number) (n : Z) : Prop :=
  match x with
  | S754_zero _ => n = 0%Z
  | S754_finite s m e =>
      (cond_Zopp s (Z.pos m) * 2 ^ Z.max e 0 = n * 2 ^ Z.max (- e) 0)%Z
  | _ => False
  end.

(** The normal double of a positive integer below [2^53]: a mantissa of
    53 binary digits at an exponent between -52 and 0. *)
Definition int_double (z : Z) (x : Js.number) : Prop :=
  ∃ m e, x = S754_finite false m e ∧ Z.pos (digits2_pos m) = 53%Z ∧
         (-52 <= e <= 0)%Z ∧ Z.pos m = (z * 2 ^ (- e))%Z.






(** A decimal numeral with exactly two digits after the point. *)
Definition is_digit (c : ascii) : Prop :=
  48 ≤ nat_of_ascii c ∧ nat_of_ascii c ≤ 57.

Fixpoint all_digits (s : string) : Prop :=
  match s with
  | EmptyString => True
  | String c r => is_digit c ∧ all_digits r
  end.


(** The value of a decimal digit, and of a string of decimal digits read
    from the left. *)
Definition digit_of (c : ascii) : option Z :=
  let n := Z.of_nat (nat_of_ascii c) in
  if (48 <=? n)%Z && (n <=? 57)%Z then Some (n - 48)%Z else None.

Fixpoint numeral_value (acc : Z) (s : string) : option Z :=
  match s with
  | EmptyString => Some acc
  | String c r =>
      match digit_of c with
      | Some d => numeral_value (10 * acc + d)%Z r
      | None => None
      end
  end.


(** The reading of the units of [addCourse] under which a parseable
    non-negative integer, zero included, is stored as parsed. *)
Definition units_stored_as_parsed : Prop :=
  ∀ (f : CourseFields) (w : World) (n : Z),
    ¬ code_taken (cf_code f) (storage w) ->
    Js.read_integer (cf_units f) = Some (false, n) ->
    ∃ id c w' x,
      addCourse f w = (Returned id, w') ∧
      courses (storage w') = courses (storage w) ++ [c] ∧
      Course.units c = Some x ∧ is_integer x n.

(** ** More concrete data *)

Definition zero_unit_course : CourseFields :=
  mkCourseFields "GST000" "Orientation" (Js.code_units "0") None.

Definition cit101 : CourseFields :=
  mkCourseFields "CIT101" "Computing" (Js.code_units "3") None.
Definition mth102 : CourseFields :=
  mkCourseFields "MTH102" "Algebra" (Js.code_units "2") None.

Definition feedback_a1 : FeedbackFields :=
  mkFeedbackFields "u1" "Ada" "student" 3 3 3 "slow".
Definition feedback_b : FeedbackFields :=
  mkFeedbackFields "u2" "Eze" "lecturer" 4 4 4 "fine".
Definition feedback_a2 : FeedbackFields :=
  mkFeedbackFields "u1" "Ada" "student" 5 4 5 "better".

(** The seeded store after [ada] has registered, and after a first score
    of student [s1] in course [c1] has been entered. *)
Definition registered : World := exec (addStudent ada) fresh.
Definition graded_once : World := exec (upsertResult "s1" "c1" 55 admin) fresh.


(** The seeded store after two courses of 3 and 2 units were created and
    student [s1] got 75 in the first and 55 in the second. *)
Definition graded_twice : World :=
  exec (c1 ← addCourse cit101;
        c2 ← addCourse mth102;
        upsertResult "s1" c1 75 admin;;
        upsertResult "s1" c2 55 admin) fresh.

(** A store with one course of 3 units and one result of student [s1] in
    it, stored with the grade [grade]. *)
Definition graded_store (grade : string) : Store :=
  mkStore [] [] []
    [Course.mk "c1" "CIT101" "Computing" (Some (Js.of_Z 3)) ""] []
    [Result.mk "r1" "s1" "c1" 90 grade "2024/2025" "2025-01-01 10:00:00"
       "Portal Administrator"]
    [] [] [] true.

(** ** The rest of the module *)

(** *** Authentication: the lookup of [login]

    [login] returns the first user with that username, password and
    role, or [null]. *)
Definition login (username password role : string) (s : Store) : option User.t :=
  find (fun u => User.username u = username ∧ User.password u = password ∧
                 User.role u = role) (users s).

Definition getStudentByUserId (userId : string) (s : Store) : option Student.t :=
  find (fun x => Student.userId x = userId) (students s).

Definition getLecturerByUserId (userId : string) (s : Store) : option Lecturer.t :=
  find (fun l => Lecturer.userId l = userId) (lecturers s).

(** *** Courses and their lecturer *)

Definition getCourseByCode (code : string) (s : Store) : option Course.t :=
  find (fun c => Course.code c = code) (courses s).

(** [c.lecturerId = lecturerId] on the first course with that id, written
    back; nothing is written when there is none. *)
Definition assignLecturerToCourse (courseId lecturerId : string) : M unit :=
  courses_ ← get courses;
  match list_find (fun c => Course.id c = courseId) courses_ with
  | Some (i, c) =>
      set_courses
        (<[i := Course.mk (Course.id c) (Course.code c) (Course.title c)
                  (Course.units c) lecturerId]> courses_)
  | None => mret tt
  end.

Definition getCoursesForLecturer (lecturerId : string) (s : Store) : list Course.t :=
  filter (fun c => Course.lecturerId c = lecturerId) (courses s).

(** *** Enrollment queries *)

Definition getEnrollmentsForStudent (studentId : string) (s : Store)
  : list Enrollment.t :=
  filter (fun e => Enrollment.studentId e = studentId) (enrollments s).

(** [.map(e => getCourseById(e.courseId)).filter(Boolean)]: an enrollment
    whose course does not exist yields [undefined], which is dropped. *)
Definition getEnrolledCourses (studentId : string) (s : Store) : list Course.t :=
  omap (fun e => getCourseById (Enrollment.courseId e) s)
       (getEnrollmentsForStudent studentId s).

(** *** Materials *)

Definition getMaterialsForCourse (courseId : string) (s : Store) : list Material.t :=
  filter (fun m => Material.courseId m = courseId) (materials s).

Definition getMaterialsForStudent (studentId : string) (s : Store) : list Material.t :=
  let enrolled_ := Enrollment.courseId <$> getEnrollmentsForStudent studentId s in
  filter (fun m => Material.courseId m ∈ enrolled_) (materials s).

Record MaterialFields := mkMaterialFields
  { mf_courseId : string; mf_title : string; mf_type : string;
    mf_filename : string; mf_data : string; mf_size : Z;
    mf_uploadedBy : User.t }.

Definition uploadMaterial (f : MaterialFields) : M unit :=
  mats ← get materials;
  id ← uid;
  t ← now;
  set_materials (mats ++
    [Material.mk id (mf_courseId f) (mf_title f) (mf_type f) (mf_filename f)
       (mf_data f) (mf_size f) (User.id (mf_uploadedBy f))
       (User.name (mf_uploadedBy f)) t]).

Definition deleteMaterial (id : string) : M unit :=
  mats ← get materials;
  set_materials (filter (fun m => Material.id m ≠ id) mats).

(** *** Feedback lookup *)

Definition getUserFeedback (userId : string) (s : Store) : option Feedback.t :=
  find (fun f => Feedback.userId f = userId) (feedback s).

(** ** Operations as data

    One constructor per mutator the module exports (and [boot], which it
    runs when loaded), so that statements can range over all of them. *)
Inductive operation : Type :=
  | Boot
  | AddStudent (f : StudentFields)
  | AddLecturer (f : LecturerFields)
  | AddCourse (f : CourseFields)
  | AssignLecturerToCourse (courseId lecturerId : string)
  | Enroll (studentId courseId : string) (semester : option string)
  | UpsertResult (studentId courseId : string) (score : Q) (actor : User.t)
  | UploadMaterial (f : MaterialFields)
  | DeleteMaterial (id : string)
  | AddAuditEntry (actorId actorName studentId courseId oldGrade newGrade reason : string)
  | SubmitFeedback (f : FeedbackFields).

(** The world an operation leaves, whether it returns or throws. *)
Definition perform (o : operation) (w : World) : World :=
  match o with
  | Boot => exec boot w
  | AddStudent f => exec (addStudent f) w
  | AddLecturer f => exec (addLecturer f) w
  | AddCourse f => exec (addCourse f) w
  | AssignLecturerToCourse c l => exec (assignLecturerToCourse c l) w
  | Enroll s c sem => exec (enroll s c sem) w
  | UpsertResult s c score actor => exec (upsertResult s c score actor) w
  | UploadMaterial f => exec (uploadMaterial f) w
  | DeleteMaterial id => exec (deleteMaterial id) w
  | AddAuditEntry a b c d e f g => exec (addAuditEntry a b c d e f g) w
  | SubmitFeedback f => exec (submitFeedback f) w
  end.

(** The worlds the module can be in: a first load on empty storage, then
    any operations. *)
Inductive reachable : World -> Prop :=
  | reachable_first_load (e : Env) (n : nat) :
      reachable (exec boot (mkWorld empty_storage e n))
  | reachable_step (o : operation) (w : World) :
      reachable w -> reachable (perform o w).

(** ** Invariants of the data model *)

Definition usernames_unique (s : Store) : Prop := NoDup (User.username <$> users s).
Definition matrics_unique (s : Store) : Prop := NoDup (Student.matric <$> students s).
Definition codes_unique (s : Store) : Prop := NoDup (Course.code <$> courses s).

Definition enrollment_key_unique (s : Store) : Prop :=
  ∀ studentId courseId, enrollment_count studentId courseId s ≤ 1.

Definition result_key_unique (s : Store) : Prop :=
  ∀ studentId courseId, result_count studentId courseId s ≤ 1.

Definition feedback_key_unique (s : Store) : Prop :=
  ∀ userId, length (feedback_of userId s) ≤ 1.

(** Every graded student is enrolled in the course graded. *)
Definition graded_are_enrolled (s : Store) : Prop :=
  ∀ r, r ∈ results s ->
    ∃ e, e ∈ enrollments s ∧ enrolled (Result.studentId r) (Result.courseId r) e.

(** Every stored grade is the grade of the stored score. *)
Definition grades_derived (s : Store) : Prop :=
  ∀ r, r ∈ results s -> Result.grade r = scoreToGrade (Result.score r).

(** No course has zero units: the units stored are never the Number 0. *)
Definition units_nonzero (s : Store) : Prop :=
  ∀ c, c ∈ courses s -> ∀ sign, Course.units c ≠ Some (S754_zero sign).

(** A sequence of operations, first to last. *)
Definition perform_all (ops : list operation) (w : World) : World :=
  foldl (fun w o => perform o w) w ops.

(** A session on the seeded store: two registrations with the same
    username, two courses with one code, a lecturer assigned, a score
    entered twice, an enrollment repeated, feedback given twice. *)
Definition session : list operation :=
  [ AddStudent ada; AddStudent ada; AddLecturer prof;
    AddCourse cit101; AddCourse cit101; AddCourse zero_unit_course;
    AssignLecturerToCourse "id_1735725600000_8" "id_1735725600000_6";
    UpsertResult "id_1735725600000_3" "id_1735725600000_8" 55 admin;
    UpsertResult "id_1735725600000_3" "id_1735725600000_8" 72 admin;
    Enroll "id_1735725600000_3" "id_1735725600000_8" None;
    Enroll "id_1735725600000_3" "id_1735725600000_9" (Some "2025/2026");
    SubmitFeedback feedback_a1; SubmitFeedback feedback_a2; Boot ].

(** The keys of [localStorage] an operation may write. *)
Definition writes (o : operation) : list string :=
  match o with
  | Boot => ["users"; "students"; "lecturers"; "courses"; "enrollments";
             "results"; "materials"; "audit_trail"; "feedback"; "booted"]
  | AddStudent _ => ["users"; "students"]
  | AddLecturer _ => ["users"; "lecturers"]
  | AddCourse _ => ["courses"]
  | AssignLecturerToCourse _ _ => ["courses"]
  | Enroll _ _ _ => ["enrollments"]
  | UpsertResult _ _ _ _ => ["results"; "enrollments"; "audit_trail"]
  | UploadMaterial _ => ["materials"]
  | DeleteMaterial _ => ["materials"]
  | AddAuditEntry _ _ _ _ _ _ _ => ["audit_trail"]
  | SubmitFeedback _ => ["feedback"]
  end.

(** A store in which a student's user record is missing. *)
Definition orphan_store : Store :=
  mkStore [] [Student.mk "s9" "u9" "NOU009" "LAW" "200" "Main Campus"]
    [] [] [] [] [] [] [] true.

Definition notes : MaterialFields :=
  mkMaterialFields "id_1735725600000_1" "Week 1" "pdf" "w1.pdf" "JVBERi0=" 8 admin.

(** The seeded store with course CIT101 and one material uploaded for it. *)
Definition with_notes : World :=
  exec (addCourse cit101;; uploadMaterial notes) fresh.

(** * Properties *)

(** ** Auxiliary facts: [find], the monad *)

Section Find.
Context {A : Type} (P : A -> Prop) `{!forall x, Decision (P x)}.

Lemma find_Some_inv (l : list A) (x : A) : find P l = Some x -> x ∈ l ∧ P x.
Proof.
  unfold find. destruct (list_find P l) as [[i y]|] eqn:E; [|done].
  intros [= <-]. apply list_find_Some in E as (Hi & HP & _).
  split; [by eapply list_elem_of_lookup_2|done].
Qed.

Lemma find_None_iff (l : list A) : find P l = None <-> Forall (fun x => ¬ P x) l.
Proof.
  unfold find. rewrite fmap_None. apply list_find_None.
Qed.

Lemma find_None_no_witness (l : list A) :
  find P l = None <-> ¬ ∃ x, x ∈ l ∧ P x.
Proof.
  rewrite find_None_iff, Forall_forall. split.
  - intros Hall (x & Hx & HP). by apply (Hall x).
  - intros Hno x Hx HP. apply Hno. eauto.
Qed.

Lemma find_witness (l : list A) :
  (∃ x, x ∈ l ∧ P x) -> ∃ y, find P l = Some y.
Proof.
  intros Hex. destruct (find P l) eqn:E; [eauto|].
  by apply find_None_no_witness in E.
Qed.
End Find.

(** ** Duplicate keys *)

(** C6.  When the username is already used by a user or the matric number
    by a student, [addStudent] throws a DuplicateKey error and the world
    it leaves is the world it found: nothing was written.  Otherwise it
    returns the id of a new student record, appended to [students] and
    linked to a new user of role [student] appended to [users], and no
    other collection changes. *)
Theorem addStudent_duplicate_or_insert (f : StudentFields) (w : World) :
  (username_taken (sf_username f) (storage w) ∨
   matric_taken (sf_matric f) (storage w) ->
   ∃ msg, addStudent f w = (Thrown msg, w) ∧ DuplicateKey msg) ∧
  (¬ username_taken (sf_username f) (storage w) ->
   ¬ matric_taken (sf_matric f) (storage w) ->
   ∃ studentId u s w',
     addStudent f w = (Returned studentId, w') ∧ Student.id s = studentId ∧
     users (storage w') = users (storage w) ++ [u] ∧
     students (storage w') = students (storage w) ++ [s] ∧
     User.role u = "student" ∧ User.username u = sf_username f ∧
     Student.userId s = User.id u ∧ Student.matric s = sf_matric f ∧
     same_but_users_students (storage w) (storage w')).
Proof.
  unfold username_taken, matric_taken.
  split.
  - intros Hdup. unfold addStudent, mbind, M_bind, get; simpl.
    destruct (find (fun u => User.username u = sf_username f) (users (storage w)))
      as [u|] eqn:Eu.
    { exists "Username already exists.". split; [done|]. left; done. }
    destruct (find (fun s => Student.matric s = sf_matric f) (students (storage w)))
      as [s|] eqn:Es.
    { exists "Matric number already exists.". split; [done|]. right; left; done. }
    exfalso. destruct Hdup as [Hd|Hd].
    + by apply find_None_no_witness in Eu.
    + by apply find_None_no_witness in Es.
  - intros Hu Hs.
    apply (find_None_no_witness (fun u => User.username u = sf_username f)) in Hu.
    apply (find_None_no_witness (fun s => Student.matric s = sf_matric f)) in Hs.
    unfold addStudent, mbind, M_bind, get; simpl.
    rewrite Hu, Hs. simpl.
    eexists _, _, _, _. split; [reflexivity|]. simpl.
    split; [|split; [reflexivity|split; [reflexivity|]]]; [reflexivity|].
    repeat split; reflexivity.
Qed.

(** ** Auxiliary facts: filtering a list updated in place *)

Section Filter.
Context {A : Type} (P : A -> Prop) `{!forall x, Decision (P x)}.

Lemma filter_nil_intro (l : list A) :
  (∀ x, x ∈ l -> ¬ P x) -> filter P l = [].
Proof.
  induction l as [|a l IH]; intros Hno; [done|].
  rewrite filter_cons_False by (apply Hno; left).
  apply IH. intros x Hx. apply Hno. by right.
Qed.

Lemma list_find_split (l : list A) (i : nat) (x : A) :
  list_find P l = Some (i, x) ->
  ∃ l1 l2, l = l1 ++ x :: l2 ∧ length l1 = i ∧ P x ∧ filter P l1 = [].
Proof.
  intros Hfind. apply list_find_Some in Hfind as (Hi & HP & Hbefore).
  exists (take i l), (drop (S i) l).
  assert (Hlt : i < length l) by (by eapply lookup_lt_Some).
  split; [|split; [|split; [done|]]].
  - by rewrite <- (take_drop_middle l i x) at 1.
  - rewrite length_take. lia.
  - apply filter_nil_intro. intros y Hy HPy.
    apply list_elem_of_lookup in Hy as [j Hj].
    assert (j < i).
    { apply lookup_lt_Some in Hj. rewrite length_take in Hj. lia. }
    rewrite lookup_take_lt in Hj by done. by apply (Hbefore j y).
Qed.

Lemma list_find_None_filter (l : list A) :
  list_find P l = None -> filter P l = [].
Proof.
  intros Hnone. apply filter_nil_intro. intros x Hx HP.
  apply list_find_None in Hnone. rewrite Forall_forall in Hnone.
  by apply (Hnone x).
Qed.

Lemma filter_nil_list_find (l : list A) :
  filter P l = [] -> list_find P l = None.
Proof.
  intros Hnil. apply list_find_None, Forall_forall. intros x Hx HP.
  assert (x ∈ filter P l) as Hin by (by apply list_elem_of_filter).
  rewrite Hnil in Hin. by apply not_elem_of_nil in Hin.
Qed.

(** Overwriting the first match by another match, when matches are
    unique, leaves that one match. *)
Lemma filter_overwrite_found (l : list A) (i : nat) (x e : A) :
  list_find P l = Some (i, x) -> length (filter P l) ≤ 1 -> P e ->
  filter P (<[i := e]> l) = [e].
Proof.
  intros Hfind Hone He.
  destruct (list_find_split l i x Hfind) as (l1 & l2 & -> & <- & Hx & Hl1).
  rewrite filter_app, Hl1, filter_cons_True in Hone by done. simpl in Hone.
  assert (filter P l2 = []) as Hl2 by (destruct (filter P l2); [done|simpl in Hone; lia]).
  rewrite insert_app_r_alt, Nat.sub_diag by lia. simpl.
  by rewrite filter_app, Hl1, filter_cons_True, Hl2.
Qed.

(** Appending a match to a list without one leaves that one match. *)
Lemma filter_append_fresh (l : list A) (e : A) :
  list_find P l = None -> P e -> filter P (l ++ [e]) = [e].
Proof.
  intros Hnone He. rewrite filter_app, (list_find_None_filter l Hnone).
  by rewrite filter_cons_True.
Qed.

(** Overwriting a non-match by a non-match does not change the matches. *)
Lemma filter_overwrite_other (l : list A) (i : nat) (x e : A) :
  l !! i = Some x -> ¬ P x -> ¬ P e -> filter P (<[i := e]> l) = filter P l.
Proof.
  intros Hi Hx He.
  rewrite <- (take_drop_middle l i x Hi) at 2.
  rewrite insert_take_drop by (by eapply lookup_lt_Some).
  rewrite !filter_app, !filter_cons_False by done. done.
Qed.

Lemma filter_append_other (l : list A) (e : A) :
  ¬ P e -> filter P (l ++ [e]) = filter P l.
Proof.
  intros He. rewrite filter_app, filter_cons_False by done.
  by rewrite app_nil_r.
Qed.

Lemma find_list_find (l : list A) :
  find P l = snd <$> list_find P l.
Proof. reflexivity. Qed.
End Filter.

(** ** Enrollment *)

Lemma enroll_already (studentId courseId : string) (sem : option string)
    (w : World) (e : Enrollment.t) :
  find (enrolled studentId courseId) (enrollments (storage w)) = Some e ->
  enroll studentId courseId sem w = (Returned tt, w).
Proof.
  intros He. unfold enroll, mbind, M_bind, get; simpl. by rewrite He.
Qed.

Lemma enroll_new (studentId courseId : string) (sem : option string) (w : World) :
  find (enrolled studentId courseId) (enrollments (storage w)) = None ->
  ∃ w' e,
    enroll studentId courseId sem w = (Returned tt, w') ∧
    enrollments (storage w') = enrollments (storage w) ++ [e] ∧
    enrolled studentId courseId e ∧
    Enrollment.semester e = default "2024/2025" sem ∧
    results (storage w') = results (storage w) ∧
    audit_trail (storage w') = audit_trail (storage w) ∧
    env w' = env w ∧ reads w' = 2 + reads w.
Proof.
  intros He. unfold enroll, mbind, M_bind, get; simpl. rewrite He; simpl.
  eexists _, _. split; [reflexivity|]. simpl. by repeat split.
Qed.

Lemma find_Some_count {A} (P : A -> Prop) `{!forall x, Decision (P x)}
    (l : list A) (x : A) :
  find P l = Some x -> 1 ≤ length (filter P l).
Proof.
  intros Hx. apply find_Some_inv in Hx as [Hin HP].
  assert (x ∈ filter P l) as Hf by (by apply list_elem_of_filter).
  destruct (filter P l); [by apply not_elem_of_nil in Hf|simpl; lia].
Qed.

Lemma find_None_list_find {A} (P : A -> Prop) `{!forall x, Decision (P x)}
    (l : list A) :
  find P l = None -> list_find P l = None.
Proof. unfold find. by rewrite fmap_None. Qed.

Lemma enroll_times_noop (studentId courseId : string)
    (rest : list (option string)) (w : World) (e : Enrollment.t) :
  find (enrolled studentId courseId) (enrollments (storage w)) = Some e ->
  enroll_times studentId courseId rest w = (Returned tt, w).
Proof.
  intros He. induction rest as [|sem rest IH]; [done|].
  simpl. unfold mbind, M_bind.
  by rewrite (enroll_already _ _ _ _ _ He).
Qed.

(** C7.  [enroll] is idempotent.  From a storage that holds at most one
    enrollment of the student in the course, the first call leaves
    exactly one, and any number of further calls for the same pair,
    whatever their semester, return without changing anything: after
    [n >= 1] calls there is exactly one such enrollment. *)
Theorem enroll_idempotent (studentId courseId : string) (sem : option string)
    (rest : list (option string)) (w : World) :
  enrollment_count studentId courseId (storage w) ≤ 1 ->
  ∃ w1,
    enroll studentId courseId sem w = (Returned tt, w1) ∧
    enrollment_count studentId courseId (storage w1) = 1 ∧
    enroll_times studentId courseId rest w1 = (Returned tt, w1) ∧
    enroll_times studentId courseId (sem :: rest) w = (Returned tt, w1).
Proof.
  unfold enrollment_count. intros Hone.
  destruct (find (enrolled studentId courseId) (enrollments (storage w)))
    as [e|] eqn:He.
  - exists w.
    pose proof (enroll_already _ _ sem _ _ He) as Hrun.
    pose proof (enroll_times_noop _ _ rest _ _ He) as Hrest.
    split; [done|]. split.
    { apply find_Some_count in He. lia. }
    split; [done|]. simpl. unfold mbind, M_bind. by rewrite Hrun.
  - destruct (enroll_new _ _ sem _ He)
      as (w' & e & Hrun & Henr & Hpair & _).
    exists w'.
    assert (filter (enrolled studentId courseId) (enrollments (storage w')) = [e])
      as Hfilter.
    { rewrite Henr. apply filter_append_fresh; [|done].
      by apply find_None_list_find. }
    assert (∃ e', find (enrolled studentId courseId) (enrollments (storage w'))
                  = Some e') as [e' He'].
    { apply find_witness. exists e. split; [|done].
      rewrite Henr. apply elem_of_app. right. by left. }
    pose proof (enroll_times_noop _ _ rest _ _ He') as Hrest.
    split; [done|]. split; [by rewrite Hfilter|].
    split; [done|]. simpl. unfold mbind, M_bind. by rewrite Hrun.
Qed.

(** A run of C7: two students' worth of calls on the seeded store. *)
Lemma enroll_idempotent_witness :
  ∃ w1,
    enroll "s1" "c1" None fresh = (Returned tt, w1) ∧
    enrollment_count "s1" "c1" (storage w1) = 1 ∧
    enroll_times "s1" "c1" [Some "2025/2026"; None] w1 = (Returned tt, w1) ∧
    enroll_times "s1" "c1" [None; Some "2025/2026"; None] fresh = (Returned tt, w1).
Proof.
  apply (enroll_idempotent "s1" "c1" None [Some "2025/2026"; None] fresh).
  vm_compute. lia.
Defined.

(** ** Feedback *)

(** What one call of [submitFeedback] does to the feedback of each user. *)
Lemma submitFeedback_run (f : FeedbackFields) (w : World) :
  (∀ userId, length (feedback_of userId (storage w)) ≤ 1) ->
  ∃ w',
    submitFeedback f w = (Returned tt, w') ∧
    env w' = env w ∧ reads w' = 2 + reads w ∧
    feedback_of (ff_userId f) (storage w') =
      [feedback_entry (uid_at (env w) (reads w)) f (now_at (env w) (S (reads w)))] ∧
    (∀ userId, userId ≠ ff_userId f ->
       feedback_of userId (storage w') = feedback_of userId (storage w)).
Proof.
  intros Hone. unfold submitFeedback, findIndex, mbind, M_bind, get; simpl.
  set (entry := feedback_entry _ f _).
  assert (Feedback.userId entry = ff_userId f) as Hentry by done.
  destruct (list_find (fun x => Feedback.userId x = ff_userId f)
              (feedback (storage w))) as [[i x]|] eqn:Efind; simpl.
  - eexists. split; [reflexivity|]. unfold feedback_of; simpl.
    split; [done|]. split; [done|]. split.
    + apply (filter_overwrite_found _ _ _ x); [done| |done]. apply Hone.
    + intros userId Hne.
      apply list_find_Some in Efind as (Hi & Hx & _).
      apply (filter_overwrite_other _ _ _ x); [done| |]; congruence.
  - eexists. split; [reflexivity|]. unfold feedback_of; simpl.
    split; [done|]. split; [done|]. split.
    + by apply filter_append_fresh.
    + intros userId Hne. apply filter_append_other. congruence.
Qed.

(** Calls made for other users leave a user's feedback as it is. *)
Lemma submit_all_run (calls : list FeedbackFields) (w : World) :
  (∀ userId, length (feedback_of userId (storage w)) ≤ 1) ->
  ∃ w',
    submit_all calls w = (Returned tt, w') ∧
    env w' = env w ∧ reads w' = 2 * length calls + reads w ∧
    (∀ userId, length (feedback_of userId (storage w')) ≤ 1) ∧
    (∀ userId, Forall (fun g => ff_userId g ≠ userId) calls ->
       feedback_of userId (storage w') = feedback_of userId (storage w)).
Proof.
  revert w. induction calls as [|f rest IH]; intros w Hone.
  - exists w. simpl. repeat split; done.
  - destruct (submitFeedback_run f w Hone) as (w1 & Hrun & Henv & Hreads & Hmine & Hother).
    assert (∀ userId, length (feedback_of userId (storage w1)) ≤ 1) as Hone1.
    { intros userId. destruct (decide (userId = ff_userId f)) as [->|Hne].
      - by rewrite Hmine.
      - by rewrite Hother. }
    destruct (IH w1 Hone1) as (w' & Hrest & Henv' & Hreads' & Hone' & Hother').
    exists w'. simpl. unfold mbind, M_bind. rewrite Hrun.
    split; [done|]. split; [congruence|]. split; [lia|]. split; [done|].
    intros userId Hall. apply Forall_cons in Hall as [Hf Hall].
    rewrite Hother' by done. apply Hother. congruence.
Qed.

(** The record of a user after a sequence of calls is the entry of the
    last call made for that user. *)
Lemma submit_all_last (before after : list FeedbackFields) (f : FeedbackFields)
    (w w' : World) :
  (∀ userId, length (feedback_of userId (storage w)) ≤ 1) ->
  submit_all (before ++ f :: after) w = (Returned tt, w') ->
  Forall (fun g => ff_userId g ≠ ff_userId f) after ->
  feedback_of (ff_userId f) (storage w') =
    [feedback_entry (uid_at (env w) (2 * length before + reads w)) f
       (now_at (env w) (S (2 * length before + reads w)))].
Proof.
  intros Hone Hrun Hafter. revert w w' Hone Hrun.
  induction before as [|g before IH]; intros w w' Hone Hrun.
  - simpl in Hrun. unfold mbind, M_bind in Hrun.
    destruct (submitFeedback_run f w Hone) as (w1 & Hf & Henv & Hreads & Hmine & Hother).
    rewrite Hf in Hrun.
    assert (∀ userId, length (feedback_of userId (storage w1)) ≤ 1) as Hone1.
    { intros userId. destruct (decide (userId = ff_userId f)) as [->|Hne].
      - by rewrite Hmine.
      - by rewrite Hother. }
    destruct (submit_all_run after w1 Hone1) as (w2 & Hrest & _ & _ & _ & Hkeep).
    rewrite Hrest in Hrun. injection Hrun as <-.
    rewrite (Hkeep (ff_userId f)) by done. by rewrite Hmine.
  - simpl in Hrun. unfold mbind, M_bind in Hrun.
    destruct (submitFeedback_run g w Hone) as (w1 & Hg & Henv & Hreads & Hmine & Hother).
    rewrite Hg in Hrun.
    assert (∀ userId, length (feedback_of userId (storage w1)) ≤ 1) as Hone1.
    { intros userId. destruct (decide (userId = ff_userId g)) as [->|Hne].
      - by rewrite Hmine.
      - by rewrite Hother. }
    rewrite (IH w1 w' Hone1 Hrun). rewrite Henv, Hreads. simpl length.
    do 2 f_equal; [f_equal; lia|f_equal; f_equal; lia].
Qed.

(** C8.  At most one feedback record per user is an invariant of
    [submitFeedback]: a sequence of calls on a storage that satisfies it
    returns and leaves a storage that satisfies it.  A user for whom a
    call was made then has exactly one record.  Its identifier is the one
    [uid()] generated during the last call made for that user, its user
    name, role, three ratings and comments are the values of that call,
    and its submission time is the time of that call: nothing of an
    earlier record is kept. *)
Theorem submitFeedback_one_per_user (calls : list FeedbackFields) (w : World) :
  (∀ userId, length (feedback_of userId (storage w)) ≤ 1) ->
  ∃ w',
    submit_all calls w = (Returned tt, w') ∧
    (∀ userId, length (feedback_of userId (storage w')) ≤ 1) ∧
    (∀ before f after,
       calls = before ++ f :: after ->
       Forall (fun g => ff_userId g ≠ ff_userId f) after ->
       ∃ e,
         feedback_of (ff_userId f) (storage w') = [e] ∧
         Feedback.id e = uid_at (env w) (2 * length before + reads w) ∧
         Feedback.userId e = ff_userId f ∧
         Feedback.userName e = ff_userName f ∧
         Feedback.role e = ff_role f ∧
         Feedback.easeOfUse e = ff_easeOfUse f ∧
         Feedback.speed e = ff_speed f ∧
         Feedback.satisfaction e = ff_satisfaction f ∧
         Feedback.comments e = ff_comments f ∧
         Feedback.submittedAt e = now_at (env w) (S (2 * length before + reads w))).
Proof.
  intros Hone.
  destruct (submit_all_run calls w Hone) as (w' & Hrun & _ & _ & Hone' & _).
  exists w'. split; [done|]. split; [done|].
  intros before f after -> Hafter.
  eexists. split; [by apply (submit_all_last before after f w w')|].
  by repeat split.
Qed.

(** ** Results and the audit trail *)

Lemma Qle_bool_false (x y : Q) : Qle_bool x y = false <-> (y < x)%Q.
Proof.
  split.
  - intros Hb. apply Qnot_le_lt. intros Hle. apply Qle_bool_iff in Hle. congruence.
  - intros Hlt. destruct (Qle_bool x y) eqn:E; [|done].
    apply Qle_bool_iff in E. lra.
Qed.

(** The grade [scoreToGrade] gives is the grade the specification derives
    from the score. *)
Lemma scoreToGrade_derived (score : Q) : derived_grade score (scoreToGrade score).
Proof.
  unfold derived_grade, scoreToGrade.
  destruct (Qle_bool 70 score) eqn:H70;
    [apply Qle_bool_iff in H70; by left|apply Qle_bool_false in H70].
  destruct (Qle_bool 60 score) eqn:H60;
    [apply Qle_bool_iff in H60; by right; left|apply Qle_bool_false in H60].
  destruct (Qle_bool 50 score) eqn:H50;
    [apply Qle_bool_iff in H50; by right; right; left|apply Qle_bool_false in H50].
  destruct (Qle_bool 40 score) eqn:H40;
    [apply Qle_bool_iff in H40; by right; right; right; left
    |apply Qle_bool_false in H40].
  by right; right; right; right.
Qed.

(** C1.  When the student has no result in the course, and at most one
    enrollment in it, [upsertResult] returns after appending one result
    for the pair, with the given score and the grade derived from it: A
    from 70, B from 60, C from 50, D from 40, F below.  The pair then has
    exactly one result and exactly one enrollment; and exactly one audit
    entry was appended, with old grade ["—"], that same derived grade as
    new grade and reason ["Result entered"]. *)
Theorem upsertResult_enters_result (studentId courseId : string) (score : Q)
    (actor : User.t) (w : World) :
  getResultForStudentCourse studentId courseId (storage w) = None ->
  enrollment_count studentId courseId (storage w) ≤ 1 ->
  ∃ w' r a,
    upsertResult studentId courseId score actor w = (Returned tt, w') ∧
    results (storage w') = results (storage w) ++ [r] ∧
    Result.studentId r = studentId ∧ Result.courseId r = courseId ∧
    Result.score r = score ∧ Result.grade r = scoreToGrade score ∧
    derived_grade score (Result.grade r) ∧
    result_count studentId courseId (storage w') = 1 ∧
    enrollment_count studentId courseId (storage w') = 1 ∧
    audit_trail (storage w') = audit_trail (storage w) ++ [a] ∧
    AuditEntry.studentId a = studentId ∧ AuditEntry.courseId a = courseId ∧
    AuditEntry.oldGrade a = "—" ∧
    AuditEntry.newGrade a = scoreToGrade score ∧
    AuditEntry.newGrade a = Result.grade r ∧
    AuditEntry.reason a = "Result entered".
Proof.
  unfold getResultForStudentCourse, enrollment_count, result_count.
  intros Hnone Hone.
  apply find_None_list_find in Hnone.
  unfold upsertResult, mbind, M_bind, get; simpl. rewrite Hnone; simpl.
  unfold enroll, mbind, M_bind, get; simpl.
  destruct (find (enrolled studentId courseId) (enrollments (storage w)))
    as [e|] eqn:He; simpl.
  - eexists _, _, _. split; [reflexivity|]. simpl.
    split; [reflexivity|]. do 4 (split; [reflexivity|]).
    split; [apply scoreToGrade_derived|].
    split; [by rewrite filter_append_fresh|].
    split; [apply find_Some_count in He; lia|].
    split; [reflexivity|]. by repeat split.
  - eexists _, _, _. split; [reflexivity|]. simpl.
    split; [reflexivity|]. do 4 (split; [reflexivity|]).
    split; [apply scoreToGrade_derived|].
    split; [by rewrite filter_append_fresh|].
    split.
    { rewrite filter_append_fresh; [done| |done].
      by apply find_None_list_find. }
    split; [reflexivity|]. by repeat split.
Qed.




(** ** Profiles *)

Lemma user_object_id (u : User.t) : user_object u !! "id" = Some (User.id u).
Proof. unfold user_object. simpl. by rewrite lookup_insert_eq. Qed.

Lemma student_object_id (s : Student.t) : student_object s !! "id" = Some (Student.id s).
Proof. unfold student_object. simpl. by rewrite lookup_insert_eq. Qed.

Lemma lecturer_object_id (l : Lecturer.t) : lecturer_object l !! "id" = Some (Lecturer.id l).
Proof. unfold lecturer_object. simpl. by rewrite lookup_insert_eq. Qed.

(** In [{...target, ...source}] a property of [source] hides the property
    of the same name of [target]. *)
Lemma spread_lookup_source (target source : gmap string string) (k v : string) :
  source !! k = Some v -> spread target source !! k = Some v.
Proof. intros Hk. unfold spread. by apply lookup_union_Some_l. Qed.

(** The [id] of a full profile is the id of the linked user whenever that
    user exists: [...u] comes after [...s]. *)
Lemma studentFullProfile_id (studentId : string) (st : Store)
    (s : Student.t) (u : User.t) :
  find (fun x => Student.id x = studentId) (students st) = Some s ->
  getUserById (Student.userId s) st = Some u ->
  ∃ p, studentFullProfile studentId st = Some p ∧ p !! "id" = Some (User.id u).
Proof.
  intros Hs Hu. unfold studentFullProfile. rewrite Hs, Hu. simpl.
  eexists. split; [reflexivity|].
  rewrite lookup_insert_ne by done.
  apply spread_lookup_source, user_object_id.
Qed.

Lemma lecturerFullProfile_id (lecturerId : string) (st : Store)
    (l : Lecturer.t) (u : User.t) :
  find (fun x => Lecturer.id x = lecturerId) (lecturers st) = Some l ->
  getUserById (Lecturer.userId l) st = Some u ->
  ∃ p, lecturerFullProfile lecturerId st = Some p ∧ p !! "id" = Some (User.id u).
Proof.
  intros Hl Hu. unfold lecturerFullProfile. rewrite Hl, Hu. simpl.
  eexists. split; [reflexivity|].
  rewrite lookup_insert_ne by done.
  apply spread_lookup_source, user_object_id.
Qed.

(** The list views spread the other way round: there the role record's
    [id] is the one that stays. *)
Lemma allStudentsWithProfiles_id (st : Store) (i : nat) (s : Student.t) :
  students st !! i = Some s ->
  ∃ p, allStudentsWithProfiles st !! i = Some p ∧ p !! "id" = Some (Student.id s).
Proof.
  intros Hi. unfold allStudentsWithProfiles.
  rewrite list_lookup_fmap, Hi. simpl. eexists. split; [reflexivity|].
  rewrite lookup_insert_ne by done.
  apply spread_lookup_source, student_object_id.
Qed.

(** C3.  On the store that registering one student and one lecturer
    leaves, [studentFullProfile] and [lecturerFullProfile] return a record
    whose [id] is the id of the linked user, not the id of the student or
    lecturer record asked for; [allStudentsWithProfiles] on the same
    store keeps the student's id. *)
Theorem full_profile_id_is_user_id :
  let st := storage (exec (addLecturer prof) (exec (addStudent ada) fresh)) in
  (Student.id <$> students st, Student.userId <$> students st)
    = (["id_1735725600000_3"], ["id_1735725600000_1"]) ∧
  (studentFullProfile "id_1735725600000_3" st ≫= (.!! "id"))
    = Some "id_1735725600000_1" ∧
  ((.!! "id") <$> allStudentsWithProfiles st)
    = [Some "id_1735725600000_3"] ∧
  (Lecturer.id <$> lecturers st, Lecturer.userId <$> lecturers st)
    = (["id_1735725600000_6"], ["id_1735725600000_4"]) ∧
  (lecturerFullProfile "id_1735725600000_6" st ≫= (.!! "id"))
    = Some "id_1735725600000_4" ∧
  ((.!! "id") <$> allLecturersWithProfiles st)
    = [Some "id_1735725600000_6"].
Proof. vm_compute. repeat split. Qed.
(** ** Binary64 arithmetic on integers

    The sums and products [calcGPA] forms are exact as long as they stay
    below [2^53], and its quotient is within one unit in the last place
    of the exact quotient.  These facts are proved from the definitions
    of the IEEE 754 model. *)

Section Binary64.
Local Open Scope Z_scope.

Lemma digits2_pos_bounds (p : positive) :
  2 ^ (Z.pos (digits2_pos p) - 1) <= Z.pos p < 2 ^ Z.pos (digits2_pos p).
Proof.
  induction p as [p IH|p IH|]; simpl digits2_pos.
  - rewrite Pos2Z.inj_succ.
    replace (Z.succ (Z.pos (digits2_pos p)) - 1) with (Z.succ (Z.pos (digits2_pos p) - 1)) by lia.
    rewrite !Z.pow_succ_r by lia. lia.
  - rewrite Pos2Z.inj_succ.
    replace (Z.succ (Z.pos (digits2_pos p)) - 1) with (Z.succ (Z.pos (digits2_pos p) - 1)) by lia.
    rewrite !Z.pow_succ_r by lia. lia.
  - simpl. lia.
Qed.

Lemma Zdigits2_nonneg (z : Z) : 0 <= Zdigits2 z.
Proof. destruct z; simpl; lia. Qed.

Lemma Zdigits2_le (z k : Z) : 0 <= z < 2 ^ k -> 0 <= k -> Zdigits2 z <= k.
Proof.
  intros [Hz Hlt] Hk. destruct z as [|p|p]; simpl; [lia| |lia].
  pose proof (digits2_pos_bounds p) as [Hlo _].
  destruct (Z_le_gt_dec (Z.pos (digits2_pos p)) k) as [|Hgt]; [done|].
  assert (2 ^ k <= 2 ^ (Z.pos (digits2_pos p) - 1)) by (apply Z.pow_le_mono_r; lia).
  lia.
Qed.

Lemma Zdigits2_ge (z k : Z) : 2 ^ k <= z -> 0 <= k -> k < Zdigits2 z.
Proof.
  intros Hz Hk.
  assert (0 < 2 ^ k) by (apply Z.pow_pos_nonneg; lia).
  destruct z as [|p|p]; [lia| |lia]. simpl.
  pose proof (digits2_pos_bounds p) as [_ Hhi].
  apply (Z.pow_lt_mono_r_iff 2); lia.
Qed.

Lemma Zdigits2_eq (z k : Z) : 2 ^ (k - 1) <= z < 2 ^ k -> 0 < k -> Zdigits2 z = k.
Proof.
  intros [Hlo Hhi] Hk.
  pose proof (Zdigits2_ge z (k - 1) Hlo ltac:(lia)).
  assert (0 < 2 ^ (k - 1)) by (apply Z.pow_pos_nonneg; lia).
  pose proof (Zdigits2_le z k ltac:(lia) ltac:(lia)). lia.
Qed.

Lemma Zdigits2_bounds (z : Z) :
  0 < z -> 2 ^ (Zdigits2 z - 1) <= z < 2 ^ Zdigits2 z.
Proof. intros Hz. destruct z as [|p|p]; [lia| |lia]. apply digits2_pos_bounds. Qed.

(** *** Shifting a mantissa right *)

Lemma iter_pos_nat {A : Type} (f : A -> A) (n : positive) (x : A) :
  @SpecFloat.iter_pos A f n x = Nat.iter (Pos.to_nat n) f x.
Proof.
  revert x. induction n as [n IH|n IH|]; intros x; simpl SpecFloat.iter_pos.
  - rewrite !IH, Pos2Nat.inj_xI.
    replace (S (2 * Pos.to_nat n))%nat
      with (Pos.to_nat n + (Pos.to_nat n + 1))%nat by lia.
    by rewrite !Nat.iter_add.
  - rewrite !IH, Pos2Nat.inj_xO.
    replace (2 * Pos.to_nat n)%nat with (Pos.to_nat n + Pos.to_nat n)%nat by lia.
    by rewrite Nat.iter_add.
  - reflexivity.
Qed.

Lemma shr_1_spec (m : Z) (r s : bool) :
  0 <= m ->
  shr_1 (Build_shr_record m r s) = Build_shr_record (Z.div2 m) (Z.odd m) (r || s).
Proof. intros Hm. destruct m as [|[p|p|]|p]; try reflexivity; lia. Qed.

(** [k] shifts divide the mantissa by [2^k]. *)
Lemma shr_iter (k : nat) (m : Z) (r s : bool) :
  0 <= m ->
  shr_m (Nat.iter k shr_1 (Build_shr_record m r s)) = m / 2 ^ Z.of_nat k.
Proof.
  intros Hm. induction k as [|k IH].
  - simpl. by rewrite Z.div_1_r.
  - rewrite Nat.iter_succ.
    destruct (Nat.iter k shr_1 (Build_shr_record m r s)) as [m' r' s'].
    simpl in IH. subst m'.
    assert (0 <= m / 2 ^ Z.of_nat k) by (apply Z.div_pos; [lia|apply Z.pow_pos_nonneg; lia]).
    rewrite shr_1_spec by done. simpl.
    rewrite Z.div2_div, Z.div_div by (try apply Z.pow_pos_nonneg; lia).
    rewrite Nat2Z.inj_succ, Z.pow_succ_r by lia. f_equal. lia.
Qed.

(** They lose nothing when the mantissa is a multiple of [2^k]. *)
Lemma shr_iter_exact (k : nat) (m : Z) :
  0 <= m -> m mod 2 ^ Z.of_nat k = 0 ->
  Nat.iter k shr_1 (Build_shr_record m false false)
  = Build_shr_record (m / 2 ^ Z.of_nat k) false false.
Proof.
  intros Hm. induction k as [|k IH]; intros Hmod.
  - simpl. by rewrite Z.div_1_r.
  - rewrite Nat2Z.inj_succ, Z.pow_succ_r in Hmod by lia.
    assert (0 < 2 ^ Z.of_nat k) as Hpow by (apply Z.pow_pos_nonneg; lia).
    apply Z.mod_divide in Hmod as [c Hc]; [|lia].
    assert (m = (2 * c) * 2 ^ Z.of_nat k) as Hm2 by lia.
    rewrite Nat.iter_succ, IH.
    + rewrite Hm2 at 1. rewrite Z.div_mul by lia.
      rewrite shr_1_spec by lia.
      rewrite Z.div2_div, Z.odd_mul. simpl.
      rewrite Nat2Z.inj_succ, Z.pow_succ_r by lia.
      replace (2 * c / 2) with c by (rewrite Z.mul_comm, Z.div_mul; lia).
      rewrite Hc at 1. by rewrite Z.div_mul by lia.
    + rewrite Hm2. apply Z.mod_mul. lia.
Qed.

Lemma shr_record_of_loc_m (m : Z) (l : location) : shr_m (shr_record_of_loc m l) = m.
Proof. by destruct l as [|[]]. Qed.

(** Alignment of a mantissa of at least 53 digits: the digits in excess
    are shifted out. *)
Lemma shr_fexp_shift (m e : Z) (l : location) :
  2 ^ 52 <= m -> -1000 <= e ->
  53 <= Zdigits2 m ∧
  shr_m (fst (shr_fexp Js.prec Js.emax m e l)) = m / 2 ^ (Zdigits2 m - 53) ∧
  snd (shr_fexp Js.prec Js.emax m e l) = e + (Zdigits2 m - 53) ∧
  (l = loc_Exact -> m mod 2 ^ (Zdigits2 m - 53) = 0 ->
   fst (shr_fexp Js.prec Js.emax m e l)
   = Build_shr_record (m / 2 ^ (Zdigits2 m - 53)) false false).
Proof.
  intros Hm He.
  pose proof (Zdigits2_ge m 52 Hm ltac:(lia)) as Hd.
  split; [lia|]. unfold shr_fexp, shr.
  assert (fexp Js.prec Js.emax (Zdigits2 m + e) - e = Zdigits2 m - 53) as ->.
  { unfold fexp, emin, Js.prec, Js.emax. lia. }
  assert (0 <= m) as Hm0.
  { assert (0 < 2 ^ 52) by (apply Z.pow_pos_nonneg; lia). lia. }
  destruct (Zdigits2 m - 53) as [|p|p] eqn:Ed; [| |lia].
  - simpl. rewrite shr_record_of_loc_m, Z.div_1_r.
    split; [done|]. split; [lia|]. by intros -> _.
  - cbn [fst snd]. rewrite iter_pos_nat.
    split; [|split; [lia|]].
    + destruct l as [|[]]; simpl shr_record_of_loc;
        rewrite shr_iter by done; by rewrite positive_nat_Z.
    + intros -> Hmod. simpl shr_record_of_loc.
      rewrite shr_iter_exact;
        [by rewrite positive_nat_Z|done|by rewrite positive_nat_Z].
Qed.

Lemma round_nearest_even_bounds (m : Z) (l : location) :
  m <= round_nearest_even m l <= m + 1.
Proof.
  unfold round_nearest_even. destruct l as [|[]]; try lia.
  destruct (Z.even m); lia.
Qed.

(** *** Integers as doubles *)

Lemma pos_iter_xO (p k : positive) : Z.pos (Pos.iter xO p k) = Z.pos p * 2 ^ Z.pos k.
Proof.
  induction k as [|k IH] using Pos.peano_ind.
  - simpl. lia.
  - rewrite Pos.iter_succ, Pos2Z.inj_xO, IH, Pos2Z.inj_succ, Z.pow_succ_r by lia. lia.
Qed.

Lemma shl_align_value (mx : positive) (ex ex' : Z) :
  ex' <= ex -> Z.pos (fst (shl_align mx ex ex')) = Z.pos mx * 2 ^ (ex - ex').
Proof.
  intros Hle. unfold shl_align.
  destruct (ex' - ex) as [|d|d] eqn:Ed; [|lia|].
  - replace (ex - ex') with 0 by lia. simpl. lia.
  - simpl. rewrite pos_iter_xO. f_equal. f_equal. lia.
Qed.

(** Rounding a mantissa that holds the integer [z], below [2^53], with
    zeros behind it: the result is the normal double of [z]. *)
Lemma binary_round_aux_int (z M e : Z) :
  0 < z < 2 ^ 53 -> -1000 <= e <= 0 -> M = z * 2 ^ (- e) -> 2 ^ 52 <= M ->
  int_double z (binary_round_aux Js.prec Js.emax false M e loc_Exact).
Proof.
  intros Hz He HM Hbig.
  destruct (shr_fexp_shift M e loc_Exact Hbig ltac:(lia)) as (Hd & _ & Hsnd & Hfst).
  set (d := Zdigits2 M) in *.
  assert (0 < M) as HM0.
  { assert (0 < 2 ^ 52) by (apply Z.pow_pos_nonneg; lia). lia. }
  pose proof (Zdigits2_bounds M HM0) as [Hlo Hhi]. fold d in Hlo, Hhi.
  assert (0 < 2 ^ (- e)) as Hpe by (apply Z.pow_pos_nonneg; lia).
  assert (d <= 53 - e) as Hde.
  { apply Zdigits2_le; [|lia]. split; [lia|].
    rewrite HM. replace (53 - e) with (53 + - e) by lia.
    rewrite Z.pow_add_r by lia. nia. }
  set (sh := d - 53) in *.
  assert (0 < 2 ^ sh) as Hpsh by (apply Z.pow_pos_nonneg; lia).
  assert (2 ^ (- e) = 2 ^ (- e - sh) * 2 ^ sh) as Hsplit.
  { rewrite <- Z.pow_add_r by lia. f_equal. lia. }
  assert (M = (z * 2 ^ (- e - sh)) * 2 ^ sh) as HM2 by (rewrite HM, Hsplit; lia).
  assert (M / 2 ^ sh = z * 2 ^ (- e - sh)) as Hquot.
  { rewrite HM2 at 1. apply Z.div_mul. lia. }
  specialize (Hfst eq_refl). rewrite Hquot in Hfst.
  assert (2 ^ 52 <= z * 2 ^ (- e - sh) < 2 ^ 53) as Hnorm.
  { assert (2 ^ d = 2 ^ 53 * 2 ^ sh) as E1.
    { rewrite <- Z.pow_add_r by lia. f_equal. lia. }
    assert (2 ^ (d - 1) = 2 ^ 52 * 2 ^ sh) as E2.
    { rewrite <- Z.pow_add_r by lia. f_equal. lia. }
    rewrite E1 in Hhi. rewrite E2 in Hlo. rewrite HM2 in Hlo, Hhi.
    split.
    - apply (Z.mul_le_mono_pos_r _ _ (2 ^ sh)); lia.
    - apply (Z.mul_lt_mono_pos_r (2 ^ sh)); lia. }
  set (M' := z * 2 ^ (- e - sh)) in *.
  unfold binary_round_aux.
  destruct (shr_fexp Js.prec Js.emax M e loc_Exact) as [mrs1 e1].
  cbn [fst snd] in Hfst, Hsnd. subst e1.
  rewrite Hfst by (rewrite HM2; apply Z.mod_mul; lia).
  cbn [shr_m loc_of_shr_record round_nearest_even].
  destruct (shr_fexp_shift M' (e + sh) loc_Exact (proj1 Hnorm) ltac:(lia))
    as (_ & _ & Hsnd' & Hfst').
  assert (Zdigits2 M' = 53) as Hd' by (apply Zdigits2_eq; [exact Hnorm|lia]).
  rewrite Hd' in Hsnd', Hfst'. replace (53 - 53) with 0 in Hsnd', Hfst' by lia.
  rewrite Z.pow_0_r, Z.div_1_r in Hfst'.
  specialize (Hfst' eq_refl (Z.mod_1_r _)).
  destruct (shr_fexp Js.prec Js.emax M' (e + sh) loc_Exact) as [mrs2 e2].
  cbn [fst snd] in Hfst', Hsnd'. subst mrs2 e2. cbn [shr_m].
  destruct M' as [|m'|m'] eqn:EM'; [lia| |lia].
  assert ((e + sh + 0 <=? Js.emax - Js.prec) = true) as ->.
  { apply Z.leb_le. unfold Js.emax, Js.prec. lia. }
  exists m', (e + sh + 0). split; [done|].
  split; [exact Hd'|]. split.
  - split; [|lia].
    assert (2 ^ (- e - sh) < 2 ^ 53) as Hlt.
    { assert (1 * 2 ^ (- e - sh) <= z * 2 ^ (- e - sh)).
      { apply Z.mul_le_mono_nonneg_r; [apply Z.pow_nonneg|]; lia. }
      lia. }
    apply Z.pow_lt_mono_r_iff in Hlt; lia.
  - rewrite <- EM'. unfold M'. f_equal. f_equal. lia.
Qed.

(** The Number for a positive integer below [2^53] is its normal double. *)
Lemma of_Z_int (z : Z) : 0 < z < 2 ^ 53 -> int_double z (Js.of_Z z).
Proof.
  intros Hz. destruct z as [|p|p]; [lia| |lia].
  unfold Js.of_Z, binary_normalize, binary_round.
  pose proof (Zdigits2_le (Z.pos p) 53 ltac:(lia) ltac:(lia)) as Hd. simpl in Hd.
  pose proof (digits2_pos_bounds p) as [Hlo _].
  assert (fexp Js.prec Js.emax (Z.pos (digits2_pos p) + 0)
          = Z.pos (digits2_pos p) - 53) as ->.
  { unfold fexp, emin, Js.prec, Js.emax. lia. }
  pose proof (shl_align_value p 0 (Z.pos (digits2_pos p) - 53) ltac:(lia)) as Hval.
  assert (snd (shl_align p 0 (Z.pos (digits2_pos p) - 53))
          = Z.pos (digits2_pos p) - 53) as Hexp.
  { unfold shl_align. destruct (Z.pos (digits2_pos p) - 53 - 0) eqn:E; simpl; lia. }
  destruct (shl_align p 0 (Z.pos (digits2_pos p) - 53)) as [mz ez].
  cbn [fst snd] in Hval, Hexp. subst ez.
  replace (0 - (Z.pos (digits2_pos p) - 53)) with (- (Z.pos (digits2_pos p) - 53))
    in Hval by lia.
  apply binary_round_aux_int; [lia|lia|exact Hval|].
  rewrite Hval.
  replace 52 with ((Z.pos (digits2_pos p) - 1) + - (Z.pos (digits2_pos p) - 53)) by lia.
  rewrite Z.pow_add_r by lia.
  apply Z.mul_le_mono_nonneg_r; [apply Z.pow_nonneg; lia|done].
Qed.

(** An integer has one normal double. *)
Lemma int_double_unique (z : Z) (x y : Js.number) :
  int_double z x -> int_double z y -> x = y.
Proof.
  intros (m1 & e1 & -> & Hd1 & He1 & Hm1) (m2 & e2 & -> & Hd2 & He2 & Hm2).
  pose proof (digits2_pos_bounds m1) as B1. rewrite Hd1 in B1.
  pose proof (digits2_pos_bounds m2) as B2. rewrite Hd2 in B2.
  change (2 ^ (53 - 1)) with (2 ^ 52) in *.
  assert (0 < z).
  { assert (0 < 2 ^ (- e1)) by (apply Z.pow_pos_nonneg; lia). nia. }
  assert (e1 = e2) as ->.
  { destruct (Z.lt_trichotomy e1 e2) as [Hlt|[?|Hgt]]; [exfalso|done|exfalso].
    - assert (2 ^ (- e1) = 2 ^ (- e2) * 2 ^ (e2 - e1)) as E.
      { rewrite <- Z.pow_add_r by lia. f_equal. lia. }
      assert (2 ^ 1 <= 2 ^ (e2 - e1)) by (apply Z.pow_le_mono_r; lia).
      change (2 ^ 1) with 2 in *.
      assert (0 < 2 ^ (- e2)) by (apply Z.pow_pos_nonneg; lia).
      rewrite E in Hm1. nia.
    - assert (2 ^ (- e2) = 2 ^ (- e1) * 2 ^ (e1 - e2)) as E.
      { rewrite <- Z.pow_add_r by lia. f_equal. lia. }
      assert (2 ^ 1 <= 2 ^ (e1 - e2)) by (apply Z.pow_le_mono_r; lia).
      change (2 ^ 1) with 2 in *.
      assert (0 < 2 ^ (- e1)) by (apply Z.pow_pos_nonneg; lia).
      rewrite E in Hm2. nia. }
  assert (m1 = m2) as -> by lia. done.
Qed.

(** The normal double of an integer is that integer. *)
Lemma int_double_is_integer (z : Z) (x : Js.number) : int_double z x -> is_integer x z.
Proof.
  intros (m & e & -> & _ & He & Hm). unfold is_integer. cbn [cond_Zopp].
  rewrite (Z.max_r e 0), (Z.max_l (- e) 0) by lia. rewrite Hm, Z.pow_0_r. lia.
Qed.

(** *** Exact sums and products *)


Lemma mul_of_Z (a b : Z) :
  0 <= a < 2 ^ 53 -> 0 <= b < 2 ^ 53 -> a * b < 2 ^ 53 ->
  Js.mul (Js.of_Z a) (Js.of_Z b) = Js.of_Z (a * b).
Proof.
  intros [Ha Ha53] [Hb Hb53] Hprod.
  destruct (Z.eq_dec a 0) as [->|Ha0].
  { destruct (Z.eq_dec b 0) as [->|Hb0]; [reflexivity|].
    destruct (of_Z_int b ltac:(lia)) as (mb & eb & Eb & _).
    rewrite Z.mul_0_l, Eb. reflexivity. }
  destruct (Z.eq_dec b 0) as [->|Hb0].
  { destruct (of_Z_int a ltac:(lia)) as (ma & ea & Ea & _).
    rewrite Z.mul_0_r, Ea. reflexivity. }
  apply (int_double_unique (a * b)); [|apply of_Z_int; nia].
  destruct (of_Z_int a ltac:(lia)) as (ma & ea & -> & Hda & Hea & Hma).
  destruct (of_Z_int b ltac:(lia)) as (mb & eb & -> & Hdb & Heb & Hmb).
  unfold Js.mul, SFmul. cbn [xorb].
  pose proof (digits2_pos_bounds ma) as Bma. rewrite Hda in Bma.
  pose proof (digits2_pos_bounds mb) as Bmb. rewrite Hdb in Bmb.
  change (2 ^ (53 - 1)) with (2 ^ 52) in *.
  apply binary_round_aux_int; [nia|lia| |].
  - rewrite Pos2Z.inj_mul, Hma, Hmb.
    replace (- (ea + eb)) with (- ea + - eb) by lia.
    rewrite Z.pow_add_r by lia. lia.
  - rewrite Pos2Z.inj_mul.
    assert (2 ^ 52 * 1 <= Z.pos ma * Z.pos mb); [|lia].
    assert (0 < 2 ^ 52) by (apply Z.pow_pos_nonneg; lia). nia.
Qed.

(** *** Signs, and integers of any size *)

Lemma binary_round_aux_opp (M e : Z) (l : location) :
  binary_round_aux Js.prec Js.emax true M e l
  = SFopp (binary_round_aux Js.prec Js.emax false M e l).
Proof.
  unfold binary_round_aux.
  destruct (shr_fexp Js.prec Js.emax M e l) as [mrs1 e1].
  destruct (shr_fexp Js.prec Js.emax
              (round_nearest_even (shr_m mrs1) (loc_of_shr_record mrs1)) e1 loc_Exact)
    as [mrs2 e2].
  destruct (shr_m mrs2); [reflexivity| |reflexivity].
  by destruct (e2 <=? Js.emax - Js.prec).
Qed.

Lemma binary_round_opp (p : positive) (e : Z) :
  binary_round Js.prec Js.emax true p e = SFopp (binary_round Js.prec Js.emax false p e).
Proof.
  unfold binary_round.
  destruct (shl_align p e (fexp Js.prec Js.emax (Z.pos (digits2_pos p) + e)))
    as [mz ez].
  apply binary_round_aux_opp.
Qed.

Lemma of_Z_opp (z : Z) : 0 < z -> Js.of_Z (- z) = SFopp (Js.of_Z z).
Proof.
  intros Hz. destruct z as [|p|p]; [lia| |lia].
  unfold Js.of_Z. cbn [Z.opp binary_normalize]. apply binary_round_opp.
Qed.

(** The Number for a positive integer is positive: finite or infinite. *)
Lemma of_Z_positive (z : Z) :
  0 < z ->
  (∃ m e, Js.of_Z z = S754_finite false m e) ∨ Js.of_Z z = S754_infinity false.
Proof.
  intros Hz.
  assert (z < 2 ^ 53 ∨ 2 ^ 53 <= z) as [Hlt|Hge] by lia.
  { destruct (of_Z_int z ltac:(lia)) as (m & e & -> & _). left. by exists m, e. }
  destruct z as [|p|p]; [lia| |lia].
  unfold Js.of_Z, binary_normalize, binary_round.
  pose proof (Zdigits2_ge (Z.pos p) 53 Hge ltac:(lia)) as Hd. simpl in Hd.
  assert (shl_align p 0 (fexp Js.prec Js.emax (Z.pos (digits2_pos p) + 0)) = (p, 0))
    as ->.
  { unfold shl_align.
    destruct (fexp Js.prec Js.emax (Z.pos (digits2_pos p) + 0) - 0) eqn:E;
      try reflexivity.
    unfold fexp, emin, Js.prec, Js.emax in E. lia. }
  assert (2 ^ 52 <= 2 ^ 53) as H5253 by (apply Z.pow_le_mono_r; lia).
  destruct (shr_fexp_shift (Z.pos p) 0 loc_Exact ltac:(lia) ltac:(lia))
    as (Hd1 & Hm1 & Hs1 & _).
  pose proof (Zdigits2_bounds (Z.pos p) ltac:(lia)) as [Blo _].
  unfold binary_round_aux.
  destruct (shr_fexp Js.prec Js.emax (Z.pos p) 0 loc_Exact) as [mrs1 e1].
  cbn [fst snd] in Hm1, Hs1. subst e1.
  set (sh1 := Zdigits2 (Z.pos p) - 53) in *.
  assert (0 < 2 ^ sh1) as Hp1 by (apply Z.pow_pos_nonneg; lia).
  assert (2 ^ 52 <= shr_m mrs1) as Ht.
  { rewrite Hm1. apply Z.div_le_lower_bound; [lia|].
    rewrite Z.mul_comm, <- Z.pow_add_r by lia.
    replace (52 + sh1) with (Zdigits2 (Z.pos p) - 1) by (unfold sh1; lia). done. }
  pose proof (round_nearest_even_bounds (shr_m mrs1) (loc_of_shr_record mrs1)) as Hm2.
  set (m2 := round_nearest_even (shr_m mrs1) (loc_of_shr_record mrs1)) in *.
  destruct (shr_fexp_shift m2 (0 + sh1) loc_Exact ltac:(lia) ltac:(lia))
    as (Hd2 & Hm3 & _ & _).
  assert (0 < 2 ^ 52) by (apply Z.pow_pos_nonneg; lia).
  pose proof (Zdigits2_bounds m2 ltac:(lia)) as [Blo2 _].
  destruct (shr_fexp Js.prec Js.emax m2 (0 + sh1) loc_Exact) as [mrs2 e2].
  cbn [fst] in Hm3.
  set (sh2 := Zdigits2 m2 - 53) in *.
  assert (0 < 2 ^ sh2) as Hp2 by (apply Z.pow_pos_nonneg; lia).
  assert (2 ^ 52 <= shr_m mrs2) as Hm3b.
  { rewrite Hm3. apply Z.div_le_lower_bound; [lia|].
    rewrite Z.mul_comm, <- Z.pow_add_r by lia.
    replace (52 + sh2) with (Zdigits2 m2 - 1) by (unfold sh2; lia). done. }
  destruct (shr_m mrs2) as [|m|m]; [lia| |lia].
  destruct (e2 <=? Js.emax - Js.prec); [left; by eexists _, _|by right].
Qed.

Lemma of_Z_truthy (z : Z) : z ≠ 0 -> Js.truthy (Js.of_Z z) = true.
Proof.
  intros Hz.
  assert (0 < z ∨ 0 < - z) as [Hpos|Hneg] by lia.
  - by destruct (of_Z_positive z Hpos) as [(m & e & ->)| ->].
  - pose proof (of_Z_opp (- z) Hneg) as E.
    rewrite Z.opp_involutive in E. rewrite E.
    by destruct (of_Z_positive (- z) Hneg) as [(m & e & ->)| ->].
Qed.

(** Up to [2^53] in magnitude it is the integer itself. *)
Lemma of_Z_exact (n : Z) :
  n ≠ 0 -> - 2 ^ 53 < n < 2 ^ 53 -> is_integer (Js.of_Z n) n.
Proof.
  intros Hn Hrange.
  assert (0 < n ∨ 0 < - n) as [Hpos|Hneg] by lia.
  - apply int_double_is_integer, of_Z_int. lia.
  - pose proof (of_Z_opp (- n) Hneg) as E.
    rewrite Z.opp_involutive in E. rewrite E.
    destruct (of_Z_int (- n) ltac:(lia)) as (m & e & -> & _ & He & Hm).
    unfold is_integer. cbn [SFopp negb cond_Zopp].
    rewrite (Z.max_r e 0), (Z.max_l (- e) 0) by lia.
    rewrite Z.pow_0_r. lia.
Qed.

End Binary64.

(** ** The quotient of [calcGPA] and its two decimals *)

Section Quotient.
Local Open Scope Z_scope.



End Quotient.
(** ** Courses *)

Lemma addCourse_new (f : CourseFields) (w : World) :
  ¬ code_taken (cf_code f) (storage w) ->
  ∃ id c w',
    addCourse f w = (Returned id, w') ∧
    courses (storage w') = courses (storage w) ++ [c] ∧
    Course.id c = id ∧ Course.code c = cf_code f ∧
    Course.units c = Js.json_number (units_or_3 (cf_units f)).
Proof.
  intros Hfree.
  apply (find_None_no_witness (fun c => Course.code c = cf_code f)) in Hfree.
  unfold addCourse, mbind, M_bind, get; simpl. rewrite Hfree; simpl.
  eexists _, _, _. split; [reflexivity|]. simpl.
  split; [reflexivity|]. by repeat split.
Qed.

(** [parseInt(units)||3] by what [parseInt] reads. *)
Lemma units_or_3_read (units : Js.text) :
  match Js.read_integer units with
  | Some (neg, n) =>
      if decide (n = 0%Z) then units_or_3 units = Js.of_Z 3
      else units_or_3 units = Js.of_Z (if neg then (- n)%Z else n)
  | None => units_or_3 units = Js.of_Z 3
  end.
Proof.
  unfold units_or_3, Js.parseInt.
  destruct (Js.read_integer units) as [[neg n]|]; [|done].
  case_decide as Hn; [by destruct neg|].
  unfold Js.or_number. rewrite of_Z_truthy; [done|]. destruct neg; lia.
Qed.

(** A non-zero integer below [2^53] in magnitude is stored as it is. *)
Lemma json_number_of_Z (n : Z) :
  n ≠ 0%Z -> (Z.abs n < 2 ^ 53)%Z ->
  ∃ x, Js.json_number (Js.of_Z n) = Some x ∧ is_integer x n.
Proof.
  intros Hn Hrange.
  pose proof (of_Z_exact n Hn ltac:(lia)) as Hex.
  exists (Js.of_Z n). split; [|done].
  destruct (Js.of_Z n); simpl in *; done.
Qed.

(** Units given as ["0"] parse to the non-negative integer 0 and are
    stored as 3. *)
Lemma addCourse_zero_units_stored_as_3 : ¬ units_stored_as_parsed.
Proof.
  intros Hclaim.
  destruct (Hclaim zero_unit_course fresh 0%Z)
    as (id & c & w' & x & Hrun & Hcs & Hunits & Hint).
  - intros (c & Hc & _). vm_compute in Hc. by apply not_elem_of_nil in Hc.
  - reflexivity.
  - vm_compute in Hrun. injection Hrun as <- <-.
    vm_compute in Hcs. injection Hcs as <-.
    vm_compute in Hunits. injection Hunits as <-.
    vm_compute in Hint. discriminate.
Qed.

(** C9, as the code has it.  For a code not yet in use, [addCourse]
    appends one course.  When [parseInt] reads a non-zero integer from
    the units argument, the units stored are the Number for that integer,
    as JSON keeps it: the integer itself when its magnitude is below
    [2^53], the nearest double beyond, [null] past the largest double.
    When there is nothing to parse, or the integer read is 0, the units
    stored are the default 3. *)
Theorem addCourse_units (f : CourseFields) (w : World) :
  ¬ code_taken (cf_code f) (storage w) ->
  ∃ id c w',
    addCourse f w = (Returned id, w') ∧
    courses (storage w') = courses (storage w) ++ [c] ∧
    Course.id c = id ∧ Course.code c = cf_code f ∧
    (∀ neg n,
       Js.read_integer (cf_units f) = Some (neg, n) -> n ≠ 0%Z ->
       Course.units c = Js.json_number (Js.of_Z (if neg then (- n)%Z else n)) ∧
       ((Z.abs n < 2 ^ 53)%Z ->
        ∃ x, Course.units c = Some x ∧
             is_integer x (if neg then (- n)%Z else n))) ∧
    (Js.read_integer (cf_units f) = None ∨
     (∃ neg, Js.read_integer (cf_units f) = Some (neg, 0%Z)) ->
     ∃ x, Course.units c = Some x ∧ is_integer x 3).
Proof.
  intros Hfree.
  destruct (addCourse_new f w Hfree) as (id & c & w' & Hrun & Hcs & Hid & Hcode & Hunits).
  exists id, c, w'. repeat (split; [done|]).
  rewrite Hunits. pose proof (units_or_3_read (cf_units f)) as Hread. split.
  - intros neg n Hn Hne. rewrite Hn in Hread. rewrite decide_False in Hread by done.
    rewrite Hread. split; [done|]. intros Hrange.
    apply json_number_of_Z; destruct neg; lia.
  - assert (∃ x, Js.json_number (Js.of_Z 3) = Some x ∧ is_integer x 3) as H3.
    { apply json_number_of_Z; [done|]. by vm_compute. }
    intros [Hn|[neg Hn]]; rewrite Hn in Hread.
    + by rewrite Hread.
    + rewrite decide_True in Hread by done. by rewrite Hread.
Qed.

Lemma addCourse_units_witness :
  (∃ id c w',
     addCourse cit101 fresh = (Returned id, w') ∧
     courses (storage w') = courses (storage fresh) ++ [c] ∧
     Course.id c = id ∧ Course.code c = "CIT101" ∧
     Course.units c = Some (S754_finite false 6755399441055744 (-51)) ∧
     ∃ x, Course.units c = Some x ∧ is_integer x 3) ∧
  (∃ id c w',
     addCourse (mkCourseFields "GST101" "Skills" [160%N; 53%N] None) fresh
       = (Returned id, w') ∧
     ∃ x, Course.units c = Some x ∧ is_integer x 5) ∧
  (∃ id c w',
     addCourse (mkCourseFields "GST102" "Logic"
                  (Js.code_units "9007199254740993") None) fresh
       = (Returned id, w') ∧
     Course.units c = Some (S754_finite false 4503599627370496 1)) ∧
  (∃ id c w',
     addCourse (mkCourseFields "GST103" "Ethics" (Js.code_units "three") None) fresh
       = (Returned id, w') ∧
     ∃ x, Course.units c = Some x ∧ is_integer x 3).
Proof.
  assert (∀ code, code_taken code (storage fresh) -> False) as Hfree.
  { intros code (c & Hc & _). vm_compute in Hc. by apply not_elem_of_nil in Hc. }
  split; [|split; [|split]].
  - destruct (addCourse_units cit101 fresh (Hfree _))
      as (id & c & w' & Hrun & Hcs & Hid & Hcode & Hread & _).
    exists id, c, w'. repeat (split; [done|]).
    destruct (Hread false 3%Z eq_refl ltac:(done)) as [Hu Hx].
    split; [exact Hu|]. apply Hx. by vm_compute.
  - destruct (addCourse_units (mkCourseFields "GST101" "Skills" [160%N; 53%N] None)
                fresh (Hfree _))
      as (id & c & w' & Hrun & _ & _ & _ & Hread & _).
    exists id, c, w'. split; [exact Hrun|].
    destruct (Hread false 5%Z eq_refl ltac:(done)) as [_ Hx].
    apply Hx. by vm_compute.
  - destruct (addCourse_units
                (mkCourseFields "GST102" "Logic" (Js.code_units "9007199254740993") None)
                fresh (Hfree _))
      as (id & c & w' & Hrun & _ & _ & _ & Hread & _).
    exists id, c, w'. split; [exact Hrun|].
    destruct (Hread false 9007199254740993%Z eq_refl ltac:(done)) as [Hu _].
    exact Hu.
  - destruct (addCourse_units
                (mkCourseFields "GST103" "Ethics" (Js.code_units "three") None)
                fresh (Hfree _))
      as (id & c & w' & Hrun & _ & _ & _ & _ & Hdefault).
    exists id, c, w'. split; [exact Hrun|].
    apply Hdefault. by left.
Defined.

(** What [addCourse] stores for some units arguments: a numeral, a
    numeral after a no-break space, one more than [2^53], no numeral, a
    negative zero, a hexadecimal numeral, a numeral with a unit behind it,
    and a numeral of 401 digits. *)
Example addCourse_units_examples :
  let stored := fun units => Js.json_number (units_or_3 units) in
  stored (Js.code_units "3") = Some (Js.of_Z 3) ∧
  stored [160%N; 53%N] = Some (Js.of_Z 5) ∧
  stored (Js.code_units "9007199254740993") = Some (Js.of_Z 9007199254740992) ∧
  stored (Js.code_units "abc") = Some (Js.of_Z 3) ∧
  stored (Js.code_units "-0") = Some (Js.of_Z 3) ∧
  stored (Js.code_units " 0x1F") = Some (Js.of_Z 31) ∧
  stored (Js.code_units "12.5 units") = Some (Js.of_Z 12) ∧
  stored (Js.code_units (Js.decimal (10 ^ 400))) = None.
Proof. vm_compute. by repeat split. Qed.
(** ** Grade point average *)


(** On its keys, the points are those of the table as integers. *)
Lemma gp_or_0_letter (grade : string) :
  grade ∈ ["A"; "B"; "C"; "D"; "F"] -> gp_or_0 grade = Js.of_Z (grade_points grade).
Proof.
  intros Hin.
  repeat (apply elem_of_cons in Hin as [->|Hin]; [by vm_compute|]).
  by apply not_elem_of_nil in Hin.
Qed.

(** On a string that is neither a key of the table nor the name of an
    inherited property it is 0. *)
Lemma gp_or_0_unlisted (grade : string) :
  grade ∉ ["A"; "B"; "C"; "D"; "F"] -> grade ∉ Js.Object_prototype ->
  gp_or_0 grade = Js.of_Z 0.
Proof.
  intros Htable Hproto. unfold gp_or_0, gp_get.
  assert (gp !! grade = None) as ->.
  { unfold gp. simpl.
    repeat (rewrite lookup_insert_ne;
            [|intros <-; apply Htable;
              repeat first [apply list_elem_of_here | apply list_elem_of_further]]).
    apply lookup_empty. }
  by rewrite decide_False.
Qed.

(** On the name of an inherited property it is [NaN]. *)
Lemma gp_or_0_inherited (grade : string) :
  grade ∈ Js.Object_prototype -> gp_or_0 grade = S754_nan.
Proof.
  intros Hproto. unfold gp_or_0, gp_get.
  assert (gp !! grade = None) as ->.
  { unfold Js.Object_prototype in Hproto.
    repeat (apply elem_of_cons in Hproto as [->|Hproto]; [reflexivity|]).
    by apply not_elem_of_nil in Hproto. }
  by rewrite decide_True.
Qed.

(** The two fallbacks of one turn of the loop: 3 units for a course that
    does not exist; no points, and the units all the same, for a grade
    that is neither in the table nor the name of an inherited property.
    For such a name the points are [NaN] from then on. *)
Lemma gpa_step_fallbacks (s : Store) (acc : Js.number * Js.number) (r : Result.t) :
  (getCourseById (Result.courseId r) s = None ->
   gpa_step s acc r =
     (Js.add (fst acc) (Js.mul (gp_or_0 (Result.grade r)) (Js.of_Z 3)),
      Js.add (snd acc) (Js.of_Z 3))) ∧
  (∀ c u, getCourseById (Result.courseId r) s = Some c ->
     Course.units c = Some (Js.of_Z u) -> (0 <= u < 2 ^ 53)%Z ->
     Result.grade r ∉ ["A"; "B"; "C"; "D"; "F"] ->
     Result.grade r ∉ Js.Object_prototype ->
     gpa_step s acc r = (Js.add (fst acc) (Js.of_Z 0), Js.add (snd acc) (Js.of_Z u))) ∧
  (Result.grade r ∈ Js.Object_prototype -> fst (gpa_step s acc r) = S754_nan).
Proof.
  unfold gpa_step. split; [|split].
  - by intros ->.
  - intros c u -> -> Hu Htable Hproto.
    change (Js.to_number (Some (Js.of_Z u))) with (Js.of_Z u).
    rewrite gp_or_0_unlisted by done.
    rewrite (mul_of_Z 0 u) by lia. done.
  - intros Hproto. rewrite gp_or_0_inherited by done. cbn [fst].
    unfold Js.add, Js.mul. simpl SFmul. by destruct (fst acc).
Qed.

(** C10.  A result whose course does not exist counts for 3 units: an A
    in a course that was never created gives the average 5.00.  A result
    whose grade is not in the table counts for no points while its units
    count: on a store with one course and one result in it, the grade E
    gives 0.00.  But a grade that is the name of a property every object
    inherits, such as [toString] or [__proto__], is found by
    [gp[r.grade]]: the points are then [NaN], and so is the average. *)
Theorem calcGPA_inherited_grade :
  calcGPA "s1" (storage (exec (upsertResult "s1" "ghost" 90 admin) fresh))
    = Some "5.00" ∧
  calcGPA "s1" (graded_store "E") = Some "0.00" ∧
  calcGPA "s1" (graded_store "toString") = Some "NaN" ∧
  calcGPA "s1" (graded_store "__proto__") = Some "NaN".
Proof. vm_compute. by repeat split. Qed.

(** ** Grades *)

(** C4.  [scoreToGrade] returns A exactly from 70 up, B exactly on
    [60, 70), C exactly on [50, 60), D exactly on [40, 50) and F exactly
    below 40; nothing bounds the score from above, so a score above 100
    is an A. *)
Theorem scoreToGrade_thresholds (s : Q) :
  (scoreToGrade s = "A" <-> (70 <= s)%Q) ∧
  (scoreToGrade s = "B" <-> (60 <= s ∧ s < 70)%Q) ∧
  (scoreToGrade s = "C" <-> (50 <= s ∧ s < 60)%Q) ∧
  (scoreToGrade s = "D" <-> (40 <= s ∧ s < 50)%Q) ∧
  (scoreToGrade s = "F" <-> (s < 40)%Q) ∧
  ((100 < s)%Q -> scoreToGrade s = "A").
Proof.
  unfold scoreToGrade.
  destruct (Qle_bool 70 s) eqn:H70;
    [apply Qle_bool_iff in H70|apply Qle_bool_false in H70];
  (destruct (Qle_bool 60 s) eqn:H60;
    [apply Qle_bool_iff in H60|apply Qle_bool_false in H60]);
  (destruct (Qle_bool 50 s) eqn:H50;
    [apply Qle_bool_iff in H50|apply Qle_bool_false in H50]);
  (destruct (Qle_bool 40 s) eqn:H40;
    [apply Qle_bool_iff in H40|apply Qle_bool_false in H40]);
  repeat split; intros; try discriminate; try reflexivity; try lra.
Qed.

Lemma scoreToGrade_thresholds_witness : scoreToGrade 150 = "A".
Proof.
  refine (proj2 (proj2 (proj2 (proj2 (proj2 (scoreToGrade_thresholds 150))))) _).
  reflexivity.
Defined.

(** ** Runs of the statements above on the seeded store *)

Lemma addStudent_duplicate_or_insert_witness :
  (∃ msg, addStudent ada registered = (Thrown msg, registered) ∧ DuplicateKey msg) ∧
  (∃ studentId u s w',
     addStudent ada fresh = (Returned studentId, w') ∧ Student.id s = studentId ∧
     users (storage w') = users (storage fresh) ++ [u] ∧
     students (storage w') = students (storage fresh) ++ [s] ∧
     User.role u = "student" ∧ User.username u = sf_username ada ∧
     Student.userId s = User.id u ∧ Student.matric s = sf_matric ada ∧
     same_but_users_students (storage fresh) (storage w')).
Proof.
  refine (conj (proj1 (addStudent_duplicate_or_insert ada registered) _)
               (proj2 (addStudent_duplicate_or_insert ada fresh) _ _)).
  - right. eexists. split.
    + vm_compute. apply list_elem_of_here.
    + reflexivity.
  - apply (find_None_no_witness (fun u => User.username u = sf_username ada)).
    reflexivity.
  - apply (find_None_no_witness (fun x => Student.matric x = sf_matric ada)).
    reflexivity.
Defined.

Lemma upsertResult_enters_result_witness :
  ∃ w' r a,
    upsertResult "s1" "c1" 55 admin fresh = (Returned tt, w') ∧
    results (storage w') = results (storage fresh) ++ [r] ∧
    Result.studentId r = "s1" ∧ Result.courseId r = "c1" ∧
    Result.score r = 55%Q ∧ Result.grade r = "C" ∧
    derived_grade 55 (Result.grade r) ∧
    result_count "s1" "c1" (storage w') = 1 ∧
    enrollment_count "s1" "c1" (storage w') = 1 ∧
    audit_trail (storage w') = audit_trail (storage fresh) ++ [a] ∧
    AuditEntry.studentId a = "s1" ∧ AuditEntry.courseId a = "c1" ∧
    AuditEntry.oldGrade a = "—" ∧
    AuditEntry.newGrade a = "C" ∧
    AuditEntry.newGrade a = Result.grade r ∧
    AuditEntry.reason a = "Result entered".
Proof.
  refine (upsertResult_enters_result "s1" "c1" 55 admin fresh _ _).
  - reflexivity.
  - vm_compute. lia.
Defined.


Lemma submitFeedback_one_per_user_witness :
  ∃ w',
    submit_all [feedback_a1; feedback_b; feedback_a2] fresh = (Returned tt, w') ∧
    (∀ userId, length (feedback_of userId (storage w')) ≤ 1) ∧
    feedback_of "u1" (storage w') =
      [Feedback.mk "id_1735725600000_5" "u1" "Ada" "student" 5 4 5 "better"
         "2025-01-01 10:00:06"] ∧
    feedback_of "u2" (storage w') =
      [Feedback.mk "id_1735725600000_3" "u2" "Eze" "lecturer" 4 4 4 "fine"
         "2025-01-01 10:00:04"].
Proof.
  destruct (submitFeedback_one_per_user [feedback_a1; feedback_b; feedback_a2] fresh)
    as (w' & Hrun & Hone & Hlast).
  { intros userId. vm_compute. lia. }
  exists w'. split; [exact Hrun|]. split; [exact Hone|]. split.
  - destruct (Hlast [feedback_a1; feedback_b] feedback_a2 [] eq_refl (List.Forall_nil _))
      as ([i u n r a b c d t] & He & Hi & Hu & Hn & Hr & Ha & Hb & Hc & Hd & Ht).
    simpl in Hi, Hu, Hn, Hr, Ha, Hb, Hc, Hd, Ht.
    rewrite Hi, Hu, Hn, Hr, Ha, Hb, Hc, Hd, Ht in He. exact He.
  - destruct (Hlast [feedback_a1] feedback_b [feedback_a2] eq_refl)
      as ([i u n r a b c d t] & He & Hi & Hu & Hn & Hr & Ha & Hb & Hc & Hd & Ht).
    { repeat constructor. discriminate. }
    simpl in Hi, Hu, Hn, Hr, Ha, Hb, Hc, Hd, Ht.
    rewrite Hi, Hu, Hn, Hr, Ha, Hb, Hc, Hd, Ht in He. exact He.
Defined.

(** ** The shape of a number in fixed notation *)

Lemma digit_char_is_digit (d : Z) : (0 <= d < 10)%Z -> is_digit (Js.digit_char d).
Proof.
  intros Hd. unfold is_digit, Js.digit_char.
  rewrite nat_ascii_embedding by lia. lia.
Qed.

Lemma string_app_cons (x : ascii) (a b : string) :
  String x a +:+ b = String x (a +:+ b).
Proof. reflexivity. Qed.

Lemma all_digits_app (a b : string) :
  all_digits a -> all_digits b -> all_digits (a +:+ b).
Proof.
  induction a as [|c a IH]; [done|]. intros [Hc Ha] Hb.
  rewrite string_app_cons. split; [done|]. by apply IH.
Qed.

Lemma string_app_assoc (a b c : string) : (a +:+ b) +:+ c = a +:+ (b +:+ c).
Proof.
  induction a as [|x a IH]; [done|]. by rewrite !string_app_cons, IH.
Qed.

Lemma decimal_aux_digits (fuel : nat) (n : Z) (acc : string) :
  (0 <= n)%Z ->
  ∃ ds, Js.decimal_aux (S fuel) n acc = ds +:+ acc ∧
        ds ≠ EmptyString ∧ all_digits ds.
Proof.
  revert n acc. induction fuel as [|fuel IH]; intros n acc Hn.
  - exists (String (Js.digit_char (n mod 10)) EmptyString).
    assert (is_digit (Js.digit_char (n mod 10))) as Hd.
    { apply digit_char_is_digit. apply Z.mod_pos_bound. lia. }
    change (Js.decimal_aux 1 n acc) with
      (if (n <? 10)%Z then String (Js.digit_char (n mod 10)) acc
       else String (Js.digit_char (n mod 10)) acc).
    destruct (n <? 10)%Z; (split; [reflexivity|]); (split; [discriminate|]);
      by split.
  - assert (is_digit (Js.digit_char (n mod 10))) as Hd.
    { apply digit_char_is_digit. apply Z.mod_pos_bound. lia. }
    change (Js.decimal_aux (S (S fuel)) n acc) with
      (if (n <? 10)%Z then String (Js.digit_char (n mod 10)) acc
       else Js.decimal_aux (S fuel) (n / 10) (String (Js.digit_char (n mod 10)) acc)).
    destruct (n <? 10)%Z.
    + exists (String (Js.digit_char (n mod 10)) EmptyString).
      split; [reflexivity|]. split; [discriminate|]. by split.
    + destruct (IH (n / 10)%Z (String (Js.digit_char (n mod 10)) acc))
        as (ds & -> & Hne & Hds).
      { apply Z.div_pos; lia. }
      exists (ds +:+ String (Js.digit_char (n mod 10)) EmptyString).
      split; [by rewrite string_app_assoc|]. split.
      * destruct ds; [done|discriminate].
      * apply all_digits_app; [done|]. by split.
Qed.

Lemma string_app_empty_r (a : string) : a +:+ EmptyString = a.
Proof. induction a as [|x a IH]; [done|]. by rewrite string_app_cons, IH. Qed.


(** *** Reading a numeral back *)

Lemma digit_of_digit_char (d : Z) :
  (0 <= d < 10)%Z -> digit_of (Js.digit_char d) = Some d.
Proof.
  intros Hd.
  assert (d = 0 ∨ d = 1 ∨ d = 2 ∨ d = 3 ∨ d = 4 ∨ d = 5 ∨ d = 6 ∨ d = 7 ∨
          d = 8 ∨ d = 9)%Z as Hcases by lia.
  repeat (destruct Hcases as [-> | Hcases]; [reflexivity|]). by subst.
Qed.

Lemma numeral_value_digit (acc d : Z) (rest : string) :
  (0 <= d < 10)%Z ->
  numeral_value acc (String (Js.digit_char d) rest)
  = numeral_value (10 * acc + d)%Z rest.
Proof. intros Hd. cbn [numeral_value]. by rewrite digit_of_digit_char. Qed.

(** Reading back the digits [decimal_aux] writes in front of [rest]
    shifts the value read so far and adds the number written. *)
Lemma numeral_decimal_aux (fuel : nat) (n : Z) (rest : string) (acc : Z) :
  (0 <= n < 10 ^ Z.of_nat (S fuel))%Z ->
  ∃ k, (0 <= k)%Z ∧
    numeral_value acc (Js.decimal_aux (S fuel) n rest)
    = numeral_value (acc * 10 ^ k + n)%Z rest.
Proof.
  revert n rest. induction fuel as [|fuel IH]; intros n rest Hn.
  - change (0 <= n < 10)%Z in Hn.
    exists 1%Z. split; [lia|].
    change (Js.decimal_aux 1 n rest) with
      (if (n <? 10)%Z then String (Js.digit_char (n mod 10)) rest
       else String (Js.digit_char (n mod 10)) rest).
    rewrite Z.mod_small by lia.
    destruct (n <? 10)%Z; rewrite numeral_value_digit by lia;
      rewrite Z.pow_1_r; f_equal; lia.
  - change (Js.decimal_aux (S (S fuel)) n rest) with
      (if (n <? 10)%Z then String (Js.digit_char (n mod 10)) rest
       else Js.decimal_aux (S fuel) (n / 10) (String (Js.digit_char (n mod 10)) rest)).
    destruct (Z.ltb_spec n 10) as [Hlt|Hge].
    + exists 1%Z. split; [lia|]. rewrite Z.mod_small by lia.
      rewrite numeral_value_digit by lia. rewrite Z.pow_1_r. f_equal. lia.
    + destruct (IH (n / 10)%Z (String (Js.digit_char (n mod 10)) rest))
        as (k & Hk & ->).
      { split; [apply Z.div_pos; lia|].
        apply Z.div_lt_upper_bound; [lia|].
        rewrite <- Z.pow_succ_r by lia. rewrite <- Nat2Z.inj_succ. lia. }
      exists (k + 1)%Z. split; [lia|].
      rewrite numeral_value_digit by (apply Z.mod_pos_bound; lia).
      f_equal. rewrite Z.pow_add_r, Z.pow_1_r by lia.
      pose proof (Z.div_mod n 10 ltac:(lia)). lia.
Qed.

Lemma decimal_fuel (n : Z) :
  (0 <= n)%Z -> (n < 10 ^ Z.of_nat (S (Z.to_nat (Z.log2 n))))%Z.
Proof.
  intros Hn. rewrite Nat2Z.inj_succ, Z2Nat.id by apply Z.log2_nonneg.
  destruct (Z.eq_dec n 0%Z) as [->|Hne]; [done|].
  pose proof (Z.log2_spec n ltac:(lia)) as [_ Hlt].
  assert (2 ^ Z.succ (Z.log2 n) <= 10 ^ Z.succ (Z.log2 n))%Z.
  { apply Z.pow_le_mono_l. lia. }
  lia.
Qed.

(** A decimal numeral reads as the number it was written for. *)
Lemma numeral_decimal (n : Z) : (0 <= n)%Z -> numeral_value 0 (Js.decimal n) = Some n.
Proof.
  intros Hn. unfold Js.decimal.
  destruct (numeral_decimal_aux (Z.to_nat (Z.log2 n)) n EmptyString 0%Z)
    as (k & _ & ->).
  { split; [done|]. by apply decimal_fuel. }
  reflexivity.
Qed.


(** ** The grade point average as a weighted average *)







Lemma units_or_3_nonzero (units : Js.text) (sign : bool) :
  Js.json_number (units_or_3 units) ≠ Some (S754_zero sign).
Proof.
  assert (Js.truthy (units_or_3 units) = true) as Htruthy.
  { unfold units_or_3, Js.or_number.
    by destruct (Js.truthy (Js.parseInt units)) eqn:E. }
  by destruct (units_or_3 units).
Qed.

(** * Further properties of the module *)

(** ** What each operation writes *)

Lemma boot_effect (w : World) :
  storage (exec boot w) =
    if booted (storage w) then storage w
    else mkStore [admin_user (now_at (env w) (reads w))] [] [] [] [] [] [] [] [] true.
Proof.
  destruct w as [[us ss ls cs es rs ms tr fb b] e n]. by destruct b.
Qed.

(** Unfolds the operation [o] applied to [w] and splits on the lookups it
    makes, leaving one goal per path through its code. *)
Ltac split_operation o w :=
  destruct o as
    [ | f | f | f | courseId lecturerId | studentId courseId semester
    | studentId courseId score actor | f | id
    | actorId actorName studentId courseId oldGrade newGrade reason | f ];
  [ unfold perform; rewrite boot_effect;
    destruct (booted (storage w)) eqn:?
  | unfold perform, exec, addStudent, mbind, M_bind, get; simpl;
    destruct (find (fun u => User.username u = sf_username f) (users (storage w)))
      eqn:?; simpl;
    [|destruct (find (fun s => Student.matric s = sf_matric f) (students (storage w)))
        eqn:?; simpl]
  | unfold perform, exec, addLecturer, mbind, M_bind, get; simpl;
    destruct (find (fun u => User.username u = lf_username f) (users (storage w)))
      eqn:?; simpl;
    [|destruct (lf_staffId f) as [staff|]; [destruct (decide (staff = ""))|]; simpl]
  | unfold perform, exec, addCourse, mbind, M_bind, get; simpl;
    destruct (find (fun c => Course.code c = cf_code f) (courses (storage w)))
      eqn:?; simpl
  | unfold perform, exec, assignLecturerToCourse, mbind, M_bind, get; simpl;
    destruct (list_find (fun c => Course.id c = courseId) (courses (storage w)))
      as [[? ?]|] eqn:?; simpl
  | unfold perform, exec, enroll, mbind, M_bind, get; simpl;
    destruct (find (enrolled studentId courseId) (enrollments (storage w)))
      eqn:?; simpl
  | unfold perform, exec, upsertResult, enroll, addAuditEntry, mbind, M_bind, get;
    simpl;
    destruct (list_find (result_of studentId courseId) (results (storage w)))
      as [[? ?]|] eqn:?; simpl;
    [|destruct (find (enrolled studentId courseId) (enrollments (storage w)))
        eqn:?; simpl]
  | unfold perform, exec, uploadMaterial, mbind, M_bind, get; simpl
  | unfold perform, exec, deleteMaterial, mbind, M_bind, get; simpl
  | unfold perform, exec, addAuditEntry, mbind, M_bind, get; simpl
  | unfold perform, exec, submitFeedback, findIndex, mbind, M_bind, get; simpl;
    destruct (list_find (fun x => Feedback.userId x = ff_userId f)
                (feedback (storage w))) as [[? ?]|] eqn:?; simpl ].

(** How the courses can change in one operation. *)
Lemma perform_courses (o : operation) (w : World) :
  courses (storage (perform o w)) = courses (storage w) ∨
  (∃ c, courses (storage (perform o w)) = courses (storage w) ++ [c] ∧
        ¬ code_taken (Course.code c) (storage w) ∧
        ∀ sign, Course.units c ≠ Some (S754_zero sign)) ∨
  (∃ i c l, courses (storage w) !! i = Some c ∧
        courses (storage (perform o w)) =
          <[i := Course.mk (Course.id c) (Course.code c) (Course.title c)
                   (Course.units c) l]> (courses (storage w))) ∨
  (booted (storage w) = false ∧ courses (storage (perform o w)) = []).
Proof.
  split_operation o w; try (by left).
  - by right; right; right.
  - right; left. eexists. split; [reflexivity|]. simpl. split.
    + by apply (find_None_no_witness (fun c => Course.code c = cf_code f)).
    + intros sign. apply units_or_3_nonzero.
  - right; right; left. eexists _, _, _. split; [|reflexivity].
    match goal with H : list_find _ _ = Some _ |- _ =>
      by apply list_find_Some in H as (? & _) end.
Qed.

(** How the users can change in one operation. *)
Lemma perform_users (o : operation) (w : World) :
  users (storage (perform o w)) = users (storage w) ∨
  (∃ u, users (storage (perform o w)) = users (storage w) ++ [u] ∧
        ¬ username_taken (User.username u) (storage w)) ∨
  (booted (storage w) = false ∧ ∃ t, users (storage (perform o w)) = [admin_user t]).
Proof.
  split_operation o w; try (by left).
  - right; right. eauto.
  - right; left. eexists. split; [reflexivity|]. simpl.
    by apply (find_None_no_witness (fun u => User.username u = sf_username f)).
  - right; left. eexists. split; [reflexivity|]. simpl.
    by apply (find_None_no_witness (fun u => User.username u = lf_username f)).
  - right; left. eexists. split; [reflexivity|]. simpl.
    by apply (find_None_no_witness (fun u => User.username u = lf_username f)).
  - right; left. eexists. split; [reflexivity|]. simpl.
    by apply (find_None_no_witness (fun u => User.username u = lf_username f)).
Qed.

(** How the students can change in one operation. *)
Lemma perform_students (o : operation) (w : World) :
  students (storage (perform o w)) = students (storage w) ∨
  (∃ x, students (storage (perform o w)) = students (storage w) ++ [x] ∧
        ¬ matric_taken (Student.matric x) (storage w)) ∨
  (booted (storage w) = false ∧ students (storage (perform o w)) = []).
Proof.
  split_operation o w; try (by left).
  - by right; right.
  - right; left. eexists. split; [reflexivity|]. simpl.
    by apply (find_None_no_witness (fun s => Student.matric s = sf_matric f)).
Qed.

(** How results and enrollments can change, together, in one operation. *)
Lemma perform_results_enrollments (o : operation) (w : World) :
  (results (storage (perform o w)) = results (storage w) ∧ enrollments (storage (perform o w)) = enrollments (storage w)) ∨
  (results (storage (perform o w)) = results (storage w) ∧
   ∃ studentId courseId e,
     find (enrolled studentId courseId) (enrollments (storage w)) = None ∧
     enrolled studentId courseId e ∧
     enrollments (storage (perform o w)) = enrollments (storage w) ++ [e]) ∨
  (enrollments (storage (perform o w)) = enrollments (storage w) ∧
   ∃ studentId courseId i r0 r,
     list_find (result_of studentId courseId) (results (storage w)) = Some (i, r0) ∧
     result_of studentId courseId r ∧
     Result.id r = Result.id r0 ∧
     Result.grade r = scoreToGrade (Result.score r) ∧
     results (storage (perform o w)) = <[i := r]> (results (storage w))) ∨
  (∃ studentId courseId r,
     list_find (result_of studentId courseId) (results (storage w)) = None ∧
     result_of studentId courseId r ∧
     Result.grade r = scoreToGrade (Result.score r) ∧
     results (storage (perform o w)) = results (storage w) ++ [r] ∧
     ((enrollments (storage (perform o w)) = enrollments (storage w) ∧
       ∃ e, find (enrolled studentId courseId) (enrollments (storage w)) = Some e) ∨
      (∃ e, find (enrolled studentId courseId) (enrollments (storage w)) = None ∧
            enrolled studentId courseId e ∧
            enrollments (storage (perform o w)) = enrollments (storage w) ++ [e]))) ∨
  (booted (storage w) = false ∧ results (storage (perform o w)) = [] ∧ enrollments (storage (perform o w)) = []).
Proof.
  split_operation o w; try (by left).
  - by right; right; right; right.
  - right; left. split; [done|]. eexists studentId, courseId, _.
    split; [done|]. split; [|reflexivity]. by split.
  - right; right; left. split; [done|].
    match goal with H : list_find _ _ = Some _ |- _ =>
      pose proof H as Hfind; apply list_find_Some in H as (_ & [? ?] & _) end.
    eexists studentId, courseId, _, _,
      (regrade _ score (scoreToGrade score) (now_at (env w) (reads w))
         (User.name actor)).
    split; [exact Hfind|].
    split; [|split; [|split]]; [|reflexivity|reflexivity|reflexivity].
    by split.
  - right; right; right; left.
    eexists studentId, courseId,
      (Result.mk _ studentId courseId score (scoreToGrade score) _ _ _).
    split; [done|]. split; [|split; [|split]]; [|reflexivity|reflexivity|].
    + by split.
    + left. eauto.
  - right; right; right; left.
    eexists studentId, courseId,
      (Result.mk _ studentId courseId score (scoreToGrade score) _ _ _).
    split; [done|]. split; [|split; [|split]]; [|reflexivity|reflexivity|].
    + by split.
    + right. eexists. split; [done|]. split; [|reflexivity]. by split.
Qed.

(** How the audit trail can change in one operation. *)
Lemma perform_audit_trail (o : operation) (w : World) :
  audit_trail (storage (perform o w)) = audit_trail (storage w) ∨
  (∃ a, audit_trail (storage (perform o w)) = audit_trail (storage w) ++ [a]) ∨
  (booted (storage w) = false ∧ audit_trail (storage (perform o w)) = []).
Proof.
  split_operation o w; try (by left); try (by right; left; eexists).
  by right; right.
Qed.

(** How the feedback can change in one operation. *)
Lemma perform_feedback (o : operation) (w : World) :
  feedback (storage (perform o w)) = feedback (storage w) ∨
  (∃ i x e,
     list_find (fun y => Feedback.userId y = Feedback.userId e)
       (feedback (storage w)) = Some (i, x) ∧
     feedback (storage (perform o w)) = <[i := e]> (feedback (storage w))) ∨
  (∃ e,
     list_find (fun y => Feedback.userId y = Feedback.userId e)
       (feedback (storage w)) = None ∧
     feedback (storage (perform o w)) = feedback (storage w) ++ [e]) ∨
  (booted (storage w) = false ∧ feedback (storage (perform o w)) = []).
Proof.
  split_operation o w; try (by left).
  - by right; right; right.
  - right; left. by eexists _, _, (feedback_entry _ f _).
  - right; right; left. by eexists (feedback_entry _ f _).
Qed.

(** No operation clears the boot marker. *)
Lemma perform_booted (o : operation) (w : World) :
  booted (storage w) = true -> booted (storage (perform o w)) = true.
Proof. intros Hb. split_operation o w; done. Qed.

(** ** Invariants kept by every operation *)

Section Keys.
Context {A : Type} (P : A -> Prop) `{!forall x, Decision (P x)}.

(** Appending an element keeps a key unique when the element does not
    carry the key, or nothing carried it before. *)
Lemma filter_append_unique (l : list A) (e : A) :
  length (filter P l) ≤ 1 -> (P e -> filter P l = []) ->
  length (filter P (l ++ [e])) ≤ 1.
Proof.
  intros Hone Hfresh. rewrite filter_app.
  destruct (decide (P e)) as [He|He].
  - rewrite (Hfresh He), filter_cons_True by done. simpl. lia.
  - rewrite filter_cons_False by done. simpl. by rewrite app_nil_r.
Qed.

(** Overwriting an element by one that carries the same keys does not
    change how many elements carry a key. *)
Lemma filter_overwrite_same_key (l : list A) (i : nat) (x e : A) :
  l !! i = Some x -> (P x <-> P e) ->
  length (filter P (<[i := e]> l)) = length (filter P l).
Proof.
  intros Hi Hkey.
  rewrite <- (take_drop_middle l i x Hi) at 2.
  rewrite insert_take_drop by (by eapply lookup_lt_Some).
  rewrite !filter_app, !length_app. f_equal.
  destruct (decide (P x)) as [Hx|Hx].
  - rewrite !filter_cons_True by tauto. done.
  - rewrite !filter_cons_False by tauto. done.
Qed.
End Keys.

Lemma NoDup_fmap_snoc {A B} (f : A -> B) (l : list A) (x : A) :
  NoDup (f <$> l) -> (¬ ∃ y, y ∈ l ∧ f y = f x) -> NoDup (f <$> (l ++ [x])).
Proof.
  intros Hl Hx. rewrite fmap_app. apply NoDup_app. split; [done|]. split.
  - intros b Hb Hin. apply list_elem_of_singleton in Hin as ->.
    apply list_elem_of_fmap in Hb as (y & Hy & Hin). apply Hx. eauto.
  - apply NoDup_singleton.
Qed.

(** One step: usernames stay unique: no operation ever leaves two users with
    the same username in a store where they were unique. *)
Lemma usernames_unique_step (o : operation) (w : World) :
  usernames_unique (storage w) -> usernames_unique (storage (perform o w)).
Proof.
  unfold usernames_unique. intros Hinv.
  destruct (perform_users o w) as [-> | [(u & -> & Hfree) | (_ & t & ->)]].
  - done.
  - by apply NoDup_fmap_snoc.
  - apply NoDup_singleton.
Qed.

(** One step: matric numbers stay unique under every operation. *)
Lemma matrics_unique_step (o : operation) (w : World) :
  matrics_unique (storage w) -> matrics_unique (storage (perform o w)).
Proof.
  unfold matrics_unique. intros Hinv.
  destruct (perform_students o w) as [-> | [(x & -> & Hfree) | (_ & ->)]].
  - done.
  - by apply NoDup_fmap_snoc.
  - apply NoDup_nil_2.
Qed.

(** One step: course codes stay unique under every operation; assigning a
    lecturer rewrites a course without touching its code. *)
Lemma codes_unique_step (o : operation) (w : World) :
  codes_unique (storage w) -> codes_unique (storage (perform o w)).
Proof.
  unfold codes_unique. intros Hinv.
  destruct (perform_courses o w)
    as [-> | [(c & -> & Hfree & _) | [(i & c & l & Hi & ->) | (_ & ->)]]].
  - done.
  - by apply NoDup_fmap_snoc.
  - rewrite list_fmap_insert. simpl.
    rewrite list_insert_id; [done|]. by rewrite list_lookup_fmap, Hi.
  - apply NoDup_nil_2.
Qed.

(** One step: no operation stores a course with zero units: [addCourse]
    replaces 0 by 3 and [assignLecturerToCourse] keeps the units. *)
Lemma units_nonzero_step (o : operation) (w : World) :
  units_nonzero (storage w) -> units_nonzero (storage (perform o w)).
Proof.
  unfold units_nonzero. intros Hinv c'.
  destruct (perform_courses o w)
    as [-> | [(c & -> & _ & Hunits) | [(i & c & l & Hi & ->) | (_ & ->)]]].
  - apply Hinv.
  - intros [Hin | ->%list_elem_of_singleton]%elem_of_app; [by apply Hinv|done].
  - intros Hin. apply list_elem_of_lookup in Hin as [j Hj].
    destruct (decide (i = j)) as [->|Hne].
    + rewrite list_lookup_insert_eq in Hj by (by eapply lookup_lt_Some).
      injection Hj as <-. simpl. apply Hinv. by eapply list_elem_of_lookup_2.
    + rewrite list_lookup_insert_ne in Hj by done.
      apply Hinv. by eapply list_elem_of_lookup_2.
  - by intros ?%not_elem_of_nil.
Qed.

(** One step: a student is never enrolled twice in a course: every operation
    keeps at most one enrollment per (student, course) pair. *)
Lemma enrollment_key_unique_step (o : operation) (w : World) :
  enrollment_key_unique (storage w) -> enrollment_key_unique (storage (perform o w)).
Proof.
  unfold enrollment_key_unique, enrollment_count. intros Hinv sid cid.
  assert (∀ sid' cid' e,
            find (enrolled sid' cid') (enrollments (storage w)) = None ->
            enrolled sid' cid' e ->
            length (filter (enrolled sid cid) (enrollments (storage w) ++ [e])) ≤ 1)
    as Happend.
  { intros sid' cid' e Hnone [Hs Hc]. apply filter_append_unique; [apply Hinv|].
    intros [Hs' Hc']. apply list_find_None_filter, find_None_list_find.
    assert (sid = sid') as -> by congruence.
    assert (cid = cid') as -> by congruence. done. }
  destruct (perform_results_enrollments o w)
    as [[_ ->] | [[_ (sid' & cid' & e & Hnone & He & ->)]
       | [[-> _] | [(sid' & cid' & r & _ & _ & _ & _ & Henr) | (_ & _ & ->)]]]].
  - apply Hinv.
  - by eapply Happend.
  - apply Hinv.
  - destruct Henr as [[-> _] | (e & Hnone & He & ->)].
    + apply Hinv.
    + by eapply Happend.
  - simpl. lia.
Qed.

(** One step: a student never has two results in a course: every operation
    keeps at most one result per (student, course) pair. *)
Lemma result_key_unique_step (o : operation) (w : World) :
  result_key_unique (storage w) -> result_key_unique (storage (perform o w)).
Proof.
  unfold result_key_unique, result_count. intros Hinv sid cid.
  destruct (perform_results_enrollments o w)
    as [[-> _] | [[-> _]
       | [[_ (sid' & cid' & i & r0 & r & Hfind & [Hs Hc] & _ & _ & ->)]
       | [(sid' & cid' & r & Hnone & [Hs Hc] & _ & -> & _) | (_ & -> & _)]]]].
  - apply Hinv.
  - apply Hinv.
  - apply list_find_Some in Hfind as (Hi & [Hs0 Hc0] & _).
    rewrite (filter_overwrite_same_key _ _ _ r0) ; [apply Hinv|done|].
    unfold result_of. split; intros [? ?]; split; congruence.
  - apply filter_append_unique; [apply Hinv|].
    intros [Hs' Hc']. apply list_find_None_filter.
    assert (sid = sid') as -> by congruence.
    assert (cid = cid') as -> by congruence. done.
  - simpl. lia.
Qed.

(** One step: every graded student is enrolled: if each result has an
    enrollment for its student and course, this stays so after every
    operation; in particular [upsertResult] never leaves a result without
    its enrollment. *)
Lemma graded_are_enrolled_step (o : operation) (w : World) :
  graded_are_enrolled (storage w) -> graded_are_enrolled (storage (perform o w)).
Proof.
  unfold graded_are_enrolled. intros Hinv r'.
  destruct (perform_results_enrollments o w)
    as [[-> ->] | [[-> (sid' & cid' & e & _ & _ & ->)]
       | [[-> (sid' & cid' & i & r0 & r & Hfind & [Hs Hc] & _ & _ & ->)]
       | [(sid' & cid' & r & _ & [Hs Hc] & _ & -> & Henr) | (_ & -> & _)]]]].
  - apply Hinv.
  - intros Hr. destruct (Hinv r' Hr) as (e' & He' & Hpair).
    exists e'. split; [|done]. apply elem_of_app. by left.
  - intros Hr. apply list_find_Some in Hfind as (Hi & [Hs0 Hc0] & _).
    apply list_elem_of_lookup in Hr as [j Hj].
    destruct (decide (i = j)) as [->|Hne].
    + rewrite list_lookup_insert_eq in Hj by (by eapply lookup_lt_Some).
      injection Hj as <-.
      destruct (Hinv r0) as (e & He & Hpair); [by eapply list_elem_of_lookup_2|].
      exists e. split; [done|]. unfold enrolled in *. destruct Hpair. split; congruence.
    + rewrite list_lookup_insert_ne in Hj by done.
      apply Hinv. by eapply list_elem_of_lookup_2.
  - intros [Hr | ->%list_elem_of_singleton]%elem_of_app.
    + destruct (Hinv r' Hr) as (e' & He' & Hpair).
      exists e'. split; [|done].
      destruct Henr as [[-> _] | (e & _ & _ & ->)]; [done|].
      apply elem_of_app. by left.
    + rewrite Hs, Hc.
      destruct Henr as [[-> (e & He)] | (e & _ & He & ->)].
      * apply find_Some_inv in He as [? ?]. eauto.
      * exists e. split; [|done]. apply elem_of_app. right. by left.
  - by intros ?%not_elem_of_nil.
Qed.

(** One step: every stored grade is the grade of the stored score: no
    operation writes a result whose letter disagrees with
    [scoreToGrade] of its score. *)
Lemma grades_derived_step (o : operation) (w : World) :
  grades_derived (storage w) -> grades_derived (storage (perform o w)).
Proof.
  unfold grades_derived. intros Hinv r'.
  destruct (perform_results_enrollments o w)
    as [[-> _] | [[-> _]
       | [[_ (sid' & cid' & i & r0 & r & Hfind & _ & _ & Hgrade & ->)]
       | [(sid' & cid' & r & _ & _ & Hgrade & -> & _) | (_ & -> & _)]]]].
  - apply Hinv.
  - apply Hinv.
  - intros Hr. apply list_elem_of_lookup in Hr as [j Hj].
    apply list_find_Some in Hfind as (Hi & _ & _).
    destruct (decide (i = j)) as [->|Hne].
    + rewrite list_lookup_insert_eq in Hj by (by eapply lookup_lt_Some).
      by injection Hj as <-.
    + rewrite list_lookup_insert_ne in Hj by done.
      apply Hinv. by eapply list_elem_of_lookup_2.
  - intros [Hr | ->%list_elem_of_singleton]%elem_of_app; [by apply Hinv|done].
  - by intros ?%not_elem_of_nil.
Qed.

(** At most one feedback per user, under every operation. *)
Lemma feedback_key_unique_step (o : operation) (w : World) :
  feedback_key_unique (storage w) -> feedback_key_unique (storage (perform o w)).
Proof.
  unfold feedback_key_unique, feedback_of. intros Hinv userId.
  destruct (perform_feedback o w)
    as [-> | [(i & x & e & Hfind & ->) | [(e & Hnone & ->) | (_ & ->)]]].
  - apply Hinv.
  - apply list_find_Some in Hfind as (Hi & Hx & _).
    rewrite (filter_overwrite_same_key _ _ _ x); [apply Hinv|done|].
    split; congruence.
  - apply filter_append_unique; [apply Hinv|].
    intros <-. by apply list_find_None_filter.
  - simpl. lia.
Qed.

(** ** Invariants over whole sessions *)

Lemma perform_all_snoc (ops : list operation) (o : operation) (w : World) :
  perform_all (ops ++ [o]) w = perform o (perform_all ops w).
Proof. unfold perform_all. by rewrite foldl_app. Qed.

(** What every single operation keeps, every sequence keeps. *)
Lemma perform_all_invariant (I : Store -> Prop) :
  (∀ o w, I (storage w) -> I (storage (perform o w))) ->
  ∀ ops w, I (storage w) -> I (storage (perform_all ops w)).
Proof.
  intros Hstep ops. induction ops as [|o ops IH]; intros w Hw; [done|].
  simpl. apply IH, Hstep, Hw.
Qed.

(** X1.  Usernames stay unique: whatever operations are run on a store
    whose usernames are unique, [addStudent] and [addLecturer] included,
    no two users end up with the same username. *)
Theorem usernames_stay_unique (ops : list operation) (w : World) :
  usernames_unique (storage w) -> usernames_unique (storage (perform_all ops w)).
Proof. apply (perform_all_invariant usernames_unique), usernames_unique_step. Qed.

(** X2.  Matric numbers stay unique under every sequence of operations. *)
Theorem matrics_stay_unique (ops : list operation) (w : World) :
  matrics_unique (storage w) -> matrics_unique (storage (perform_all ops w)).
Proof. apply (perform_all_invariant matrics_unique), matrics_unique_step. Qed.

(** X3.  Course codes stay unique under every sequence of operations:
    [addCourse] refuses a code in use and [assignLecturerToCourse]
    rewrites a course without touching its code. *)
Theorem codes_stay_unique (ops : list operation) (w : World) :
  codes_unique (storage w) -> codes_unique (storage (perform_all ops w)).
Proof. apply (perform_all_invariant codes_unique), codes_unique_step. Qed.

(** X4.  No course ever gets zero units: [addCourse] stores 3 for 0 and
    [assignLecturerToCourse] keeps the units, so a store without
    zero-unit courses never gets one. *)
Theorem units_stay_nonzero (ops : list operation) (w : World) :
  units_nonzero (storage w) -> units_nonzero (storage (perform_all ops w)).
Proof. apply (perform_all_invariant units_nonzero), units_nonzero_step. Qed.

(** X5.  A student is never enrolled twice in a course: every sequence
    of operations keeps at most one enrollment per (student, course). *)
Theorem enrollments_stay_unique (ops : list operation) (w : World) :
  enrollment_key_unique (storage w) ->
  enrollment_key_unique (storage (perform_all ops w)).
Proof.
  apply (perform_all_invariant enrollment_key_unique), enrollment_key_unique_step.
Qed.

(** X6.  A student never has two results in a course: every sequence of
    operations keeps at most one result per (student, course). *)
Theorem results_stay_unique (ops : list operation) (w : World) :
  result_key_unique (storage w) -> result_key_unique (storage (perform_all ops w)).
Proof. apply (perform_all_invariant result_key_unique), result_key_unique_step. Qed.

(** X7.  Every graded student is enrolled: if every result has an
    enrollment of its student in its course, this is still so after any
    sequence of operations; [upsertResult] never leaves a result without
    its enrollment. *)
Theorem graded_stay_enrolled (ops : list operation) (w : World) :
  graded_are_enrolled (storage w) -> graded_are_enrolled (storage (perform_all ops w)).
Proof. apply (perform_all_invariant graded_are_enrolled), graded_are_enrolled_step. Qed.

(** X8.  Every stored grade is the grade of the stored score: no sequence
    of operations leaves a result whose letter differs from
    [scoreToGrade] of its score. *)
Theorem grades_stay_derived (ops : list operation) (w : World) :
  grades_derived (storage w) -> grades_derived (storage (perform_all ops w)).
Proof. apply (perform_all_invariant grades_derived), grades_derived_step. Qed.

(** X9.  The audit trail is append-only once the store is booted: after
    any sequence of operations the old trail is still there, in order, at
    the front of the new one, and at most one entry was added per
    operation. *)
Theorem audit_trail_append_only (ops : list operation) (w : World) :
  booted (storage w) = true ->
  ∃ added,
    audit_trail (storage (perform_all ops w)) = audit_trail (storage w) ++ added ∧
    length added ≤ length ops.
Proof.
  revert w. induction ops as [|o ops IH]; intros w Hb.
  - exists []. by rewrite app_nil_r.
  - simpl. destruct (IH (perform o w) (perform_booted o w Hb)) as (added & -> & Hlen).
    destruct (perform_audit_trail o w) as [-> | [[a ->] | [Hnb _]]].
    + exists added. split; [done|]. simpl. lia.
    + exists (a :: added). rewrite <- app_assoc. split; [done|]. simpl. lia.
    + congruence.
Qed.

(** X10.  In every world the module can reach, from a first load on
    empty storage through any operations, the store is booted and all the
    invariants of the data model hold: unique usernames, matric numbers
    and course codes, no zero-unit course, at most one enrollment and one
    result per (student, course), at most one feedback per user, every
    graded student enrolled and every grade derived from its score. *)
Theorem reachable_consistent (w : World) :
  reachable w ->
  booted (storage w) = true ∧
  usernames_unique (storage w) ∧ matrics_unique (storage w) ∧
  codes_unique (storage w) ∧ units_nonzero (storage w) ∧
  enrollment_key_unique (storage w) ∧ result_key_unique (storage w) ∧
  feedback_key_unique (storage w) ∧
  graded_are_enrolled (storage w) ∧ grades_derived (storage w).
Proof.
  induction 1 as [e n|o w _ (Hb & Hu & Hm & Hc & Hz & He & Hr & Hf & Hg & Hd)].
  - rewrite boot_effect.
    unfold usernames_unique, matrics_unique, codes_unique, units_nonzero,
      enrollment_key_unique, enrollment_count, result_key_unique, result_count,
      feedback_key_unique, feedback_of, graded_are_enrolled, grades_derived.
    simpl.
    split; [done|]. split; [apply NoDup_singleton|].
    split; [apply NoDup_nil_2|]. split; [apply NoDup_nil_2|].
    split; [by intros c ?%not_elem_of_nil|].
    split; [intros ??; simpl; lia|]. split; [intros ??; simpl; lia|].
    split; [intros ?; simpl; lia|].
    split; by intros r ?%not_elem_of_nil.
  - split; [by apply perform_booted|].
    split; [by apply usernames_unique_step|].
    split; [by apply matrics_unique_step|].
    split; [by apply codes_unique_step|].
    split; [by apply units_nonzero_step|].
    split; [by apply enrollment_key_unique_step|].
    split; [by apply result_key_unique_step|].
    split; [by apply feedback_key_unique_step|].
    split; [by apply graded_are_enrolled_step|by apply grades_derived_step].
Qed.

(** ** The session [session] as a run of these statements *)

Lemma usernames_stay_unique_witness :
  usernames_unique (storage (perform_all session fresh)).
Proof.
  refine (usernames_stay_unique session fresh _).
  unfold usernames_unique.
  change (User.username <$> users (storage fresh)) with ["admin"].
  apply NoDup_singleton.
Defined.

Lemma matrics_stay_unique_witness :
  matrics_unique (storage (perform_all session fresh)).
Proof.
  refine (matrics_stay_unique session fresh _).
  unfold matrics_unique.
  change (Student.matric <$> students (storage fresh)) with (@nil string).
  apply NoDup_nil_2.
Defined.

Lemma codes_stay_unique_witness :
  codes_unique (storage (perform_all session fresh)).
Proof.
  refine (codes_stay_unique session fresh _).
  unfold codes_unique.
  change (Course.code <$> courses (storage fresh)) with (@nil string).
  apply NoDup_nil_2.
Defined.

Lemma units_stay_nonzero_witness :
  units_nonzero (storage (perform_all session fresh)).
Proof.
  refine (units_stay_nonzero session fresh _).
  intros c Hc. change (courses (storage fresh)) with (@nil Course.t) in Hc.
  by apply not_elem_of_nil in Hc.
Defined.

Lemma enrollments_stay_unique_witness :
  enrollment_key_unique (storage (perform_all session fresh)).
Proof.
  refine (enrollments_stay_unique session fresh _).
  intros studentId courseId. vm_compute. lia.
Defined.

Lemma results_stay_unique_witness :
  result_key_unique (storage (perform_all session fresh)).
Proof.
  refine (results_stay_unique session fresh _).
  intros studentId courseId. vm_compute. lia.
Defined.

Lemma graded_stay_enrolled_witness :
  graded_are_enrolled (storage (perform_all session fresh)).
Proof.
  refine (graded_stay_enrolled session fresh _).
  intros r Hr. change (results (storage fresh)) with (@nil Result.t) in Hr.
  by apply not_elem_of_nil in Hr.
Defined.

Lemma grades_stay_derived_witness :
  grades_derived (storage (perform_all session fresh)).
Proof.
  refine (grades_stay_derived session fresh _).
  intros r Hr. change (results (storage fresh)) with (@nil Result.t) in Hr.
  by apply not_elem_of_nil in Hr.
Defined.

Lemma audit_trail_append_only_witness :
  ∃ added,
    audit_trail (storage (perform_all session graded_once))
      = audit_trail (storage graded_once) ++ added ∧
    length added ≤ length session.
Proof.
  refine (audit_trail_append_only session graded_once _). reflexivity.
Defined.

Lemma reachable_perform_all (ops : list operation) (w : World) :
  reachable w -> reachable (perform_all ops w).
Proof.
  revert w. induction ops as [|o ops IH]; intros w Hw; [done|].
  simpl. by apply IH, reachable_step.
Qed.

Lemma reachable_consistent_witness :
  booted (storage (perform_all session fresh)) = true ∧
  usernames_unique (storage (perform_all session fresh)) ∧
  matrics_unique (storage (perform_all session fresh)) ∧
  codes_unique (storage (perform_all session fresh)) ∧
  units_nonzero (storage (perform_all session fresh)) ∧
  enrollment_key_unique (storage (perform_all session fresh)) ∧
  result_key_unique (storage (perform_all session fresh)) ∧
  feedback_key_unique (storage (perform_all session fresh)) ∧
  graded_are_enrolled (storage (perform_all session fresh)) ∧
  grades_derived (storage (perform_all session fresh)).
Proof.
  refine (reachable_consistent (perform_all session fresh) _).
  apply reachable_perform_all.
  exact (reachable_first_load sample_env 0).
Defined.

(** ** Lecturers and courses *)

(** X11.  [addLecturer] on a username already in use throws and leaves the
    world as it found it.  Otherwise it returns the id of a new lecturer,
    appended to [lecturers] and linked to a new user of role [lecturer]
    appended to [users]; the staff id is the one given, or [STAFF-]
    followed by [Date.now()] when none (or an empty one) is given. *)
Theorem addLecturer_duplicate_or_insert (f : LecturerFields) (w : World) :
  (username_taken (lf_username f) (storage w) ->
   addLecturer f w = (Thrown "Username already exists.", w)) ∧
  (¬ username_taken (lf_username f) (storage w) ->
   ∃ lecturerId u l w',
     addLecturer f w = (Returned lecturerId, w') ∧ Lecturer.id l = lecturerId ∧
     users (storage w') = users (storage w) ++ [u] ∧
     lecturers (storage w') = lecturers (storage w) ++ [l] ∧
     User.role u = "lecturer" ∧ User.username u = lf_username f ∧
     User.password u = lf_password f ∧
     Lecturer.userId l = User.id u ∧
     Lecturer.staffId l =
       match lf_staffId f with
       | Some s => if decide (s = "")
                   then "STAFF-" +:+ date_now_at (env w) (3 + reads w) else s
       | None => "STAFF-" +:+ date_now_at (env w) (3 + reads w)
       end ∧
     students (storage w') = students (storage w) ∧
     courses (storage w') = courses (storage w) ∧
     enrollments (storage w') = enrollments (storage w) ∧
     results (storage w') = results (storage w) ∧
     audit_trail (storage w') = audit_trail (storage w)).
Proof.
  split.
  - intros Htaken.
    destruct (find_witness (fun u => User.username u = lf_username f) _ Htaken)
      as [u Hu].
    unfold addLecturer, mbind, M_bind, get; simpl. by rewrite Hu.
  - intros Hfree.
    apply (find_None_no_witness (fun u => User.username u = lf_username f)) in Hfree.
    unfold addLecturer, mbind, M_bind, get; simpl. rewrite Hfree; simpl.
    destruct (lf_staffId f) as [staff|]; [destruct (decide (staff = ""))|]; simpl;
      eexists _, _, (Lecturer.mk _ _ _ _), _;
      (split; [reflexivity|]); simpl; by repeat split.
Qed.

Lemma addLecturer_duplicate_or_insert_witness :
  addLecturer prof (exec (addLecturer prof) fresh)
    = (Thrown "Username already exists.", exec (addLecturer prof) fresh) ∧
  ∃ lecturerId u l w',
     addLecturer prof fresh = (Returned lecturerId, w') ∧ Lecturer.id l = lecturerId ∧
     users (storage w') = users (storage fresh) ++ [u] ∧
     lecturers (storage w') = lecturers (storage fresh) ++ [l] ∧
     User.role u = "lecturer" ∧ User.username u = lf_username prof ∧
     User.password u = lf_password prof ∧
     Lecturer.userId l = User.id u ∧
     Lecturer.staffId l =
       match lf_staffId prof with
       | Some s => if decide (s = "")
                   then "STAFF-" +:+ date_now_at (env fresh) (3 + reads fresh) else s
       | None => "STAFF-" +:+ date_now_at (env fresh) (3 + reads fresh)
       end ∧
     students (storage w') = students (storage fresh) ∧
     courses (storage w') = courses (storage fresh) ∧
     enrollments (storage w') = enrollments (storage fresh) ∧
     results (storage w') = results (storage fresh) ∧
     audit_trail (storage w') = audit_trail (storage fresh).
Proof.
  refine (conj (proj1 (addLecturer_duplicate_or_insert prof
                         (exec (addLecturer prof) fresh)) _)
               (proj2 (addLecturer_duplicate_or_insert prof fresh) _)).
  - eexists. split.
    + vm_compute. apply list_elem_of_further, list_elem_of_here.
    + reflexivity.
  - apply (find_None_no_witness (fun u => User.username u = lf_username prof)).
    reflexivity.
Defined.

(** X12.  [addCourse] with a code already in use throws and writes
    nothing: the world it leaves is the world it found. *)
Theorem addCourse_duplicate_code (f : CourseFields) (w : World) :
  code_taken (cf_code f) (storage w) ->
  addCourse f w = (Thrown "Course code already exists.", w) ∧
  DuplicateKey "Course code already exists.".
Proof.
  intros Htaken.
  destruct (find_witness (fun c => Course.code c = cf_code f) _ Htaken) as [c Hc].
  unfold addCourse, mbind, M_bind, get; simpl. rewrite Hc.
  split; [done|]. by right; right.
Qed.

Lemma addCourse_duplicate_code_witness :
  addCourse cit101 (exec (addCourse cit101) fresh)
    = (Thrown "Course code already exists.", exec (addCourse cit101) fresh) ∧
  DuplicateKey "Course code already exists.".
Proof.
  refine (addCourse_duplicate_code cit101 (exec (addCourse cit101) fresh) _).
  eexists. split.
  - vm_compute. apply list_elem_of_here.
  - reflexivity.
Defined.

(** X13.  [assignLecturerToCourse] does nothing when no course has the
    id.  When one has, the course then found under that id is the same
    course with the new lecturer: same id, code, title and units; the
    number of courses is unchanged and the course is among the
    lecturer's courses. *)
Theorem assignLecturerToCourse_lookup (courseId lecturerId : string) (w : World) :
  (getCourseById courseId (storage w) = None ->
   assignLecturerToCourse courseId lecturerId w = (Returned tt, w)) ∧
  (∀ c, getCourseById courseId (storage w) = Some c ->
   ∃ w' c',
     assignLecturerToCourse courseId lecturerId w = (Returned tt, w') ∧
     getCourseById courseId (storage w') = Some c' ∧
     Course.lecturerId c' = lecturerId ∧
     Course.id c' = Course.id c ∧ Course.code c' = Course.code c ∧
     Course.title c' = Course.title c ∧ Course.units c' = Course.units c ∧
     length (courses (storage w')) = length (courses (storage w)) ∧
     c' ∈ getCoursesForLecturer lecturerId (storage w')).
Proof.
  unfold getCourseById, find. split.
  - intros Hnone. apply fmap_None in Hnone.
    unfold assignLecturerToCourse, mbind, M_bind, get; simpl. by rewrite Hnone.
  - intros c Hsome.
    destruct (list_find (fun c => Course.id c = courseId) (courses (storage w)))
      as [[i x]|] eqn:Efind; [|done].
    injection Hsome as ->.
    unfold assignLecturerToCourse, mbind, M_bind, get; simpl. rewrite Efind; simpl.
    eexists _, _. split; [reflexivity|]. simpl.
    apply list_find_Some in Efind as (Hi & Hid & Hbefore).
    set (c' := Course.mk (Course.id c) (Course.code c) (Course.title c)
                 (Course.units c) lecturerId).
    assert (list_find (fun c => Course.id c = courseId)
              (<[i := c']> (courses (storage w))) = Some (i, c')) as Hfind'.
    { apply list_find_Some. split; [|split].
      - apply list_lookup_insert_eq. by eapply lookup_lt_Some.
      - done.
      - intros j y Hj Hlt. rewrite list_lookup_insert_ne in Hj by lia.
        by apply (Hbefore j y). }
    rewrite Hfind'. simpl. split; [reflexivity|].
    repeat (split; [reflexivity|]). split; [by rewrite length_insert|].
    unfold getCoursesForLecturer. simpl. apply list_elem_of_filter. split; [done|].
    eapply list_elem_of_lookup_2, list_lookup_insert_eq. by eapply lookup_lt_Some.
Qed.

Lemma assignLecturerToCourse_lookup_witness :
  assignLecturerToCourse "nowhere" "l1" (exec (addCourse cit101) fresh)
    = (Returned tt, exec (addCourse cit101) fresh) ∧
  ∃ w' c',
     assignLecturerToCourse "id_1735725600000_1" "l1" (exec (addCourse cit101) fresh)
       = (Returned tt, w') ∧
     getCourseById "id_1735725600000_1" (storage w') = Some c' ∧
     Course.lecturerId c' = "l1" ∧
     Course.id c' = "id_1735725600000_1" ∧ Course.code c' = "CIT101" ∧
     Course.title c' = "Computing" ∧ Course.units c' = Some (Js.of_Z 3) ∧
     length (courses (storage w')) = length (courses (storage (exec (addCourse cit101) fresh))) ∧
     c' ∈ getCoursesForLecturer "l1" (storage w').
Proof.
  refine (conj (proj1 (assignLecturerToCourse_lookup "nowhere" "l1"
                         (exec (addCourse cit101) fresh)) _)
               (proj2 (assignLecturerToCourse_lookup "id_1735725600000_1" "l1"
                         (exec (addCourse cit101) fresh))
                  (Course.mk "id_1735725600000_1" "CIT101" "Computing" (Some (Js.of_Z 3)) "")
                  _)).
  - reflexivity.
  - reflexivity.
Defined.

(** ** Logging in *)

(** X14.  A student who has just been registered can log in: after a
    successful [addStudent], [login] with the username and password given
    and the role [student] returns the new user; with that username and
    any other password, or any other role, it returns nothing. *)
Theorem login_after_addStudent (f : StudentFields) (w : World) :
  ¬ username_taken (sf_username f) (storage w) ->
  ¬ matric_taken (sf_matric f) (storage w) ->
  ∃ studentId w' u,
    addStudent f w = (Returned studentId, w') ∧
    login (sf_username f) (sf_password f) "student" (storage w') = Some u ∧
    User.username u = sf_username f ∧ User.name u = sf_name f ∧
    User.id u = uid_at (env w) (reads w) ∧
    (∀ password role,
       password ≠ sf_password f ∨ role ≠ "student" ->
       login (sf_username f) password role (storage w') = None).
Proof.
  intros Hu Hs.
  pose proof Hu as Hfree.
  apply (find_None_no_witness (fun u => User.username u = sf_username f)) in Hu.
  apply (find_None_no_witness (fun s => Student.matric s = sf_matric f)) in Hs.
  unfold addStudent, mbind, M_bind, get; simpl. rewrite Hu, Hs. simpl.
  eexists _, _,
    (User.mk (uid_at (env w) (reads w)) (sf_username f) (sf_password f) "student"
       (sf_name f) (Js.or_else (sf_email f) (sf_username f +:+ "@noun.edu.ng"))
       (Js.or_else (sf_phone f) "") (now_at (env w) (S (reads w)))).
  split; [reflexivity|]. unfold login; simpl.
  set (u := User.mk _ (sf_username f) (sf_password f) "student" _ _ _ _).
  assert (∀ password role,
            Forall (fun x => ¬ (User.username x = sf_username f ∧
                                User.password x = password ∧ User.role x = role))
                   (users (storage w))) as Hold.
  { intros password role. apply Forall_forall. intros x Hx (Hname & _).
    apply Hfree. by exists x. }
  split; [|split; [done|split; [done|split; [done|]]]].
  - unfold find.
    assert (list_find (fun x => User.username x = sf_username f ∧
                                User.password x = sf_password f ∧
                                User.role x = "student")
              (users (storage w) ++ [u]) = Some (length (users (storage w)), u))
      as ->; [|done].
    apply list_find_Some. split; [|split].
    + by rewrite lookup_app_r, Nat.sub_diag by lia.
    + done.
    + intros j y Hj Hlt. rewrite lookup_app_l in Hj by done.
      specialize (Hold (sf_password f) "student"). rewrite Forall_forall in Hold.
      apply Hold. by eapply list_elem_of_lookup_2.
  - intros password role Hwrong. apply find_None_iff.
    apply Forall_app. split; [apply Hold|].
    apply Forall_singleton. simpl. intros (_ & Hp & Hr).
    destruct Hwrong; congruence.
Qed.

Lemma login_after_addStudent_witness :
  ∃ studentId w' u,
    addStudent ada fresh = (Returned studentId, w') ∧
    login (sf_username ada) (sf_password ada) "student" (storage w') = Some u ∧
    User.username u = sf_username ada ∧ User.name u = sf_name ada ∧
    User.id u = uid_at (env fresh) (reads fresh) ∧
    (∀ password role,
       password ≠ sf_password ada ∨ role ≠ "student" ->
       login (sf_username ada) password role (storage w') = None).
Proof.
  refine (login_after_addStudent ada fresh _ _).
  - apply (find_None_no_witness (fun u => User.username u = sf_username ada)).
    reflexivity.
  - apply (find_None_no_witness (fun x => Student.matric x = sf_matric ada)).
    reflexivity.
Defined.

(** ** Units written as a decimal numeral *)

Lemma digit_code_unit (c : ascii) :
  is_digit c ->
  (N_of_ascii c = 48 ∨ N_of_ascii c = 49 ∨ N_of_ascii c = 50 ∨ N_of_ascii c = 51 ∨
   N_of_ascii c = 52 ∨ N_of_ascii c = 53 ∨ N_of_ascii c = 54 ∨ N_of_ascii c = 55 ∨
   N_of_ascii c = 56 ∨ N_of_ascii c = 57)%N.
Proof. unfold is_digit, nat_of_ascii. intros [Hlo Hhi]. lia. Qed.

Lemma digit_of_is_digit (c : ascii) (d : Z) : digit_of c = Some d -> is_digit c.
Proof.
  unfold digit_of, is_digit.
  destruct (Z.leb_spec 48 (Z.of_nat (nat_of_ascii c))); simpl; [|done].
  destruct (Z.leb_spec (Z.of_nat (nat_of_ascii c)) 57); simpl; [|done]. lia.
Qed.

Lemma digit_value_code_unit (c : ascii) (d : Z) :
  digit_of c = Some d -> Js.digit_value 10 (N_of_ascii c) = Some d.
Proof.
  intros Hd. pose proof (digit_code_unit c (digit_of_is_digit c d Hd)) as Hx.
  unfold digit_of, nat_of_ascii in Hd. rewrite N_nat_Z in Hd.
  repeat (destruct Hx as [Hx|Hx]; [rewrite Hx in *; by injection Hd as <-|]).
  rewrite Hx in *. by injection Hd as <-.
Qed.

(** [parseInt] reads the digits of a numeral as [numeral_value] does. *)
Lemma read_digits_numeral (s : string) (acc v : Z) :
  numeral_value acc s = Some v ->
  Js.read_digits 10 (Some acc) (Js.code_units s) = Some v.
Proof.
  revert acc. induction s as [|c r IH]; intros acc Hv.
  - by injection Hv as <-.
  - cbn [numeral_value] in Hv.
    destruct (digit_of c) as [d|] eqn:Hd; [|done].
    change (Js.code_units (String c r)) with (N_of_ascii c :: Js.code_units r).
    cbn [Js.read_digits]. rewrite (digit_value_code_unit c d Hd).
    cbn [default]. unfold id.
    replace (acc * 10 + d)%Z with (10 * acc + d)%Z by lia. by apply IH.
Qed.

(** [parseInt] reads a decimal numeral back as the number it denotes. *)
Lemma read_integer_decimal (n : Z) :
  (0 <= n)%Z -> Js.read_integer (Js.code_units (Js.decimal n)) = Some (false, n).
Proof.
  intros Hn. pose proof (numeral_decimal n Hn) as Hval.
  destruct (decimal_aux_digits (Z.to_nat (Z.log2 n)) n EmptyString Hn)
    as (ds & Hds & Hne & Hall).
  rewrite string_app_empty_r in Hds.
  change (Js.decimal_aux (S (Z.to_nat (Z.log2 n))) n "") with (Js.decimal n) in Hds.
  rewrite Hds in *. destruct ds as [|c r]; [done|]. destruct Hall as [Hc Hr].
  change (Js.code_units (String c r)) with (N_of_ascii c :: Js.code_units r).
  pose proof (digit_code_unit c Hc) as Hx.
  assert (Js.trim_start (N_of_ascii c :: Js.code_units r)
          = N_of_ascii c :: Js.code_units r) as Htrim.
  { cbn [Js.trim_start].
    repeat (destruct Hx as [Hx|Hx]; [by rewrite Hx|]). by rewrite Hx. }
  assert (Js.strip_sign (N_of_ascii c :: Js.code_units r)
          = (false, N_of_ascii c :: Js.code_units r)) as Hsign.
  { unfold Js.strip_sign.
    repeat (destruct Hx as [Hx|Hx]; [by rewrite Hx|]). by rewrite Hx. }
  assert (Js.strip_hex_prefix (N_of_ascii c :: Js.code_units r)
          = (10%Z, N_of_ascii c :: Js.code_units r)) as Hhex.
  { destruct r as [|c2 r2]; [reflexivity|]. destruct Hr as [Hc2 _].
    change (Js.code_units (String c2 r2)) with (N_of_ascii c2 :: Js.code_units r2).
    pose proof (digit_code_unit c2 Hc2) as Hx2.
    unfold Js.strip_hex_prefix.
    assert (((N_of_ascii c2 =? 120) || (N_of_ascii c2 =? 88))%N = false) as ->.
    { repeat (destruct Hx2 as [Hx2|Hx2]; [by rewrite Hx2|]). by rewrite Hx2. }
    by rewrite andb_false_r. }
  unfold Js.read_integer. rewrite Htrim, Hsign, Hhex.
  cbn [numeral_value] in Hval.
  destruct (digit_of c) as [d|] eqn:Hd; [|done].
  cbn [Js.read_digits]. rewrite (digit_value_code_unit c d Hd).
  cbn [default]. unfold id.
  replace (0 * 10 + d)%Z with (10 * 0 + d)%Z by lia.
  by rewrite (read_digits_numeral r _ n Hval).
Qed.

(** X15.  Units given as the decimal numeral of a positive integer are
    stored as the Number for that integer: for a code not in use,
    [addCourse] appends a course whose units are that integer itself when
    it is below [2^53] (the nearest double beyond, [null] past the
    largest double), and [getCourseByCode] then finds the course under
    its code. *)
Theorem addCourse_decimal_units (f : CourseFields) (w : World) (n : Z) :
  (0 < n)%Z -> cf_units f = Js.code_units (Js.decimal n) ->
  ¬ code_taken (cf_code f) (storage w) ->
  ∃ id c w',
    addCourse f w = (Returned id, w') ∧
    courses (storage w') = courses (storage w) ++ [c] ∧
    Course.id c = id ∧
    Course.units c = Js.json_number (Js.of_Z n) ∧
    ((n < 2 ^ 53)%Z -> ∃ x, Course.units c = Some x ∧ is_integer x n) ∧
    getCourseByCode (cf_code f) (storage w') = Some c.
Proof.
  intros Hn Hunits Hfree.
  destruct (addCourse_new f w Hfree) as (id & c & w' & Hrun & Hcs & Hid & Hcode & Hu).
  exists id, c, w'. split; [done|]. split; [done|]. split; [done|].
  assert (Course.units c = Js.json_number (Js.of_Z n)) as Hstored.
  { rewrite Hu. pose proof (units_or_3_read (cf_units f)) as Hread.
    rewrite Hunits, read_integer_decimal in Hread by lia.
    rewrite decide_False in Hread by lia. by rewrite Hunits, Hread. }
  split; [done|]. split.
  - intros Hlt. rewrite Hstored. apply json_number_of_Z; lia.
  - unfold getCourseByCode, find. rewrite Hcs.
    assert (list_find (fun x => Course.code x = cf_code f)
              (courses (storage w) ++ [c])
            = Some (length (courses (storage w)), c)) as ->; [|done].
    apply list_find_Some. split; [|split].
    + by rewrite lookup_app_r, Nat.sub_diag by lia.
    + done.
    + intros j y Hj Hlt Hy. rewrite lookup_app_l in Hj by done.
      apply Hfree. exists y. split; [by eapply list_elem_of_lookup_2|done].
Qed.

Lemma addCourse_decimal_units_witness :
  (∃ id c w',
     addCourse (mkCourseFields "PHY204" "Optics" (Js.code_units (Js.decimal 12)) None)
       fresh = (Returned id, w') ∧
     courses (storage w') = courses (storage fresh) ++ [c] ∧
     Course.id c = id ∧
     Course.units c = Some (S754_finite false 6755399441055744 (-49)) ∧
     (∃ x, Course.units c = Some x ∧ is_integer x 12) ∧
     getCourseByCode "PHY204" (storage w') = Some c) ∧
  (∃ id c w',
     addCourse (mkCourseFields "PHY205" "Waves"
                  (Js.code_units (Js.decimal 9007199254740993)) None)
       fresh = (Returned id, w') ∧
     Course.units c = Some (S754_finite false 4503599627370496 1)).
Proof.
  assert (∀ code, code_taken code (storage fresh) -> False) as Hfree.
  { intros code (c & Hc & _). vm_compute in Hc. by apply not_elem_of_nil in Hc. }
  split.
  - destruct (addCourse_decimal_units
                (mkCourseFields "PHY204" "Optics" (Js.code_units (Js.decimal 12)) None)
                fresh 12 ltac:(lia) eq_refl (Hfree _))
      as (id & c & w' & Hrun & Hcs & Hid & Hu & Hx & Hfind).
    exists id, c, w'. split; [exact Hrun|]. split; [exact Hcs|].
    split; [exact Hid|]. split; [exact Hu|].
    split; [|exact Hfind]. apply Hx. by vm_compute.
  - destruct (addCourse_decimal_units
                (mkCourseFields "PHY205" "Waves"
                   (Js.code_units (Js.decimal 9007199254740993)) None)
                fresh 9007199254740993 ltac:(lia) eq_refl (Hfree _))
      as (id & c & w' & Hrun & _ & _ & Hu & _).
    exists id, c, w'. split; [exact Hrun|]. exact Hu.
Defined.

(** ** Reading back what was written *)

Section FindStable.
Context {A : Type} (P : A -> Prop) `{!forall x, Decision (P x)}.

Lemma list_find_overwrite_other (l : list A) (i : nat) (x e : A) :
  l !! i = Some x -> ¬ P x -> ¬ P e ->
  list_find P (<[i := e]> l) = list_find P l.
Proof.
  revert i. induction l as [|a l IH]; intros i Hi Hx He; [done|].
  destruct i as [|i]; simpl in *.
  - injection Hi as ->. by rewrite !decide_False.
  - destruct (decide (P a)); [done|]. by rewrite (IH i).
Qed.

Lemma list_find_append_other (l : list A) (e : A) :
  ¬ P e -> list_find P (l ++ [e]) = list_find P l.
Proof.
  intros He. induction l as [|a l IH]; simpl.
  - by rewrite decide_False.
  - destruct (decide (P a)); [done|]. by rewrite IH.
Qed.

Lemma list_find_overwrite_found (l : list A) (i : nat) (x e : A) :
  list_find P l = Some (i, x) -> P e -> list_find P (<[i := e]> l) = Some (i, e).
Proof.
  intros Hfind He. apply list_find_Some in Hfind as (Hi & _ & Hbefore).
  apply list_find_Some. split; [|split; [done|]].
  - apply list_lookup_insert_eq. by eapply lookup_lt_Some.
  - intros j y Hj Hlt. rewrite list_lookup_insert_ne in Hj by lia.
    by apply (Hbefore j y).
Qed.

Lemma list_find_append_fresh (l : list A) (e : A) :
  list_find P l = None -> P e -> list_find P (l ++ [e]) = Some (length l, e).
Proof.
  intros Hnone He. apply list_find_Some. split; [|split; [done|]].
  - by rewrite lookup_app_r, Nat.sub_diag by lia.
  - intros j y Hj Hlt. rewrite lookup_app_l in Hj by done.
    apply list_find_None in Hnone. rewrite Forall_forall in Hnone.
    apply Hnone. by eapply list_elem_of_lookup_2.
Qed.
End FindStable.

(** X16.  What [upsertResult] writes is what the lookups return: after
    any call, [getResultForStudentCourse] for the pair returns a result
    with the score given, the grade derived from it, the actor's name and
    the time of the call, and that result is among the student's results. *)
Theorem upsertResult_then_lookup (studentId courseId : string) (score : Q)
    (actor : User.t) (w : World) :
  ∃ w' r,
    upsertResult studentId courseId score actor w = (Returned tt, w') ∧
    getResultForStudentCourse studentId courseId (storage w') = Some r ∧
    Result.studentId r = studentId ∧ Result.courseId r = courseId ∧
    Result.score r = score ∧ Result.grade r = scoreToGrade score ∧
    Result.updatedBy r = User.name actor ∧
    Result.updatedAt r = now_at (env w) (reads w) ∧
    r ∈ getResultsForStudent studentId (storage w').
Proof.
  assert (∀ (s : Store) (r : Result.t),
            getResultForStudentCourse studentId courseId s = Some r ->
            r ∈ getResultsForStudent studentId s) as Hin.
  { intros s r Hr. apply find_Some_inv in Hr as [Hr [Hs _]].
    by apply list_elem_of_filter. }
  unfold upsertResult, enroll, addAuditEntry, mbind, M_bind, get; simpl.
  destruct (list_find (result_of studentId courseId) (results (storage w)))
    as [[i r0]|] eqn:Efind; simpl.
  - pose proof Efind as Hfind. apply list_find_Some in Hfind as (_ & [Hs Hc] & _).
    set (r := regrade r0 score (scoreToGrade score) (now_at (env w) (reads w))
                (User.name actor)).
    assert (result_of studentId courseId r) as Hr by (by split).
    eexists _, r. split; [reflexivity|].
    assert (∀ s, results s = <[i := r]> (results (storage w)) ->
                 getResultForStudentCourse studentId courseId s = Some r) as Hget.
    { intros s Hres. unfold getResultForStudentCourse, find.
      by rewrite Hres, (list_find_overwrite_found _ _ _ r0). }
    split; [by apply Hget|]. do 6 (split; [done|]). by apply Hin, Hget.
  - set (r := Result.mk (uid_at (env w) (S (reads w))) studentId courseId score
                (scoreToGrade score) "2024/2025" (now_at (env w) (reads w))
                (User.name actor)).
    assert (result_of studentId courseId r) as Hr by (by split).
    assert (∀ s, results s = results (storage w) ++ [r] ->
                 getResultForStudentCourse studentId courseId s = Some r) as Hget.
    { intros s Hs. unfold getResultForStudentCourse, find.
      by rewrite Hs, list_find_append_fresh. }
    destruct (find (enrolled studentId courseId) (enrollments (storage w))); simpl;
      eexists _, r; (split; [reflexivity|]);
      (split; [by apply Hget|]); do 6 (split; [done|]); by apply Hin, Hget.
Qed.

(** X17.  [submitFeedback] then [getUserFeedback]: whatever the store
    held, the feedback found for the user is the entry just submitted,
    and the feedback found for any other user is the one found before. *)
Theorem getUserFeedback_after_submit (f : FeedbackFields) (w : World) :
  ∃ w',
    submitFeedback f w = (Returned tt, w') ∧
    getUserFeedback (ff_userId f) (storage w')
      = Some (feedback_entry (uid_at (env w) (reads w)) f
                (now_at (env w) (S (reads w)))) ∧
    (∀ userId, userId ≠ ff_userId f ->
       getUserFeedback userId (storage w') = getUserFeedback userId (storage w)).
Proof.
  unfold submitFeedback, findIndex, mbind, M_bind, get; simpl.
  set (entry := feedback_entry _ f _).
  destruct (list_find (fun x => Feedback.userId x = ff_userId f)
              (feedback (storage w))) as [[i x]|] eqn:Efind; simpl.
  - eexists. split; [reflexivity|]. unfold getUserFeedback, find; simpl. split.
    + by rewrite (list_find_overwrite_found _ _ _ x).
    + intros userId Hne.
      apply list_find_Some in Efind as (Hi & Hx & _).
      rewrite (list_find_overwrite_other _ _ _ x); [done|done| |]; simpl; congruence.
  - eexists. split; [reflexivity|]. unfold getUserFeedback, find; simpl. split.
    + by rewrite list_find_append_fresh.
    + intros userId Hne. rewrite list_find_append_other; [done|]. simpl. congruence.
Qed.

(** ** Profiles, row by row *)

Lemma student_object_lookup (s : Student.t) :
  student_object s !! "userId" = Some (Student.userId s) ∧
  student_object s !! "matric" = Some (Student.matric s) ∧
  student_object s !! "username" = None ∧
  student_object s !! "name" = None.
Proof. unfold student_object. simpl. by simplify_map_eq. Qed.

Lemma user_object_lookup (u : User.t) :
  user_object u !! "username" = Some (User.username u) ∧
  user_object u !! "name" = Some (User.name u) ∧
  user_object u !! "matric" = None ∧
  user_object u !! "userId" = None.
Proof. unfold user_object. simpl. by simplify_map_eq. Qed.

Lemma spread_lookup_target (target source : gmap string string) (k : string) :
  source !! k = None -> spread target source !! k = target !! k.
Proof. intros Hk. unfold spread. by rewrite lookup_union_r. Qed.

(** X18.  [allStudentsWithProfiles] gives one row per student, in order,
    and in each row [id] and [studentId] are the student's own id, the
    student's fields are kept, and the name and username are those of the
    linked user when it exists. *)
Theorem allStudentsWithProfiles_rows (st : Store) :
  length (allStudentsWithProfiles st) = length (students st) ∧
  ∀ i s, students st !! i = Some s ->
    ∃ p, allStudentsWithProfiles st !! i = Some p ∧
         p !! "id" = Some (Student.id s) ∧
         p !! "studentId" = Some (Student.id s) ∧
         p !! "userId" = Some (Student.userId s) ∧
         p !! "matric" = Some (Student.matric s) ∧
         (∀ u, getUserById (Student.userId s) st = Some u ->
               p !! "username" = Some (User.username u) ∧
               p !! "name" = Some (User.name u)) ∧
         (getUserById (Student.userId s) st = None -> p !! "username" = None).
Proof.
  unfold allStudentsWithProfiles. split; [apply length_fmap|].
  intros i s Hi. rewrite list_lookup_fmap, Hi. simpl. eexists. split; [reflexivity|].
  destruct (student_object_lookup s) as (Huid & Hmat & Hnouser & Hnoname).
  split; [|split; [|split; [|split; [|split]]]].
  - rewrite lookup_insert_ne by done. apply spread_lookup_source, student_object_id.
  - by rewrite lookup_insert_eq.
  - rewrite lookup_insert_ne by done. by apply spread_lookup_source.
  - rewrite lookup_insert_ne by done. by apply spread_lookup_source.
  - intros u ->. simpl. destruct (user_object_lookup u) as (Hname & Hn & _ & _).
    rewrite !lookup_insert_ne by done.
    rewrite (spread_lookup_target _ (student_object s) "username") by done.
    rewrite (spread_lookup_target _ (student_object s) "name") by done.
    split; by apply spread_lookup_source.
  - intros ->. simpl. rewrite lookup_insert_ne by done.
    rewrite spread_lookup_target by done.
    unfold spread. by rewrite lookup_union_r.
Qed.

Lemma allStudentsWithProfiles_rows_witness :
  ∃ p, allStudentsWithProfiles (storage registered) !! 0 = Some p ∧
       p !! "id" = Some "id_1735725600000_3" ∧
       p !! "studentId" = Some "id_1735725600000_3" ∧
       p !! "userId" = Some "id_1735725600000_1" ∧
       p !! "matric" = Some "NOU001" ∧
       (∀ u, getUserById "id_1735725600000_1" (storage registered) = Some u ->
             p !! "username" = Some (User.username u) ∧
             p !! "name" = Some (User.name u)) ∧
       (getUserById "id_1735725600000_1" (storage registered) = None ->
        p !! "username" = None).
Proof.
  refine (proj2 (allStudentsWithProfiles_rows (storage registered)) 0
            (Student.mk "id_1735725600000_3" "id_1735725600000_1" "NOU001" "CS"
               "300" "Main Campus") _).
  reflexivity.
Defined.

(** X19.  [studentFullProfile] returns [null] exactly when no student has
    the id.  When the student's user record is missing, the profile is
    the student record itself plus [studentId]: its [id] is then the
    student's id. *)
Theorem studentFullProfile_edges (studentId : string) (st : Store) :
  (studentFullProfile studentId st = None <->
   ¬ ∃ s, s ∈ students st ∧ Student.id s = studentId) ∧
  (∀ s, getStudentById studentId st = Some s ->
        getUserById (Student.userId s) st = None ->
        ∃ p, studentFullProfile studentId st = Some p ∧
             p !! "id" = Some (Student.id s) ∧ Student.id s = studentId ∧
             p !! "studentId" = Some studentId ∧
             p !! "matric" = Some (Student.matric s) ∧
             p !! "username" = None).
Proof.
  unfold studentFullProfile, getStudentById. split.
  - rewrite <- (find_None_no_witness (fun s => Student.id s = studentId)).
    by destruct (find (fun s => Student.id s = studentId) (students st)).
  - intros s Hs Hu. rewrite Hs, Hu. simpl. eexists. split; [reflexivity|].
    apply find_Some_inv in Hs as [_ Hid].
    destruct (student_object_lookup s) as (Huid & Hmat & Hnouser & Hnoname).
    split; [|split; [done|split; [|split]]].
    + rewrite lookup_insert_ne by done.
      rewrite spread_lookup_target by done. apply spread_lookup_source, student_object_id.
    + by rewrite lookup_insert_eq.
    + rewrite lookup_insert_ne by done.
      rewrite spread_lookup_target by done. by apply spread_lookup_source.
    + rewrite lookup_insert_ne by done.
      rewrite spread_lookup_target by done.
      unfold spread. by rewrite lookup_union_r.
Qed.

(** ** Grades are ordered *)

(** X20.  [scoreToGrade] always returns one of the five letters of the
    grade point table, and it is monotone: a higher score never earns
    fewer grade points. *)
Theorem scoreToGrade_monotone (s t : Q) :
  scoreToGrade s ∈ ["A"; "B"; "C"; "D"; "F"] ∧
  ((s <= t)%Q ->
   (grade_points (scoreToGrade s) <= grade_points (scoreToGrade t))%Z).
Proof.
  split.
  - unfold scoreToGrade.
    repeat (destruct (Qle_bool _ s);
      [repeat first [apply list_elem_of_here | apply list_elem_of_further]|]).
    repeat first [apply list_elem_of_here | apply list_elem_of_further].
  - intros Hle. unfold scoreToGrade.
    destruct (Qle_bool 70 s) eqn:H70;
      [apply Qle_bool_iff in H70|apply Qle_bool_false in H70];
    (destruct (Qle_bool 60 s) eqn:H60;
      [apply Qle_bool_iff in H60|apply Qle_bool_false in H60]);
    (destruct (Qle_bool 50 s) eqn:H50;
      [apply Qle_bool_iff in H50|apply Qle_bool_false in H50]);
    (destruct (Qle_bool 40 s) eqn:H40;
      [apply Qle_bool_iff in H40|apply Qle_bool_false in H40]);
    (destruct (Qle_bool 70 t) eqn:T70;
      [apply Qle_bool_iff in T70|apply Qle_bool_false in T70]);
    (destruct (Qle_bool 60 t) eqn:T60;
      [apply Qle_bool_iff in T60|apply Qle_bool_false in T60]);
    (destruct (Qle_bool 50 t) eqn:T50;
      [apply Qle_bool_iff in T50|apply Qle_bool_false in T50]);
    (destruct (Qle_bool 40 t) eqn:T40;
      [apply Qle_bool_iff in T40|apply Qle_bool_false in T40]);
    try (vm_compute; discriminate); exfalso; lra.
Qed.

Lemma scoreToGrade_monotone_witness :
  (grade_points (scoreToGrade 49) <= grade_points (scoreToGrade 61))%Z.
Proof.
  refine (proj2 (scoreToGrade_monotone 49 61) _). vm_compute. discriminate.
Defined.

Lemma getUserFeedback_after_submit_witness :
  ∃ w', submitFeedback feedback_a1 fresh = (Returned tt, w') ∧
        getUserFeedback "u2" (storage w') = getUserFeedback "u2" (storage fresh).
Proof.
  destruct (getUserFeedback_after_submit feedback_a1 fresh) as (w' & Hrun & _ & Hother).
  exists w'. split; [exact Hrun|]. apply Hother. discriminate.
Defined.

Lemma studentFullProfile_edges_witness :
  ∃ p, studentFullProfile "s9" orphan_store = Some p ∧
       p !! "id" = Some "s9" ∧ "s9" = "s9" ∧
       p !! "studentId" = Some "s9" ∧
       p !! "matric" = Some "NOU009" ∧
       p !! "username" = None.
Proof.
  refine (proj2 (studentFullProfile_edges "s9" orphan_store)
            (Student.mk "s9" "u9" "NOU009" "LAW" "200" "Main Campus") _ _);
    reflexivity.
Defined.

(** ** Materials *)

Lemma filter_idemp {A} (P : A -> Prop) `{!forall x, Decision (P x)} (l : list A) :
  filter P (filter P l) = filter P l.
Proof.
  induction l as [|x l IH]; [done|].
  destruct (decide (P x)) as [Hx|Hx].
  - rewrite (filter_cons_True P x l Hx), (filter_cons_True P x _ Hx). by f_equal.
  - by rewrite (filter_cons_False P x l Hx).
Qed.

Lemma filter_all {A} (P : A -> Prop) `{!forall x, Decision (P x)} (l : list A) :
  (∀ x, x ∈ l -> P x) -> filter P l = l.
Proof.
  induction l as [|x l IH]; intros Hall; [done|].
  rewrite filter_cons_True by (apply Hall, list_elem_of_here).
  f_equal. apply IH. intros y Hy. by apply Hall, list_elem_of_further.
Qed.

Lemma filter_snoc_True {A} (P : A -> Prop) `{!forall x, Decision (P x)}
    (l : list A) (x : A) :
  P x -> filter P (l ++ [x]) = filter P l ++ [x].
Proof. intros Hx. by rewrite filter_app, filter_cons_True, filter_nil. Qed.

(** The course ids of a student's enrollments, as [getMaterialsForStudent]
    collects them. *)
Lemma enrolled_course_ids (studentId courseId : string) (s : Store) :
  courseId ∈ (Enrollment.courseId <$> getEnrollmentsForStudent studentId s) <->
  ∃ e, e ∈ enrollments s ∧ enrolled studentId courseId e.
Proof.
  unfold getEnrollmentsForStudent, enrolled. rewrite list_elem_of_fmap. split.
  - intros (e & -> & He). apply list_elem_of_filter in He as [Hs He]. by exists e.
  - intros (e & He & Hs & Hc). exists e. split; [done|]. by apply list_elem_of_filter.
Qed.

(** X21.  [uploadMaterial] never fails and appends one material: it has a
    new id, the course given, the uploader's id and name and the time of
    the call.  It is listed last among the materials of its course, the
    lists of the other courses are unchanged, and a student sees it in
    [getMaterialsForStudent] exactly when enrolled in the course. *)
Theorem uploadMaterial_then_listed (f : MaterialFields) (w : World) :
  ∃ w' m,
    uploadMaterial f w = (Returned tt, w') ∧
    materials (storage w') = materials (storage w) ++ [m] ∧
    Material.id m = uid_at (env w) (reads w) ∧
    Material.courseId m = mf_courseId f ∧
    Material.uploadedBy m = User.id (mf_uploadedBy f) ∧
    Material.uploaderName m = User.name (mf_uploadedBy f) ∧
    Material.uploadedAt m = now_at (env w) (S (reads w)) ∧
    getMaterialsForCourse (mf_courseId f) (storage w')
      = getMaterialsForCourse (mf_courseId f) (storage w) ++ [m] ∧
    (∀ courseId, courseId ≠ mf_courseId f ->
       getMaterialsForCourse courseId (storage w')
         = getMaterialsForCourse courseId (storage w)) ∧
    (∀ studentId e,
       e ∈ enrollments (storage w) -> enrolled studentId (mf_courseId f) e ->
       getMaterialsForStudent studentId (storage w')
         = getMaterialsForStudent studentId (storage w) ++ [m]) ∧
    (∀ studentId,
       (∀ e, e ∈ enrollments (storage w) -> ¬ enrolled studentId (mf_courseId f) e) ->
       getMaterialsForStudent studentId (storage w')
         = getMaterialsForStudent studentId (storage w)).
Proof.
  unfold uploadMaterial, mbind, M_bind, get; simpl.
  eexists _, _. split; [reflexivity|]. simpl.
  do 6 (split; [reflexivity|]).
  split; [|split; [|split]].
  - unfold getMaterialsForCourse; simpl. by apply filter_snoc_True.
  - intros courseId Hne. unfold getMaterialsForCourse; simpl.
    apply filter_append_other. simpl. congruence.
  - intros studentId e He Hen. unfold getMaterialsForStudent; simpl.
    apply filter_snoc_True. simpl.
    apply (enrolled_course_ids studentId (mf_courseId f) (storage w)). by exists e.
  - intros studentId Hnone. unfold getMaterialsForStudent; simpl.
    apply filter_append_other. simpl.
    intros Hin. apply (enrolled_course_ids studentId (mf_courseId f) (storage w)) in Hin
      as (e & He & Hen).
    by apply (Hnone e).
Qed.

Lemma uploadMaterial_then_listed_witness :
  ∃ w' m,
    uploadMaterial notes graded_twice = (Returned tt, w') ∧
    Material.courseId m = "id_1735725600000_1" ∧
    getMaterialsForStudent "s1" (storage w')
      = getMaterialsForStudent "s1" (storage graded_twice) ++ [m] ∧
    getMaterialsForStudent "s2" (storage w')
      = getMaterialsForStudent "s2" (storage graded_twice).
Proof.
  destruct (uploadMaterial_then_listed notes graded_twice)
    as (w' & m & Hrun & _ & _ & Hc & _ & _ & _ & _ & _ & Hyes & Hno).
  exists w', m. split; [exact Hrun|]. split; [exact Hc|]. split.
  - apply (Hyes "s1" (Enrollment.mk "id_1735725600000_5" "s1" "id_1735725600000_1"
                        "2024/2025" "2025-01-01")).
    + vm_compute. apply list_elem_of_here.
    + by split.
  - apply Hno. intros e He [Hs _]. vm_compute in He.
    repeat (apply elem_of_cons in He as [->|He]; [discriminate Hs|]).
    by apply not_elem_of_nil in He.
Defined.

(** X22.  [deleteMaterial] never fails and removes exactly the materials
    with the id given, keeping the others in order; it writes nothing
    else (in particular no audit entry), changes nothing when no material
    has the id, and deleting again changes nothing more. *)
Theorem deleteMaterial_removes (id : string) (w : World) :
  ∃ w',
    deleteMaterial id w = (Returned tt, w') ∧
    (∀ m, m ∈ materials (storage w') <->
          m ∈ materials (storage w) ∧ Material.id m ≠ id) ∧
    sublist (materials (storage w')) (materials (storage w)) ∧
    (∀ courseId m, m ∈ getMaterialsForCourse courseId (storage w') <->
          m ∈ getMaterialsForCourse courseId (storage w) ∧ Material.id m ≠ id) ∧
    audit_trail (storage w') = audit_trail (storage w) ∧
    courses (storage w') = courses (storage w) ∧
    enrollments (storage w') = enrollments (storage w) ∧
    ((∀ m, m ∈ materials (storage w) -> Material.id m ≠ id) ->
     materials (storage w') = materials (storage w)) ∧
    deleteMaterial id w' = (Returned tt, w').
Proof.
  unfold deleteMaterial, mbind, M_bind, get; simpl.
  eexists. split; [reflexivity|]. simpl.
  split; [|split; [|split; [|split; [|split; [|split; [|split]]]]]]; try reflexivity.
  - intros m. rewrite list_elem_of_filter. tauto.
  - apply sublist_filter.
  - intros courseId m. unfold getMaterialsForCourse; simpl.
    rewrite !list_elem_of_filter. tauto.
  - apply filter_all.
  - unfold set_materials, put; simpl. by rewrite filter_idemp.
Qed.

Lemma deleteMaterial_removes_witness :
  ∃ w', deleteMaterial "id_1735725600000_9" with_notes = (Returned tt, w') ∧
        materials (storage w') = materials (storage with_notes).
Proof.
  destruct (deleteMaterial_removes "id_1735725600000_9" with_notes)
    as (w' & Hrun & _ & _ & _ & _ & _ & _ & Hsame & _).
  exists w'. split; [exact Hrun|]. apply Hsame.
  intros m Hm. vm_compute in Hm.
  apply elem_of_cons in Hm as [->|Hm]; [discriminate|].
  by apply not_elem_of_nil in Hm.
Defined.

(** ** Enrollment gives access *)

Lemma enrolled_access (studentId courseId : string) (s : Store) (e : Enrollment.t) :
  e ∈ enrollments s -> enrolled studentId courseId e ->
  (∀ m, m ∈ materials s -> Material.courseId m = courseId ->
        m ∈ getMaterialsForStudent studentId s) ∧
  (∀ c, getCourseById courseId s = Some c -> c ∈ getEnrolledCourses studentId s).
Proof.
  intros He Hen. split.
  - intros m Hm Hc. unfold getMaterialsForStudent. apply list_elem_of_filter.
    split; [|done]. rewrite Hc. apply enrolled_course_ids. by exists e.
  - intros c Hc. unfold getEnrolledCourses. apply list_elem_of_omap.
    exists e. destruct Hen as [Hs Hcid]. split.
    + unfold getEnrollmentsForStudent. by apply list_elem_of_filter.
    + by rewrite Hcid.
Qed.

(** X23.  [enroll] then the queries: after [enroll] the course, if it
    exists, is among the student's enrolled courses and every material of
    the course is among the student's materials; an enrollment in a
    course that does not exist adds nothing to [getEnrolledCourses]; and
    the enrolled courses of every other student are unchanged. *)
Theorem enroll_then_enrolled_courses (studentId courseId : string)
    (semester : option string) (w : World) :
  ∃ w',
    enroll studentId courseId semester w = (Returned tt, w') ∧
    (∀ c, getCourseById courseId (storage w) = Some c ->
          c ∈ getEnrolledCourses studentId (storage w')) ∧
    (∀ m, m ∈ materials (storage w) -> Material.courseId m = courseId ->
          m ∈ getMaterialsForStudent studentId (storage w')) ∧
    (getCourseById courseId (storage w) = None ->
     getEnrolledCourses studentId (storage w')
       = getEnrolledCourses studentId (storage w)) ∧
    (∀ other, other ≠ studentId ->
       getEnrolledCourses other (storage w') = getEnrolledCourses other (storage w)).
Proof.
  destruct (find (enrolled studentId courseId) (enrollments (storage w)))
    as [e|] eqn:Efind.
  - exists w. split; [by apply (enroll_already _ _ _ _ e)|].
    apply find_Some_inv in Efind as [He Hen].
    destruct (enrolled_access studentId courseId (storage w) e He Hen) as [Hm Hc].
    by repeat split.
  - unfold enroll, mbind, M_bind, get; simpl. rewrite Efind; simpl.
    eexists. split; [reflexivity|]. simpl.
    set (e := Enrollment.mk _ _ _ _ _).
    set (s' := mkStore _ _ _ _ _ _ _ _ _ _).
    assert (e ∈ enrollments s') as He
      by (apply elem_of_app; right; apply list_elem_of_here).
    assert (enrolled studentId courseId e) as Hen by done.
    destruct (enrolled_access studentId courseId s' e He Hen) as [Hm Hc].
    split; [exact Hc|]. split; [exact Hm|]. split.
    + intros Hnone. unfold getEnrolledCourses, getEnrollmentsForStudent; simpl.
      rewrite filter_snoc_True by done. rewrite omap_app; simpl.
      change (getCourseById courseId s') with (getCourseById courseId (storage w)).
      by rewrite Hnone, app_nil_r.
    + intros other Hne. unfold getEnrolledCourses, getEnrollmentsForStudent; simpl.
      rewrite filter_append_other; [done|]. simpl. congruence.
Qed.

Lemma enroll_then_enrolled_courses_witness :
  ∃ w',
    enroll "s2" "id_1735725600000_1" None graded_twice = (Returned tt, w') ∧
    Course.mk "id_1735725600000_1" "CIT101" "Computing" (Some (Js.of_Z 3)) ""
      ∈ getEnrolledCourses "s2" (storage w') ∧
    getEnrolledCourses "s1" (storage w') = getEnrolledCourses "s1" (storage graded_twice).
Proof.
  destruct (enroll_then_enrolled_courses "s2" "id_1735725600000_1" None graded_twice)
    as (w' & Hrun & Hc & _ & _ & Hother).
  exists w'. split; [exact Hrun|]. split.
  - apply Hc. reflexivity.
  - apply Hother. discriminate.
Defined.

(** X24.  Grading gives access: in a store where every graded student is
    enrolled, after [upsertResult] the student is enrolled in the course,
    so the course, if it exists, is among the student's enrolled courses
    and its materials are among the student's materials. *)
Theorem grading_gives_access (studentId courseId : string) (score : Q)
    (actor : User.t) (w : World) :
  graded_are_enrolled (storage w) ->
  ∃ w' e,
    upsertResult studentId courseId score actor w = (Returned tt, w') ∧
    e ∈ enrollments (storage w') ∧ enrolled studentId courseId e ∧
    (∀ c, getCourseById courseId (storage w) = Some c ->
          c ∈ getEnrolledCourses studentId (storage w')) ∧
    (∀ m, m ∈ materials (storage w) -> Material.courseId m = courseId ->
          m ∈ getMaterialsForStudent studentId (storage w')).
Proof.
  intros Hinv.
  unfold upsertResult, enroll, addAuditEntry, mbind, M_bind, get; simpl.
  destruct (list_find (result_of studentId courseId) (results (storage w)))
    as [[i r0]|] eqn:Efind; simpl.
  - apply list_find_Some in Efind as (Hi & [Hs Hc] & _).
    destruct (Hinv r0) as (e & He & Hen); [by eapply list_elem_of_lookup_2|].
    rewrite Hs, Hc in Hen.
    eexists _, e. split; [reflexivity|]. simpl.
    set (s' := mkStore _ _ _ _ _ _ _ _ _ _).
    destruct (enrolled_access studentId courseId s' e He Hen) as [Hm Hcs].
    split; [exact He|]. split; [exact Hen|]. split; [exact Hcs|exact Hm].
  - destruct (find (enrolled studentId courseId) (enrollments (storage w)))
      as [e|] eqn:Eenr; simpl.
    + apply find_Some_inv in Eenr as [He Hen].
      eexists _, e. split; [reflexivity|]. simpl.
      set (s' := mkStore _ _ _ _ _ _ _ _ _ _).
      destruct (enrolled_access studentId courseId s' e He Hen) as [Hm Hcs].
      split; [exact He|]. split; [exact Hen|]. split; [exact Hcs|exact Hm].
    + eexists _, _. split; [reflexivity|]. simpl.
      set (e := Enrollment.mk _ _ _ _ _).
      set (s' := mkStore _ _ _ _ _ _ _ _ _ _).
      assert (e ∈ enrollments s') as He
        by (apply elem_of_app; right; apply list_elem_of_here).
      assert (enrolled studentId courseId e) as Hen by done.
      destruct (enrolled_access studentId courseId s' e He Hen) as [Hm Hcs].
      split; [exact He|]. split; [exact Hen|]. split; [exact Hcs|exact Hm].
Qed.

Lemma grading_gives_access_witness :
  ∃ w' e,
    upsertResult "s1" "c1" 72 admin graded_once = (Returned tt, w') ∧
    e ∈ enrollments (storage w') ∧ enrolled "s1" "c1" e ∧
    (∀ c, getCourseById "c1" (storage graded_once) = Some c ->
          c ∈ getEnrolledCourses "s1" (storage w')) ∧
    (∀ m, m ∈ materials (storage graded_once) -> Material.courseId m = "c1" ->
          m ∈ getMaterialsForStudent "s1" (storage w')).
Proof.
  refine (grading_gives_access "s1" "c1" 72 admin graded_once _).
  intros r Hr. vm_compute in Hr.
  apply elem_of_cons in Hr as [->|Hr]; [|by apply not_elem_of_nil in Hr].
  exists (Enrollment.mk "id_1735725600000_3" "s1" "c1" "2024/2025" "2025-01-01").
  split; [|by split]. vm_compute. apply list_elem_of_here.
Defined.

(** ** The first load *)

(** X25.  [boot] on storage without the [booted] flag replaces every
    collection: the only user is the administrator, created at the time
    of the call, all other collections are empty and the flag is set.
    Then [login] with the seeded credentials returns the administrator,
    any other password or role is refused, and a second [boot] changes
    nothing. *)
Theorem boot_first_load (w : World) :
  booted (storage w) = false ->
  ∃ w',
    boot w = (Returned tt, w') ∧
    storage w' = mkStore [admin_user (now_at (env w) (reads w))]
                   [] [] [] [] [] [] [] [] true ∧
    login "admin" "admin123" "admin" (storage w')
      = Some (admin_user (now_at (env w) (reads w))) ∧
    (∀ username password role,
       login username password role (storage w') ≠ None ->
       username = "admin" ∧ password = "admin123" ∧ role = "admin") ∧
    boot w' = (Returned tt, w').
Proof.
  destruct w as [[us ss ls cs es rs ms tr fb b] e n]. cbn [storage booted env reads].
  intros ->.
  exists (mkWorld (mkStore [admin_user (now_at e n)] [] [] [] [] [] [] [] [] true)
            e (S n)).
  split; [reflexivity|]. split; [reflexivity|]. split; [reflexivity|].
  split; [|reflexivity].
  intros username password role. unfold login, find. cbn [storage users].
  simpl. case_decide as Hd; [|done].
  intros _. destruct Hd as (<- & <- & <-). done.
Qed.

Lemma boot_first_load_witness :
  ∃ w',
    boot (mkWorld empty_storage sample_env 0) = (Returned tt, w') ∧
    login "admin" "admin123" "admin" (storage w') = Some admin ∧
    boot w' = (Returned tt, w').
Proof.
  destruct (boot_first_load (mkWorld empty_storage sample_env 0))
    as (w' & Hrun & _ & Hlogin & _ & Hagain); [reflexivity|].
  exists w'. split; [exact Hrun|]. split; [exact Hlogin|exact Hagain].
Defined.

(** ** What an operation leaves alone *)

(** Proves one membership in a list of literals. *)
Ltac list_member :=
  simpl; repeat first [apply list_elem_of_here | apply list_elem_of_further].

Ltac frame_case :=
  repeat match goal with |- _ ∧ _ => split end;
  intros Hnot; first [reflexivity | exfalso; apply Hnot; list_member].

(** X26.  Every operation writes only its own keys of the storage: a
    collection whose key is not among [writes o] is the same after [o],
    whether [o] returned or threw.  So only [boot], [addStudent] and
    [addLecturer] touch the users; only grading and [addAuditEntry] touch
    the audit trail; nothing but [boot] touches the [booted] flag. *)
Theorem operations_write_only_their_keys (o : operation) (w : World) :
  ("users" ∉ writes o -> users (storage (perform o w)) = users (storage w)) ∧
  ("students" ∉ writes o -> students (storage (perform o w)) = students (storage w)) ∧
  ("lecturers" ∉ writes o ->
     lecturers (storage (perform o w)) = lecturers (storage w)) ∧
  ("courses" ∉ writes o -> courses (storage (perform o w)) = courses (storage w)) ∧
  ("enrollments" ∉ writes o ->
     enrollments (storage (perform o w)) = enrollments (storage w)) ∧
  ("results" ∉ writes o -> results (storage (perform o w)) = results (storage w)) ∧
  ("materials" ∉ writes o ->
     materials (storage (perform o w)) = materials (storage w)) ∧
  ("audit_trail" ∉ writes o ->
     audit_trail (storage (perform o w)) = audit_trail (storage w)) ∧
  ("feedback" ∉ writes o -> feedback (storage (perform o w)) = feedback (storage w)) ∧
  ("booted" ∉ writes o -> booted (storage (perform o w)) = booted (storage w)).
Proof.
  split_operation o w; frame_case.
Qed.

Lemma operations_write_only_their_keys_witness :
  users (storage (perform (UpsertResult "s1" "c1" 55 admin) fresh))
    = users (storage fresh).
Proof.
  refine (proj1 (operations_write_only_their_keys
                   (UpsertResult "s1" "c1" 55 admin) fresh) _).
  simpl. rewrite !elem_of_cons, elem_of_nil.
  intros [H|[H|[H|[]]]]; discriminate H.
Defined.

(** ** Grading one student leaves the others alone *)

(** X27.  [upsertResult] for one student changes neither the results nor
    the GPA of any other student. *)
Theorem upsertResult_other_student_gpa (studentId other courseId : string)
    (score : Q) (actor : User.t) (w : World) :
  other ≠ studentId ->
  ∃ w',
    upsertResult studentId courseId score actor w = (Returned tt, w') ∧
    getResultsForStudent other (storage w') = getResultsForStudent other (storage w) ∧
    calcGPA other (storage w') = calcGPA other (storage w).
Proof.
  intros Hne.
  assert (∀ s' : Store,
            courses s' = courses (storage w) ->
            getResultsForStudent other s' = getResultsForStudent other (storage w) ->
            calcGPA other s' = calcGPA other (storage w)) as Hgpa.
  { intros s' Hc Hr. unfold calcGPA, gpa_step, getCourseById. by rewrite Hc, Hr. }
  unfold upsertResult, enroll, addAuditEntry, mbind, M_bind, get; simpl.
  destruct (list_find (result_of studentId courseId) (results (storage w)))
    as [[i r0]|] eqn:Efind; simpl.
  - apply list_find_Some in Efind as (Hi & [Hs Hc] & _).
    eexists. split; [reflexivity|].
    set (s' := mkStore _ _ _ _ _ _ _ _ _ _).
    assert (getResultsForStudent other s' = getResultsForStudent other (storage w))
      as Hres.
    { unfold getResultsForStudent; simpl.
      apply (filter_overwrite_other _ _ i r0); [done| |]; simpl; congruence. }
    split; [exact Hres|]. by apply Hgpa.
  - destruct (find (enrolled studentId courseId) (enrollments (storage w)));
      simpl; (eexists; split; [reflexivity|]);
      set (s' := mkStore _ _ _ _ _ _ _ _ _ _);
      (assert (getResultsForStudent other s' = getResultsForStudent other (storage w))
         as Hres
         by (unfold getResultsForStudent; simpl;
             apply filter_append_other; simpl; congruence));
      (split; [exact Hres|]; by apply Hgpa).
Qed.

Lemma upsertResult_other_student_gpa_witness :
  ∃ w',
    upsertResult "s2" "id_1735725600000_1" 10 admin graded_twice = (Returned tt, w') ∧
    getResultsForStudent "s1" (storage w')
      = getResultsForStudent "s1" (storage graded_twice) ∧
    calcGPA "s1" (storage w') = calcGPA "s1" (storage graded_twice).
Proof.
  refine (upsertResult_other_student_gpa "s2" "s1" "id_1735725600000_1" 10 admin
            graded_twice _).
  discriminate.
Defined.

(** ** Lecturer profiles, row by row *)

Lemma lecturer_object_lookup (l : Lecturer.t) :
  lecturer_object l !! "userId" = Some (Lecturer.userId l) ∧
  lecturer_object l !! "staffId" = Some (Lecturer.staffId l) ∧
  lecturer_object l !! "username" = None ∧
  lecturer_object l !! "name" = None.
Proof. unfold lecturer_object. simpl. by simplify_map_eq. Qed.

(** X28.  [allLecturersWithProfiles] gives one row per lecturer, in
    order; in each row [id] and [lecturerId] are the lecturer's own id,
    the staff id is kept, and the name and username are those of the
    linked user when it exists. *)
Theorem allLecturersWithProfiles_rows (st : Store) :
  length (allLecturersWithProfiles st) = length (lecturers st) ∧
  ∀ i l, lecturers st !! i = Some l ->
    ∃ p, allLecturersWithProfiles st !! i = Some p ∧
         p !! "id" = Some (Lecturer.id l) ∧
         p !! "lecturerId" = Some (Lecturer.id l) ∧
         p !! "userId" = Some (Lecturer.userId l) ∧
         p !! "staffId" = Some (Lecturer.staffId l) ∧
         (∀ u, getUserById (Lecturer.userId l) st = Some u ->
               p !! "username" = Some (User.username u) ∧
               p !! "name" = Some (User.name u)) ∧
         (getUserById (Lecturer.userId l) st = None -> p !! "username" = None).
Proof.
  unfold allLecturersWithProfiles. split; [apply length_fmap|].
  intros i l Hi. rewrite list_lookup_fmap, Hi. simpl. eexists. split; [reflexivity|].
  destruct (lecturer_object_lookup l) as (Huid & Hstaff & Hnouser & Hnoname).
  split; [|split; [|split; [|split; [|split]]]].
  - rewrite lookup_insert_ne by done. apply spread_lookup_source, lecturer_object_id.
  - by rewrite lookup_insert_eq.
  - rewrite lookup_insert_ne by done. by apply spread_lookup_source.
  - rewrite lookup_insert_ne by done. by apply spread_lookup_source.
  - intros u ->. simpl. destruct (user_object_lookup u) as (Hname & Hn & _ & _).
    rewrite !lookup_insert_ne by done.
    rewrite (spread_lookup_target _ (lecturer_object l) "username") by done.
    rewrite (spread_lookup_target _ (lecturer_object l) "name") by done.
    split; by apply spread_lookup_source.
  - intros ->. simpl. rewrite lookup_insert_ne by done.
    rewrite spread_lookup_target by done.
    unfold spread. by rewrite lookup_union_r.
Qed.

Lemma allLecturersWithProfiles_rows_witness :
  ∃ p, allLecturersWithProfiles (storage (exec (addLecturer prof) fresh)) !! 0 = Some p ∧
       p !! "id" = Some "id_1735725600000_3" ∧
       p !! "lecturerId" = Some "id_1735725600000_3" ∧
       p !! "userId" = Some "id_1735725600000_1" ∧
       p !! "staffId" = Some "STAFF-1735725600000" ∧
       (∀ u, getUserById "id_1735725600000_1" (storage (exec (addLecturer prof) fresh))
               = Some u ->
             p !! "username" = Some (User.username u) ∧
             p !! "name" = Some (User.name u)) ∧
       (getUserById "id_1735725600000_1" (storage (exec (addLecturer prof) fresh)) = None ->
        p !! "username" = None).
Proof.
  refine (proj2 (allLecturersWithProfiles_rows (storage (exec (addLecturer prof) fresh))) 0
            (Lecturer.mk "id_1735725600000_3" "id_1735725600000_1"
               "STAFF-1735725600000" "CS") _).
  reflexivity.
Defined.

(** ** A new course is found by its code *)

(** X29.  After a successful [addCourse], [getCourseByCode] returns the
    new course: it has the id returned, the title given and the lecturer
    given, or no lecturer.  [getCourseById] returns it too provided the
    new id is not the id of an older course; the courses found under the
    other codes are unchanged. *)
Theorem addCourse_then_lookup (f : CourseFields) (w : World) :
  ¬ code_taken (cf_code f) (storage w) ->
  ∃ id c w',
    addCourse f w = (Returned id, w') ∧
    getCourseByCode (cf_code f) (storage w') = Some c ∧
    Course.id c = id ∧ id = uid_at (env w) (reads w) ∧
    Course.title c = cf_title f ∧
    Course.lecturerId c = default "" (cf_lecturerId f) ∧
    ((∀ c0, c0 ∈ courses (storage w) -> Course.id c0 ≠ id) ->
     getCourseById id (storage w') = Some c) ∧
    (∀ code, code ≠ cf_code f ->
       getCourseByCode code (storage w') = getCourseByCode code (storage w)).
Proof.
  intros Hfree.
  apply (find_None_no_witness (fun c => Course.code c = cf_code f)) in Hfree.
  unfold addCourse, mbind, M_bind, get; simpl. rewrite Hfree; simpl.
  eexists _, _, _. split; [reflexivity|]. simpl.
  unfold getCourseByCode, getCourseById, find in *; simpl.
  apply fmap_None in Hfree.
  split; [by rewrite list_find_append_fresh|].
  do 3 (split; [reflexivity|]).
  split.
  { destruct (cf_lecturerId f) as [x|]; simpl; [|done]. by case_decide. }
  split.
  - intros Hnew. rewrite list_find_append_fresh; [done| |done].
    apply list_find_None, Forall_forall. intros c0 Hc0. by apply Hnew.
  - intros code Hne. rewrite list_find_append_other; [done|]. simpl. congruence.
Qed.

Lemma addCourse_then_lookup_witness :
  ∃ id c w',
    addCourse cit101 fresh = (Returned id, w') ∧
    getCourseByCode "CIT101" (storage w') = Some c ∧
    Course.id c = id ∧ id = "id_1735725600000_1" ∧
    Course.title c = "Computing" ∧
    Course.lecturerId c = "" ∧
    ((∀ c0, c0 ∈ courses (storage fresh) -> Course.id c0 ≠ id) ->
     getCourseById id (storage w') = Some c) ∧
    (∀ code, code ≠ "CIT101" ->
       getCourseByCode code (storage w') = getCourseByCode code (storage fresh)).
Proof.
  refine (addCourse_then_lookup cit101 fresh _).
  intros (c & Hc & _). vm_compute in Hc. by apply not_elem_of_nil in Hc.
Defined.

(** ** A new student is found by the user id *)

(** X30.  After a successful [addStudent] the new user is among the
    users, and [getStudentByUserId] on that user's id returns the new
    student, with the id returned and the matric number given, provided
    no older student already carried the new user id. *)
Theorem addStudent_then_getStudentByUserId (f : StudentFields) (w : World) :
  ¬ username_taken (sf_username f) (storage w) ->
  ¬ matric_taken (sf_matric f) (storage w) ->
  (∀ s0, s0 ∈ students (storage w) -> Student.userId s0 ≠ uid_at (env w) (reads w)) ->
  ∃ studentId w' u s,
    addStudent f w = (Returned studentId, w') ∧
    u ∈ users (storage w') ∧ User.username u = sf_username f ∧
    User.id u = uid_at (env w) (reads w) ∧
    getStudentByUserId (User.id u) (storage w') = Some s ∧
    Student.id s = studentId ∧ Student.userId s = User.id u ∧
    Student.matric s = sf_matric f ∧
    Student.studyCenter s = Js.or_else (sf_studyCenter f) "Main Campus".
Proof.
  intros Hu Hs Hnew.
  apply (find_None_no_witness (fun u => User.username u = sf_username f)) in Hu.
  apply (find_None_no_witness (fun s => Student.matric s = sf_matric f)) in Hs.
  unfold addStudent, mbind, M_bind, get; simpl. rewrite Hu, Hs. simpl.
  eexists _, _,
    (User.mk (uid_at (env w) (reads w)) (sf_username f) (sf_password f) "student"
       (sf_name f) (Js.or_else (sf_email f) (sf_username f +:+ "@noun.edu.ng"))
       (Js.or_else (sf_phone f) "") (now_at (env w) (S (reads w)))), _.
  split; [reflexivity|]. simpl.
  split; [apply elem_of_app; right; apply list_elem_of_here|].
  do 2 (split; [reflexivity|]).
  unfold getStudentByUserId, find; simpl.
  rewrite list_find_append_fresh; [by repeat split| |done].
  apply list_find_None, Forall_forall. intros s0 Hs0. by apply Hnew.
Qed.

Lemma addStudent_then_getStudentByUserId_witness :
  ∃ studentId w' u s,
    addStudent ada fresh = (Returned studentId, w') ∧
    u ∈ users (storage w') ∧ User.username u = "ada" ∧
    User.id u = "id_1735725600000_1" ∧
    getStudentByUserId (User.id u) (storage w') = Some s ∧
    Student.id s = studentId ∧ Student.userId s = User.id u ∧
    Student.matric s = "NOU001" ∧
    Student.studyCenter s = "Main Campus".
Proof.
  refine (addStudent_then_getStudentByUserId ada fresh _ _ _).
  - intros (u & Hu & Hname). vm_compute in Hu.
    apply elem_of_cons in Hu as [->|Hu]; [discriminate|].
    by apply not_elem_of_nil in Hu.
  - intros (s & Hs & _). vm_compute in Hs. by apply not_elem_of_nil in Hs.
  - intros s0 Hs0. vm_compute in Hs0. by apply not_elem_of_nil in Hs0.
Defined.
